(** * Nyx: a shallow embedding of the service registry, the service
    controller, the status poller and the notification rate limiter.

    The development follows the Python sources module by module:
    - [Py]                  the Python values and string methods the code uses;
    - [ServiceStatus]       models/service.py, the status enumeration;
    - [ServiceConfig]       models/service.py, the service record;
    - [ConfigManager]       core/config_manager.py, the registry and its file;
    - [PolkitHelper]        utils/polkit_helper.py, the passwordless query;
    - [ServiceManager]      core/service_manager.py, systemctl invocations;
    - [NotificationManager] core/notification_manager.py, the rate limiter;
    - [NyxApp]              app.py, the poll tick.

    Definitions come first, the theorems about them after. *)

From Stdlib Require Import Ascii QArith.
From Stdlib Require Import DecimalString.
From stdpp Require Import gmap strings list fin_maps.

Open Scope string_scope.
Open Scope list_scope.

Set Warnings "-register-all".

(* ===================================================================== *)
(** ** Python values and string methods *)
(* ===================================================================== *)

Module Py.

(** Strings are byte strings: [str.lower], [str.capitalize] and [str.strip]
    are modelled on ASCII, every other byte is left as it is. *)

Definition is_upper (c : ascii) : bool :=
  let n := nat_of_ascii c in (65 <=? n)%nat && (n <=? 90)%nat.

Definition is_lower (c : ascii) : bool :=
  let n := nat_of_ascii c in (97 <=? n)%nat && (n <=? 122)%nat.

Definition char_lower (c : ascii) : ascii :=
  if is_upper c then ascii_of_nat (nat_of_ascii c + 32) else c.

Definition char_upper (c : ascii) : ascii :=
  if is_lower c then ascii_of_nat (nat_of_ascii c - 32) else c.

(** [s.lower()] *)
Fixpoint lower (s : string) : string :=
  match s with
  | EmptyString => EmptyString
  | String c r => String (char_lower c) (lower r)
  end.

(** [s.capitalize()]: first character upper-cased, the rest lower-cased. *)
Definition capitalize (s : string) : string :=
  match s with
  | EmptyString => EmptyString
  | String c r => String (char_upper c) (lower r)
  end.

(** The characters [str.strip()] removes: tab, line feed, vertical tab, form
    feed, carriage return, the four separators 28-31 and the space. *)
Definition is_space (c : ascii) : bool :=
  let n := nat_of_ascii c in
  ((9 <=? n)%nat && (n <=? 13)%nat) || ((28 <=? n)%nat && (n <=? 32)%nat).

Fixpoint lstrip (s : string) : string :=
  match s with
  | EmptyString => EmptyString
  | String c r => if is_space c then lstrip r else s
  end.

Fixpoint rstrip (s : string) : string :=
  match s with
  | EmptyString => EmptyString
  | String c r =>
      match rstrip r with
      | EmptyString => if is_space c then EmptyString else String c EmptyString
      | r' => String c r'
      end
  end.

(** [s.strip()] *)
Definition strip (s : string) : string := lstrip (rstrip s).

(** The values a YAML document loads to ([yaml.safe_load]) and a settings
    entry may hold: null, booleans, integers, strings, sequences and
    mappings with string keys. A mapping lists its entries in insertion
    order; a key is looked up at its first entry. *)
Inductive pyval : Type :=
| PNone
| PBool (b : bool)
| PInt (z : Z)
| PStr (s : string)
| PList (l : list pyval)
| PDict (d : list (string * pyval)).

(** Truth value of [v] in [if v], [not v], [a and b]. *)
Definition truthy (v : pyval) : bool :=
  match v with
  | PNone => false
  | PBool b => b
  | PInt z => negb (z =? 0)%Z
  | PStr s => negb (String.eqb s "")
  | PList l => match l with [] => false | _ => true end
  | PDict d => match d with [] => false | _ => true end
  end.

(** [d.get(k)] on the entries of a mapping: [None] when the key is absent. *)
Fixpoint dict_get (d : list (string * pyval)) (k : string) : option pyval :=
  match d with
  | [] => None
  | (k', v) :: r => if String.eqb k' k then Some v else dict_get r k
  end.

(** [d.get(k, default)] *)
Definition dict_get_default (d : list (string * pyval)) (k : string)
    (default : pyval) : pyval :=
  match dict_get d k with Some v => v | None => default end.

(** [k in d] *)
Definition dict_contains (d : list (string * pyval)) (k : string) : bool :=
  match dict_get d k with Some _ => true | None => false end.

(** [isinstance(v, dict)] and [isinstance(v, list)] *)
Definition is_dict (v : pyval) : bool :=
  match v with PDict _ => true | _ => false end.

Definition is_list (v : pyval) : bool :=
  match v with PList _ => true | _ => false end.

(** The exception classes the modelled code raises or catches; messages are
    not kept. *)
Inductive exn : Type := KeyError | AttributeError | TypeError | ValueError.

(** What a call does: it returns, or it raises. [Untyped] stands for a call
    that returns an object whose fields break the dataclass annotations (a
    number where a [str] is declared, say): Python builds such an object,
    the typed records of this development cannot hold it, and nothing is
    stated about it. *)
Inductive outcome (A : Type) : Type :=
| Returns (a : A)
| Raises (e : exn)
| Untyped.

Arguments Returns {A} a.
Arguments Raises {A} e.
Arguments Untyped {A}.

End Py.

Import Py.

(* ===================================================================== *)
(** ** models/service.py: ServiceStatus *)
(* ===================================================================== *)

Module ServiceStatus.

Inductive t : Type :=
| ACTIVE | INACTIVE | FAILED | ACTIVATING | DEACTIVATING | UNKNOWN.

#[global] Instance t_eq_dec : EqDecision t.
Proof. solve_decision. Defined.

(** The members in definition order, and each member's value. *)
Definition members : list t :=
  [ACTIVE; INACTIVE; FAILED; ACTIVATING; DEACTIVATING; UNKNOWN].

Definition value (m : t) : string :=
  match m with
  | ACTIVE => "active"
  | INACTIVE => "inactive"
  | FAILED => "failed"
  | ACTIVATING => "activating"
  | DEACTIVATING => "deactivating"
  | UNKNOWN => "unknown"
  end.

(** [cls(v)]: the member whose value is [v]; [None] stands for the
    [ValueError] the enum raises when there is none. *)
Definition of_value (v : string) : option t :=
  find (fun m => String.eqb (value m) v) members.

(** [ServiceStatus.from_string] *)
Definition from_string (status_str : string) : t :=
  match of_value (lower status_str) with
  | Some m => m
  | None => UNKNOWN
  end.

End ServiceStatus.

(* ===================================================================== *)
(** ** models/service.py: ServiceConfig *)
(* ===================================================================== *)

Module ServiceConfig.

Record t : Type := mk {
  name : string;
  display_name : string;
  icon : string;
  icon_light : option string;
  icon_dark : option string;
  service_type : string;
  auto_start : bool;
  enabled : bool
}.

(** An [Optional[str]] as a Python value. *)
Definition of_optional (o : option string) : pyval :=
  match o with Some s => PStr s | None => PNone end.

(** [v in ("user", "system")] *)
Definition in_user_system (v : pyval) : bool :=
  match v with
  | PStr s => String.eqb s "user" || String.eqb s "system"
  | _ => false
  end.

(** Reading a value at a declared type: [str], [bool], [Optional[str]]. *)
Definition as_str (v : pyval) : option string :=
  match v with PStr s => Some s | _ => None end.

Definition as_bool (v : pyval) : option bool :=
  match v with PBool b => Some b | _ => None end.

Definition as_optional_str (v : pyval) : option (option string) :=
  match v with
  | PNone => Some None
  | PStr s => Some (Some s)
  | _ => None
  end.

(** The record for field values that respect the annotations. *)
Definition typed (name display_name icon icon_light icon_dark service_type
    auto_start enabled : pyval) : outcome t :=
  let fields :=
    n ← as_str name;
    d ← as_str display_name;
    i ← as_str icon;
    l ← as_optional_str icon_light;
    k ← as_optional_str icon_dark;
    ty ← as_str service_type;
    a ← as_bool auto_start;
    e ← as_bool enabled;
    Some (mk n d i l k ty a e) in
  match fields with
  | Some self => Returns self
  | None => Untyped
  end.

(** [ServiceConfig(...)]: the generated [__init__] stores the arguments and
    runs [__post_init__], which raises [ValueError] on an empty name or on a
    service type other than "user" and "system", and replaces an empty
    display name by the capitalized name ([AttributeError] when the name has
    no [capitalize], that is when it is not a string). *)
Definition new (name display_name icon icon_light icon_dark service_type
    auto_start enabled : pyval) : outcome t :=
  if negb (truthy name) then Raises ValueError
  else if negb (in_user_system service_type) then Raises ValueError
  else if negb (truthy display_name) then
    match name with
    | PStr n =>
        typed name (PStr (capitalize n)) icon icon_light icon_dark
          service_type auto_start enabled
    | _ => Raises AttributeError
    end
  else
    typed name display_name icon icon_light icon_dark service_type
      auto_start enabled.

(** A construction whose arguments have the declared types. *)
Definition make (name display_name icon : string)
    (icon_light icon_dark : option string) (service_type : string)
    (auto_start enabled : bool) : outcome t :=
  new (PStr name) (PStr display_name) (PStr icon) (of_optional icon_light)
    (of_optional icon_dark) (PStr service_type) (PBool auto_start)
    (PBool enabled).

(** [is_user_service] *)
Definition is_user_service (self : t) : bool :=
  String.eqb (service_type self) "user".

(** [a or b] on an optional icon and the base icon. *)
Definition or_icon (o : option string) (base : string) : string :=
  match o with
  | Some s => if String.eqb s "" then base else s
  | None => base
  end.

(** [get_icon_for_theme] *)
Definition get_icon_for_theme (self : t) (is_dark_theme : bool) : string :=
  if is_dark_theme then or_icon (icon_dark self) (icon self)
  else or_icon (icon_light self) (icon self).

(** [o and o != base]: the themed icon is set, not empty, and differs from
    the base icon. *)
Definition themed (o : option string) (base : string) : bool :=
  match o with
  | Some s => negb (String.eqb s "") && negb (String.eqb s base)
  | None => false
  end.

(** The entry [to_dict] adds for a themed icon. *)
Definition themed_entry (key : string) (o : option string) (base : string)
    : list (string * pyval) :=
  if themed o base then [(key, of_optional o)] else [].

(** [to_dict] *)
Definition to_dict (self : t) : pyval :=
  PDict
    ([ ("name", PStr (name self));
       ("display_name", PStr (display_name self));
       ("icon", PStr (icon self));
       ("service_type", PStr (service_type self));
       ("auto_start", PBool (auto_start self));
       ("enabled", PBool (enabled self)) ]
     ++ themed_entry "icon_light" (icon_light self) (icon self)
     ++ themed_entry "icon_dark" (icon_dark self) (icon self)).

(** [from_dict]: the arguments are evaluated in order, [data["name"]] first
    ([TypeError] when [data] is not a mapping, [KeyError] when the key is
    absent), then [data["name"].capitalize()] ([AttributeError] when the name
    is not a string), then the constructor runs. *)
Definition from_dict (data : pyval) : outcome t :=
  match data with
  | PDict d =>
      match dict_get d "name" with
      | None => Raises KeyError
      | Some (PStr n) =>
          new (PStr n)
            (dict_get_default d "display_name" (PStr (capitalize n)))
            (dict_get_default d "icon" (PStr "application-x-executable"))
            (dict_get_default d "icon_light" PNone)
            (dict_get_default d "icon_dark" PNone)
            (dict_get_default d "service_type" (PStr "user"))
            (dict_get_default d "auto_start" (PBool false))
            (dict_get_default d "enabled" (PBool true))
      | Some _ => Raises AttributeError
      end
  | _ => Raises TypeError
  end.

(** What [__post_init__] establishes: a name that is not empty, a service
    type that is "user" or "system", a display name that is not empty. *)
Definition valid (self : t) : Prop :=
  name self <> ""
  /\ (service_type self = "user" \/ service_type self = "system")
  /\ display_name self <> "".

(** The identity key of a record. *)
Definition key (self : t) : string * string := (name self, service_type self).

(** A themed icon as it comes back from [to_dict] and [from_dict]: kept when
    [to_dict] writes it, [None] otherwise. *)
Definition canonical_icon (o : option string) (base : string) : option string :=
  if themed o base then o else None.

Definition normalize_icons (self : t) : t :=
  mk (name self) (display_name self) (icon self)
     (canonical_icon (icon_light self) (icon self))
     (canonical_icon (icon_dark self) (icon self))
     (service_type self) (auto_start self) (enabled self).

(** Each themed icon is [None], or a string that is not empty and differs
    from the base icon. *)
Definition canonical_icons (self : t) : Prop :=
  canonical_icon (icon_light self) (icon self) = icon_light self
  /\ canonical_icon (icon_dark self) (icon self) = icon_dark self.

End ServiceConfig.

(* ===================================================================== *)
(** ** core/config_manager.py: ConfigManager *)
(* ===================================================================== *)

Module ConfigManager.

Definition CONFIG_VERSION : string := "1.0".

(** utils/constants.py *)
Definition DEFAULT_UPDATE_INTERVAL : Z := 5.

(** The manager's fields. [settings] is a [dict] from strings to values. *)
Record t : Type := mk {
  services : list ServiceConfig.t;
  settings : gmap string pyval
}.

(** What reading CONFIG_FILE gives: [open] raises, [yaml.safe_load] raises
    [yaml.YAMLError], or the document loads to a value. [yaml.dump] followed
    by [yaml.safe_load] is taken to give back the value that was dumped. *)
Inductive config_file : Type :=
| Unreadable
| YAMLError
| Document (data : pyval).

(** The files of the configuration directory: config.yaml and its backup
    config.yaml.bak ([None]: the file does not exist), and whether
    [save_config] can write the document to the temporary file and move
    that over config.yaml. *)
Record files : Type := mk_files {
  config_yaml : option config_file;
  config_yaml_bak : option config_file;
  writable : bool
}.

(** [__init__] *)
Definition init : t := mk [] ∅.

(** The [defaults] of [_ensure_default_settings], in the order written. *)
Definition defaults : list (string * pyval) :=
  [ ("update_interval", PInt DEFAULT_UPDATE_INTERVAL);
    ("show_notifications", PBool true);
    ("minimize_to_tray", PBool false);
    ("passwordless_mode", PBool false);
    ("show_main_tray", PBool true) ].

(** One turn of the loop of [_ensure_default_settings]. *)
Definition set_default (st : gmap string pyval) (kv : string * pyval)
    : gmap string pyval :=
  match st !! kv.1 with
  | Some _ => st
  | None => <[kv.1 := kv.2]> st
  end.

Definition _ensure_default_settings (self : t) : t :=
  mk (services self) (foldl set_default (settings self) defaults).

Definition _load_defaults (self : t) : t :=
  _ensure_default_settings (mk [] ∅).

Definition _validate_config (data : pyval) : bool :=
  match data with
  | PDict d =>
      if dict_contains d "services"
         && negb (is_list (dict_get_default d "services" PNone))
      then false
      else if dict_contains d "settings"
              && negb (is_dict (dict_get_default d "settings" PNone))
      then false
      else true
  | _ => false
  end.

(** The loop over [data.get("services", [])]: an entry [from_dict] raises on
    is logged and skipped. *)
Fixpoint load_services (entries : list pyval) (acc : list ServiceConfig.t)
    : option (list ServiceConfig.t) :=
  match entries with
  | [] => Some acc
  | service_data :: rest =>
      match ServiceConfig.from_dict service_data with
      | Returns service => load_services rest (acc ++ [service])
      | Raises _ => load_services rest acc
      | Untyped => None
      end
  end.

(** [load_config]: the flag returned and the manager afterwards. The result
    is [None] only when [from_dict] builds an object outside the typed
    records (see [Py.Untyped]). The last two branches cannot be reached after
    [_validate_config]; there Python would raise while iterating, which the
    outer handler turns into the defaults. *)
Definition load_config (self : t) (fs : files) : option (bool * t) :=
  match config_yaml fs with
  | None => Some (false, _load_defaults self)
  | Some Unreadable => Some (false, _load_defaults self)
  | Some YAMLError => Some (false, _load_defaults self)
  | Some (Document data) =>
      if negb (truthy data) then Some (false, _load_defaults self)
      else if negb (_validate_config data) then Some (false, _load_defaults self)
      else
        match data with
        | PDict d =>
            match dict_get_default d "services" (PList []),
                  dict_get_default d "settings" (PDict []) with
            | PList entries, PDict st =>
                match load_services entries [] with
                | Some loaded =>
                    Some (true, _ensure_default_settings (mk loaded (list_to_map st)))
                | None => None
                end
            | _, _ => Some (false, _load_defaults self)
            end
        | _ => Some (false, _load_defaults self)
        end
  end.

(** The [data] that [save_config] dumps. *)
Definition document (self : t) : pyval :=
  PDict
    [ ("version", PStr CONFIG_VERSION);
      ("services", PList (map ServiceConfig.to_dict (services self)));
      ("settings", PDict (map_to_list (settings self))) ].

(** [save_config]: an existing config.yaml is first copied over the backup
    ([shutil.copy2], which raises when the file cannot be read), then the
    document is written to a temporary file that replaces config.yaml. Any
    exception gives [False]. When it is the writing that fails, the copy has
    been made: config.yaml is as it was and the backup holds its content,
    whatever the backup held before. The copy itself is taken to succeed
    when config.yaml can be read. *)
Definition save_config (self : t) (fs : files) : bool * files :=
  match config_yaml fs with
  | Some Unreadable => (false, fs)
  | Some previous =>
      if writable fs
      then (true, mk_files (Some (Document (document self))) (Some previous) true)
      else (false, mk_files (Some previous) (Some previous) false)
  | None =>
      if writable fs
      then (true, mk_files (Some (Document (document self))) (config_yaml_bak fs) true)
      else (false, fs)
  end.

(** [s.name == name and s.service_type == service_type] *)
Definition has_key (service_name service_type : string) (s : ServiceConfig.t)
    : bool :=
  String.eqb (ServiceConfig.name s) service_name
  && String.eqb (ServiceConfig.service_type s) service_type.

(** [add_service]: the flag returned, the manager and the files afterwards. *)
Definition add_service (self : t) (fs : files) (service : ServiceConfig.t)
    : bool * t * files :=
  if existsb (has_key (ServiceConfig.name service)
                (ServiceConfig.service_type service)) (services self)
  then (false, self, fs)
  else
    let self' := mk (services self ++ [service]) (settings self) in
    (true, self', (save_config self' fs).2).

(** [remove_service] *)
Definition remove_service (self : t) (fs : files)
    (service_name service_type : string) : bool * t * files :=
  let original_count := length (services self) in
  let self' :=
    mk (List.filter (fun s => negb (has_key service_name service_type s))
          (services self))
       (settings self) in
  if (length (services self') <? original_count)%nat
  then (true, self', (save_config self' fs).2)
  else (false, self', fs).

(** [update_service]: the first record with the old key is overwritten in
    place. *)
Definition update_service (self : t) (fs : files) (old_name old_type : string)
    (updated_service : ServiceConfig.t) : bool * t * files :=
  match list_find (fun s => has_key old_name old_type s = true) (services self) with
  | Some (i, _) =>
      let self' := mk (<[i := updated_service]> (services self)) (settings self) in
      (true, self', (save_config self' fs).2)
  | None => (false, self, fs)
  end.

(** [get_service] *)
Definition get_service (self : t) (service_name service_type : string)
    : option ServiceConfig.t :=
  find (has_key service_name service_type) (services self).

(** [get_enabled_services] *)
Definition get_enabled_services (self : t) : list ServiceConfig.t :=
  List.filter ServiceConfig.enabled (services self).

(** [get_setting] *)
Definition get_setting (self : t) (key : string) (default : pyval) : pyval :=
  match settings self !! key with Some v => v | None => default end.

(** [set_setting] *)
Definition set_setting (self : t) (fs : files) (key : string) (value : pyval)
    : t * files :=
  let self' := mk (services self) (<[key := value]> (settings self)) in
  (self', (save_config self' fs).2).

End ConfigManager.

(* ===================================================================== *)
(** ** utils/polkit_helper.py: PolkitHelper *)
(* ===================================================================== *)

Module PolkitHelper.

(** What [Path(POLKIT_RULE_FILE).exists()] gives: [True], [False], or a
    [PermissionError] or [OSError]. *)
Inductive rule_file : Type := Present | Absent | Inaccessible.

(** [exists()] inside the [try] of [is_passwordless_enabled]. *)
Definition rule_exists (rule : rule_file) : bool :=
  match rule with
  | Present => true
  | Absent => false
  | Inaccessible => false
  end.

(** [is_passwordless_enabled]. [config_manager] is [None] or the manager the
    caller passes, in its current state; the value returned is the setting as
    stored, or a boolean. *)
Definition is_passwordless_enabled (config_manager : option ConfigManager.t)
    (rule : rule_file) : pyval :=
  match config_manager with
  | Some cm => ConfigManager.get_setting cm "passwordless_mode" (PBool false)
  | None => PBool (rule_exists rule)
  end.

(** What [subprocess.run(cmd, capture_output=True, text=True, timeout=...)]
    does when [check] is not set: the process exits with a return code and
    its stderr, or the call raises [TimeoutExpired] or another exception [e]
    (with [str(e)]). *)
Inductive run_outcome : Type :=
| Exited (returncode : Z) (stderr : string)
| TimedOut
| Errored (message : string).

Definition POLKIT_RULE_FILE : string :=
  "/etc/polkit-1/rules.d/50-nyxapp-systemctl.rules".

(** The temporary file of [enable_passwordless_mode]. *)
Definition temp_file : string := "/tmp/systemd-tray-polkit.rules".

(** The commands handed to [subprocess.run]. *)
Definition copy_rule_cmd : list string :=
  [ "pkexec"; "sh"; "-c";
    ("cp " +:+ temp_file +:+ " " +:+ POLKIT_RULE_FILE +:+ " && ")
    +:+ ("chmod 644 " +:+ POLKIT_RULE_FILE) ].

Definition remove_rule_cmd : list string :=
  ["pkexec"; "rm"; "-f"; POLKIT_RULE_FILE].

(** [a or b] on strings. *)
Definition or_str (a b : string) : string :=
  if String.eqb a "" then b else a.

(** [enable_passwordless_mode]: the pair returned, the config manager (when
    one is passed) and the files afterwards. The rule text made from
    [username] goes to the temporary file, whose writing and removal are
    taken to succeed; restarting polkit afterwards only logs what goes
    wrong. *)
Definition enable_passwordless_mode (run : list string -> run_outcome)
    (username : string) (config_manager : option ConfigManager.t)
    (fs : ConfigManager.files)
    : (bool * string) * option ConfigManager.t * ConfigManager.files :=
  match run copy_rule_cmd with
  | Exited returncode stderr =>
      if (returncode =? 0)%Z then
        let message :=
          "Passwordless mode enabled! You won't be asked for password anymore." in
        match config_manager with
        | Some cm =>
            let (cm', fs') :=
              ConfigManager.set_setting cm fs "passwordless_mode" (PBool true) in
            ((true, message), Some cm', fs')
        | None => ((true, message), None, fs)
        end
      else
        ((false,
          "Failed to enable passwordless mode: "
          +:+ or_str stderr "Failed to create polkit rule"),
         config_manager, fs)
  | TimedOut => ((false, "Operation timed out"), config_manager, fs)
  | Errored message => ((false, "Error: " +:+ message), config_manager, fs)
  end.

(** [disable_passwordless_mode] *)
Definition disable_passwordless_mode (run : list string -> run_outcome)
    (config_manager : option ConfigManager.t) (fs : ConfigManager.files)
    : (bool * string) * option ConfigManager.t * ConfigManager.files :=
  match run remove_rule_cmd with
  | Exited returncode stderr =>
      if (returncode =? 0)%Z then
        let message :=
          "Passwordless mode disabled. You will be asked for password again." in
        match config_manager with
        | Some cm =>
            let (cm', fs') :=
              ConfigManager.set_setting cm fs "passwordless_mode" (PBool false) in
            ((true, message), Some cm', fs')
        | None => ((true, message), None, fs)
        end
      else
        ((false,
          "Failed to disable passwordless mode: "
          +:+ or_str stderr "Failed to remove polkit rule"),
         config_manager, fs)
  | TimedOut => ((false, "Operation timed out"), config_manager, fs)
  | Errored message => ((false, "Error: " +:+ message), config_manager, fs)
  end.

(** [os.getenv(name) or rest] *)
Definition getenv_or (value : option string) (rest : string) : string :=
  match value with
  | Some s => or_str s rest
  | None => rest
  end.

(** [get_current_username], from the environment variables USER and
    USERNAME ([None]: not set). *)
Definition get_current_username (USER USERNAME : option string) : string :=
  getenv_or USER (getenv_or USERNAME "unknown").

End PolkitHelper.

(* ===================================================================== *)
(** ** core/service_manager.py: ServiceManager *)
(* ===================================================================== *)

Module ServiceManager.

(** What [subprocess.run(cmd, capture_output=True, text=True, timeout=...,
    check=True)] does: it returns with exit status 0, or raises
    [TimeoutExpired], [CalledProcessError] (with the captured stderr), or
    another exception [e] (with [str(e)]). *)
Inductive run_result : Type :=
| Completed (stdout : string)
| TimeoutExpired
| CalledProcessError (stderr : string)
| OtherError (msg : string).

Section WithEnvironment.

(** The environment: the processes, the manager's [config_manager] (the
    shared object in its current state, or [None]) and the polkit rule
    file. *)
Variable run : list string -> run_result.
Variable config_manager : option ConfigManager.t.
Variable rule : PolkitHelper.rule_file.

(** [get_service_status] *)
Definition get_service_status (service_name : string) (is_user_service : bool)
    : ServiceStatus.t :=
  let cmd : list string :=
    (["systemctl"] ++ (if is_user_service then ["--user"] else [])
     ++ ["show"; service_name; "--property=ActiveState"; "--value"])%list in
  match run cmd with
  | Completed stdout => ServiceStatus.from_string (strip stdout)
  | TimeoutExpired => ServiceStatus.UNKNOWN
  | CalledProcessError _ => ServiceStatus.UNKNOWN
  | OtherError _ => ServiceStatus.UNKNOWN
  end.

(** [requires_privilege] of [_execute_systemctl_action]. *)
Definition requires_privilege (is_user_service : bool) : bool :=
  negb is_user_service
  && negb (truthy (PolkitHelper.is_passwordless_enabled config_manager rule)).

(** The [cmd] that [_execute_systemctl_action] builds. *)
Definition action_cmd (action service_name : string) (is_user_service : bool)
    : list string :=
  ((if requires_privilege is_user_service then ["pkexec"] else [])
   ++ ["systemctl"]
   ++ (if is_user_service then ["--user"] else [])
   ++ [action; service_name])%list.

(** [_execute_systemctl_action] *)
Definition _execute_systemctl_action (action service_name : string)
    (is_user_service : bool) : bool * option string :=
  match run (action_cmd action service_name is_user_service) with
  | Completed _ => (true, None)
  | TimeoutExpired =>
      (false, Some ("Timeout while trying to " +:+ action +:+ " " +:+ service_name))
  | CalledProcessError stderr =>
      (false,
       Some (if negb (String.eqb stderr "") then strip stderr
             else "Failed to " +:+ action +:+ " " +:+ service_name))
  | OtherError msg => (false, Some msg)
  end.

Definition start_service := _execute_systemctl_action "start".
Definition stop_service := _execute_systemctl_action "stop".
Definition restart_service := _execute_systemctl_action "restart".
Definition enable_service := _execute_systemctl_action "enable".
Definition disable_service := _execute_systemctl_action "disable".

End WithEnvironment.

End ServiceManager.

(* ===================================================================== *)
(** ** core/notification_manager.py: NotificationManager *)
(* ===================================================================== *)

Module NotificationManager.

(** utils/constants.py, in seconds. *)
Definition NOTIFICATION_RATE_LIMIT : Q := 30 # 1.

(** One call of [_send_notification]. *)
Record notification : Type := mk_notification {
  title : string;
  message : string;
  urgency : string
}.

(** The manager: [_last_notification], the notifications sent so far (the
    trace of [_send_notification], oldest first), and how many times the
    clock has been read. Times are rationals, in seconds. *)
Record t : Type := mk {
  _last_notification : gmap string Q;
  sent : list notification;
  clock_reads : nat
}.

(** [__init__] *)
Definition init : t := mk ∅ [] 0.

Section WithClock.

(** The environment: [time_time n] is what the [n]-th call of [time.time()]
    returns. *)
Variable time_time : nat -> Q.

(** [_should_notify]: the flag, and the manager after the clock was read. *)
Definition _should_notify (self : t) (service_name : string) : bool * t :=
  let current_time := time_time (clock_reads self) in
  let self := mk (_last_notification self) (sent self) (S (clock_reads self)) in
  let last_time :=
    match _last_notification self !! service_name with
    | Some last => last
    | None => 0%Q
    end in
  if Qlt_le_dec (current_time - last_time) NOTIFICATION_RATE_LIMIT
  then (false, self)
  else (true, self).

(** [_update_notification_time] *)
Definition _update_notification_time (self : t) (service_name : string) : t :=
  mk (<[service_name := time_time (clock_reads self)]> (_last_notification self))
     (sent self) (S (clock_reads self)).

(** [_send_notification] *)
Definition _send_notification (self : t) (title message urgency : string) : t :=
  mk (_last_notification self)
     (sent self ++ [mk_notification title message urgency])
     (clock_reads self).

(** [notify_service_started] *)
Definition notify_service_started (self : t) (service_name display_name : string)
    : t :=
  let (allowed, self) := _should_notify self service_name in
  if allowed then
    let self :=
      _send_notification self
        (display_name +:+ " Started")
        ("Service " +:+ display_name +:+ " has been started successfully.")
        "normal" in
    _update_notification_time self service_name
  else self.

(** [notify_service_stopped] *)
Definition notify_service_stopped (self : t) (service_name display_name : string)
    : t :=
  let (allowed, self) := _should_notify self service_name in
  if allowed then
    let self :=
      _send_notification self
        (display_name +:+ " Stopped")
        ("Service " +:+ display_name +:+ " has been stopped.")
        "normal" in
    _update_notification_time self service_name
  else self.

(** [notify_service_failed] *)
Definition notify_service_failed (self : t) (service_name display_name : string)
    (error : string) : t :=
  let (allowed, self) := _should_notify self service_name in
  if allowed then
    let message := "Service " +:+ display_name +:+ " has failed." in
    let message :=
      if negb (String.eqb error "")
      then message +:+ String "010"%char error
      else message in
    let self := _send_notification self (display_name +:+ " Failed") message "critical" in
    _update_notification_time self service_name
  else self.

End WithClock.

(** [notify_error] *)
Definition notify_error (self : t) (title message : string) : t :=
  _send_notification self title message "critical".

(** [notify_info] *)
Definition notify_info (self : t) (title message : string) : t :=
  _send_notification self title message "normal".

End NotificationManager.

(* ===================================================================== *)
(** ** app.py: NyxApp, the poll tick *)
(* ===================================================================== *)

Module NyxApp.

Import ServiceStatus.

(** ui/tray_icon.py: the fields of [ServiceTrayIcon] the poller uses. *)
Record ServiceTrayIcon : Type := mk_icon {
  service_config : ServiceConfig.t;
  current_status : ServiceStatus.t
}.

(** [ServiceTrayIcon.update_status] *)
Definition update_status (self : ServiceTrayIcon) (status : ServiceStatus.t)
    : ServiceTrayIcon :=
  if decide (current_status self <> status)
  then mk_icon (service_config self) status
  else self.

(** The application: its managers and [tray_icons], the dictionary from
    [(service_name, service_type)] to the tray icon, as its items in
    insertion order. *)
Record t : Type := mk {
  config_manager : ConfigManager.t;
  notification_manager : NotificationManager.t;
  tray_icons : list ((string * string) * ServiceTrayIcon)
}.

Section WithEnvironment.

Variable run : list string -> ServiceManager.run_result.
Variable time_time : nat -> Q.

(** [_notify_status_change] *)
Definition _notify_status_change (nm : NotificationManager.t)
    (service_name service_type display_name : string)
    (old_status new_status : ServiceStatus.t) : NotificationManager.t :=
  if decide (new_status = ACTIVE /\ old_status <> ACTIVE) then
    NotificationManager.notify_service_started time_time nm service_name display_name
  else if decide (new_status = INACTIVE /\ old_status = ACTIVE) then
    NotificationManager.notify_service_stopped time_time nm service_name display_name
  else if decide (new_status = FAILED) then
    NotificationManager.notify_service_failed time_time nm service_name display_name ""
  else nm.

(** The body of the loop of [update_all_services] for one item. The
    [RuntimeError] of a tray icon deleted meanwhile is a matter of the GUI
    toolkit and is left out. *)
Definition update_one (cm : ConfigManager.t) (nm : NotificationManager.t)
    (item : (string * string) * ServiceTrayIcon)
    : ((string * string) * ServiceTrayIcon) * NotificationManager.t :=
  let '((service_name, service_type), tray_icon) := item in
  let is_user := String.eqb service_type "user" in
  let new_status := ServiceManager.get_service_status run service_name is_user in
  if decide (current_status tray_icon <> new_status) then
    let old_status := current_status tray_icon in
    let tray_icon' := update_status tray_icon new_status in
    let nm' :=
      if truthy (ConfigManager.get_setting cm "show_notifications" (PBool true))
      then _notify_status_change nm service_name service_type
             (ServiceConfig.display_name (service_config tray_icon))
             old_status new_status
      else nm in
    ((service_name, service_type, tray_icon'), nm')
  else (item, nm).

(** The loop over [list(self.tray_icons.items())]. *)
Fixpoint update_items (cm : ConfigManager.t) (nm : NotificationManager.t)
    (items : list ((string * string) * ServiceTrayIcon))
    : list ((string * string) * ServiceTrayIcon) * NotificationManager.t :=
  match items with
  | [] => ([], nm)
  | item :: rest =>
      let (item', nm') := update_one cm nm item in
      let (rest', nm'') := update_items cm nm' rest in
      (item' :: rest', nm'')
  end.

(** [update_all_services] *)
Definition update_all_services (self : t) : t :=
  let (icons, nm) :=
    update_items (config_manager self) (notification_manager self)
      (tray_icons self) in
  mk (config_manager self) nm icons.

End WithEnvironment.

(** ui/tray_icon.py: what [_update_menu_actions] passes to [setEnabled] for
    the Start, Stop and Restart actions. *)
Record menu_actions : Type := mk_actions {
  start_enabled : bool;
  stop_enabled : bool;
  restart_enabled : bool
}.

Definition _update_menu_actions (self : ServiceTrayIcon) : menu_actions :=
  let is_active := bool_decide (current_status self = ACTIVE) in
  let is_transitioning :=
    bool_decide (current_status self = ACTIVATING)
    || bool_decide (current_status self = DEACTIVATING) in
  if is_transitioning then mk_actions false false false
  else mk_actions (negb is_active) is_active is_active.

(** [key in self.tray_icons] *)
Definition tracked (self : t) (key : string * string) : bool :=
  existsb (fun item => bool_decide (item.1 = key)) (tray_icons self).

Section Handlers.

Variable run : list string -> ServiceManager.run_result.
Variable time_time : nat -> Q.
Variable rule : PolkitHelper.rule_file.

(** [_create_tray_icon]: a new icon starts with the status UNKNOWN, goes to
    the end of the dictionary and is then given the status queried. *)
Definition _create_tray_icon (self : t) (service_config : ServiceConfig.t) : t :=
  let key :=
    (ServiceConfig.name service_config,
     ServiceConfig.service_type service_config) in
  if tracked self key then self
  else
    let tray_icon := mk_icon service_config UNKNOWN in
    let status :=
      ServiceManager.get_service_status run
        (ServiceConfig.name service_config)
        (ServiceConfig.is_user_service service_config) in
    mk (config_manager self) (notification_manager self)
       (tray_icons self ++ [(key, update_status tray_icon status)]).

(** [_remove_tray_icon] *)
Definition _remove_tray_icon (self : t) (service_name service_type : string) : t :=
  let key := (service_name, service_type) in
  if tracked self key then
    mk (config_manager self) (notification_manager self)
       (List.filter (fun item => negb (bool_decide (item.1 = key)))
          (tray_icons self))
  else self.

(** [_auto_start_services]: the failures it logs, as (name, error). *)
Definition _auto_start_services (self : t) : list (string * option string) :=
  flat_map
    (fun service =>
       if ServiceConfig.auto_start service then
         let (success, error) :=
           ServiceManager.start_service run (Some (config_manager self)) rule
             (ServiceConfig.name service)
             (ServiceConfig.is_user_service service) in
         if negb success then [(ServiceConfig.name service, error)] else []
       else [])
    (ConfigManager.services (config_manager self)).

(** [_initialize], without the main tray icon, the timer and the call of
    [_auto_start_services], which changes no field of the application: the
    configuration is loaded and a tray icon is created for each enabled
    service. [None] as for [ConfigManager.load_config]. *)
Definition _initialize (self : t) (fs : ConfigManager.files) : option t :=
  match ConfigManager.load_config (config_manager self) fs with
  | Some (_, cm) =>
      Some (foldl _create_tray_icon
              (mk cm (notification_manager self) (tray_icons self))
              (ConfigManager.get_enabled_services cm))
  | None => None
  end.

(** [add_service] *)
Definition add_service (self : t) (fs : ConfigManager.files)
    (service_config : ServiceConfig.t) : t * ConfigManager.files :=
  let '(added, cm, fs') :=
    ConfigManager.add_service (config_manager self) fs service_config in
  let self' := mk cm (notification_manager self) (tray_icons self) in
  if added then
    if ServiceConfig.enabled service_config
    then (_create_tray_icon self' service_config, fs')
    else (self', fs')
  else (self', fs').

(** [_on_remove_requested]; [confirmed] is the answer to the question box. *)
Definition _on_remove_requested (self : t) (fs : ConfigManager.files)
    (service_name service_type : string) (confirmed : bool)
    : t * ConfigManager.files :=
  if confirmed then
    let '(_, cm, fs') :=
      ConfigManager.remove_service (config_manager self) fs service_name
        service_type in
    let self' := mk cm (notification_manager self) (tray_icons self) in
    (_remove_tray_icon self' service_name service_type, fs')
  else (self, fs).

(** [_on_edit_requested]; [dialog] stands for the edit dialog opened on the
    record found: [None] when it is cancelled, the updated record when it
    is accepted. *)
Definition _on_edit_requested (self : t) (fs : ConfigManager.files)
    (service_name service_type : string)
    (dialog : ServiceConfig.t -> option ServiceConfig.t)
    : t * ConfigManager.files :=
  match ConfigManager.get_service (config_manager self) service_name
          service_type with
  | None => (self, fs)
  | Some service_config =>
      match dialog service_config with
      | None => (self, fs)
      | Some updated_config =>
          let '(_, cm, fs') :=
            ConfigManager.update_service (config_manager self) fs service_name
              service_type updated_config in
          let self' := mk cm (notification_manager self) (tray_icons self) in
          if tracked self' (service_name, service_type)
          then (_create_tray_icon
                  (_remove_tray_icon self' service_name service_type)
                  updated_config, fs')
          else (self', fs')
      end
  end.

(** [str(error)] in the message of a failed action. *)
Definition str_error (error : option string) : string :=
  match error with
  | Some text => text
  | None => "None"
  end.

(** The common shape of [_on_start_requested], [_on_stop_requested] and
    [_on_restart_requested]: the action is run, a failure is notified as an
    error, then all services are updated. *)
Definition requested
    (action : string -> bool -> bool * option string)
    (title verb : string) (self : t) (service_name service_type : string) : t :=
  let is_user := String.eqb service_type "user" in
  let (success, error) := action service_name is_user in
  let nm :=
    if negb success then
      NotificationManager.notify_error (notification_manager self) title
        ("Failed to " +:+ verb +:+ " " +:+ service_name +:+ ":"
         +:+ String "010"%char (str_error error))
    else notification_manager self in
  update_all_services run time_time
    (mk (config_manager self) nm (tray_icons self)).

Definition _on_start_requested (self : t) : string -> string -> t :=
  requested
    (ServiceManager.start_service run (Some (config_manager self)) rule)
    "Service Start Failed" "start" self.

Definition _on_stop_requested (self : t) : string -> string -> t :=
  requested
    (ServiceManager.stop_service run (Some (config_manager self)) rule)
    "Service Stop Failed" "stop" self.

Definition _on_restart_requested (self : t) : string -> string -> t :=
  requested
    (ServiceManager.restart_service run (Some (config_manager self)) rule)
    "Service Restart Failed" "restart" self.

End Handlers.

End NyxApp.

(* ===================================================================== *)
(** ** models/service.py: ServiceInfo *)
(* ===================================================================== *)

Module ServiceInfo.

Record t : Type := mk {
  config : ServiceConfig.t;
  status : ServiceStatus.t;
  uptime : option Z;
  memory_usage : option Z
}.

(** [str(n)] for an integer. *)
Definition str (n : Z) : string := NilZero.string_of_int (Z.to_int n).

(** [get_uptime_str]; [divmod] rounds down, as [Z.div_eucl] does for a
    positive divisor. *)
Definition get_uptime_str (self : t) : string :=
  match uptime self with
  | None => "N/A"
  | Some seconds_up =>
      let (hours, remainder) := Z.div_eucl seconds_up 3600 in
      let (minutes, seconds) := Z.div_eucl remainder 60 in
      if (hours >? 0)%Z then str hours +:+ "h " +:+ str minutes +:+ "m"
      else if (minutes >? 0)%Z then str minutes +:+ "m " +:+ str seconds +:+ "s"
      else str seconds +:+ "s"
  end.

End ServiceInfo.

(* ===================================================================== *)
(** ** ui/dialogs/add_service.py and edit_service.py: accepting a dialog *)
(* ===================================================================== *)

Module AddServiceDialog.

(** The state of the dialog when OK is clicked: the text of the inputs, the
    check boxes, and the icon paths stored by the file choosers. *)
Record t : Type := mk {
  name_input : string;
  display_name_input : string;
  light_icon_input : string;
  dark_icon_input : string;
  service_type_input : string;
  auto_start_checkbox : bool;
  enabled_checkbox : bool;
  _light_icon_path : option string;
  _dark_icon_path : option string
}.

(** An icon: the stored path when there is one, else the stripped text of
    the input, else the default icon. *)
Definition chosen_icon (path : option string) (input : string) : string :=
  match path with
  | Some p =>
      if negb (String.eqb p "") then p
      else
        let text := strip input in
        if String.eqb text "" then "application-x-executable" else text
  | None =>
      let text := strip input in
      if String.eqb text "" then "application-x-executable" else text
  end.

(** [x if x != icon else None] *)
Definition unless_base (x icon : string) : option string :=
  if negb (String.eqb x icon) then Some x else None.

(** [_on_accept]: [None] when the input is refused with a warning and the
    dialog stays open; otherwise what the constructor does, the dialog
    being accepted when it returns and showing the [ValueError] when it
    raises. *)
Definition _on_accept (self : t) : option (outcome ServiceConfig.t) :=
  let service_name := strip (name_input self) in
  if String.eqb service_name "" then None
  else
    let display_name := strip (display_name_input self) in
    let display_name :=
      if String.eqb display_name "" then capitalize service_name
      else display_name in
    let icon_light := chosen_icon (_light_icon_path self) (light_icon_input self) in
    let icon_dark := chosen_icon (_dark_icon_path self) (dark_icon_input self) in
    let icon := icon_light in
    let service_type := strip (service_type_input self) in
    let service_type :=
      if String.eqb service_type "" then "user" else service_type in
    Some (ServiceConfig.make service_name display_name icon
            (unless_base icon_light icon) (unless_base icon_dark icon)
            service_type (auto_start_checkbox self) (enabled_checkbox self)).

End AddServiceDialog.

Module EditServiceDialog.

Record t : Type := mk {
  original_config : ServiceConfig.t;
  display_name_input : string;
  light_icon_input : string;
  dark_icon_input : string;
  auto_start_checkbox : bool;
  enabled_checkbox : bool;
  _light_icon_path : option string;
  _dark_icon_path : option string
}.

(** [_on_accept], read as for the add dialog. *)
Definition _on_accept (self : t) : option (outcome ServiceConfig.t) :=
  let display_name := strip (display_name_input self) in
  if String.eqb display_name "" then None
  else
    let icon_light :=
      AddServiceDialog.chosen_icon (_light_icon_path self)
        (light_icon_input self) in
    let icon_dark :=
      AddServiceDialog.chosen_icon (_dark_icon_path self)
        (dark_icon_input self) in
    let icon := icon_light in
    Some (ServiceConfig.make (ServiceConfig.name (original_config self))
            display_name icon
            (AddServiceDialog.unless_base icon_light icon)
            (AddServiceDialog.unless_base icon_dark icon)
            (ServiceConfig.service_type (original_config self))
            (auto_start_checkbox self) (enabled_checkbox self)).

End EditServiceDialog.

(* ===================================================================== *)
(** ** main.py: signalling the running instance *)
(* ===================================================================== *)

Module Main.

Definition max_retries : nat := 5.

(** Milliseconds. *)
Definition retry_delays : list Z := [100; 200; 500; 1000; 2000]%Z.

(** The loop of [send_show_window_signal] from a given attempt on.
    [connected attempt] tells whether [waitForConnected] succeeds at that
    attempt; [slept] collects the delays passed to [time.sleep], in
    milliseconds. The index into [retry_delays] is below its length
    wherever it is used. *)
Fixpoint attempts_from (connected : nat -> bool) (attempt count : nat)
    (slept : list Z) : bool * list Z :=
  match count with
  | O => (false, slept)
  | S count' =>
      if connected attempt then (true, slept)
      else
        let slept :=
          if (attempt <? max_retries - 1)%nat
          then slept ++ [nth attempt retry_delays 0%Z]
          else slept in
        attempts_from connected (S attempt) count' slept
  end.

(** [send_show_window_signal]: whether the message was sent, and the delays
    slept. *)
Definition send_show_window_signal (connected : nat -> bool) : bool * list Z :=
  attempts_from connected 0 max_retries [].

End Main.

(* ===================================================================== *)
(** ** Vocabulary of the statements *)
(* ===================================================================== *)

(** The built-in default settings, as a map. *)
Definition default_settings : gmap string pyval :=
  <["update_interval" := PInt 5]>
  (<["show_notifications" := PBool true]>
  (<["minimize_to_tray" := PBool false]>
  (<["passwordless_mode" := PBool false]>
  (<["show_main_tray" := PBool true]> ∅)))).

(** The records of a registry have distinct identity keys. *)
Definition unique_keys (services : list ServiceConfig.t) : Prop :=
  NoDup (ServiceConfig.key <$> services).

(** The mutations of the registry, and the call each stands for. *)
Inductive mutation : Type :=
| AddService (service : ServiceConfig.t)
| RemoveService (service_name service_type : string)
| UpdateService (old_name old_type : string) (updated_service : ServiceConfig.t)
| SetSetting (key : string) (value : pyval).

Definition apply_mutation (m : mutation) (self : ConfigManager.t)
    (fs : ConfigManager.files) : bool * ConfigManager.t * ConfigManager.files :=
  match m with
  | AddService service => ConfigManager.add_service self fs service
  | RemoveService service_name service_type =>
      ConfigManager.remove_service self fs service_name service_type
  | UpdateService old_name old_type updated_service =>
      ConfigManager.update_service self fs old_name old_type updated_service
  | SetSetting key value =>
      let (self', fs') := ConfigManager.set_setting self fs key value in
      (true, self', fs')
  end.

(** The record a mutation brings in, if any, is a constructed one. *)
Definition brings_valid (m : mutation) : Prop :=
  match m with
  | AddService service => ServiceConfig.valid service
  | UpdateService _ _ updated_service => ServiceConfig.valid updated_service
  | RemoveService _ _ => True
  | SetSetting _ _ => True
  end.

(** [save_config] can write: the temporary file can be written and moved,
    and an existing config.yaml can be read for the backup copy. *)
Definition can_save (fs : ConfigManager.files) : Prop :=
  ConfigManager.writable fs = true
  /\ ConfigManager.config_yaml fs <> Some ConfigManager.Unreadable.

(** What a reload gives for a manager that was saved: the themed icons in
    the form [to_dict] keeps, the settings completed by the defaults. *)
Definition reloaded (self : ConfigManager.t) : ConfigManager.t :=
  ConfigManager.mk
    (map ServiceConfig.normalize_icons (ConfigManager.services self))
    (ConfigManager.settings self ∪ default_settings).

(** A manager that a reload gives back as it is. *)
Definition stable (self : ConfigManager.t) : Prop :=
  Forall ServiceConfig.canonical_icons (ConfigManager.services self)
  /\ dom default_settings ⊆ dom (ConfigManager.settings self).

(** The lifecycle actions of the service controller, the word each passes to
    systemctl, and the method each stands for. *)
Inductive lifecycle : Type := Start | Stop | Restart | Enable | Disable.

Definition action_word (a : lifecycle) : string :=
  match a with
  | Start => "start"
  | Stop => "stop"
  | Restart => "restart"
  | Enable => "enable"
  | Disable => "disable"
  end.

Definition perform (a : lifecycle)
    (run : list string -> ServiceManager.run_result)
    (config_manager : option ConfigManager.t) (rule : PolkitHelper.rule_file)
    : string -> bool -> bool * option string :=
  match a with
  | Start => ServiceManager.start_service run config_manager rule
  | Stop => ServiceManager.stop_service run config_manager rule
  | Restart => ServiceManager.restart_service run config_manager rule
  | Enable => ServiceManager.enable_service run config_manager rule
  | Disable => ServiceManager.disable_service run config_manager rule
  end.

(** The notifications about a service, the method that requests each, and
    the notification each sends when the rate limiter lets it through. *)
Inductive request : Type :=
| Started
| Stopped
| Failed (error : string).

Definition deliver (time_time : nat -> Q) (nm : NotificationManager.t)
    (r : request) (service_name display_name : string) : NotificationManager.t :=
  match r with
  | Started =>
      NotificationManager.notify_service_started time_time nm service_name
        display_name
  | Stopped =>
      NotificationManager.notify_service_stopped time_time nm service_name
        display_name
  | Failed error =>
      NotificationManager.notify_service_failed time_time nm service_name
        display_name error
  end.

Definition notification_of (r : request) (display_name : string)
    : NotificationManager.notification :=
  match r with
  | Started =>
      NotificationManager.mk_notification
        (display_name +:+ " Started")
        ("Service " +:+ display_name +:+ " has been started successfully.")
        "normal"
  | Stopped =>
      NotificationManager.mk_notification
        (display_name +:+ " Stopped")
        ("Service " +:+ display_name +:+ " has been stopped.")
        "normal"
  | Failed error =>
      NotificationManager.mk_notification
        (display_name +:+ " Failed")
        (if String.eqb error ""
         then "Service " +:+ display_name +:+ " has failed."
         else ("Service " +:+ display_name +:+ " has failed.")
              +:+ String "010"%char error)
        "critical"
  end.

(** [self._last_notification.get(service_name, 0)] *)
Definition last_time (nm : NotificationManager.t) (service_name : string) : Q :=
  match NotificationManager._last_notification nm !! service_name with
  | Some last => last
  | None => 0%Q
  end.

(** The transitions that call for a notification: to active, from active to
    inactive, to failed. *)
Definition significant (old_status new_status : ServiceStatus.t)
    : option request :=
  match old_status, new_status with
  | ServiceStatus.ACTIVE, ServiceStatus.ACTIVE => None
  | _, ServiceStatus.ACTIVE => Some Started
  | ServiceStatus.ACTIVE, ServiceStatus.INACTIVE => Some Stopped
  | _, ServiceStatus.FAILED => Some (Failed "")
  | _, _ => None
  end.

(** The status the service manager reports for a tracked key. *)
Definition queried (run : list string -> ServiceManager.run_result)
    (key : string * string) : ServiceStatus.t :=
  ServiceManager.get_service_status run key.1 (String.eqb key.2 "user").

(** A tray icon showing the status just queried. *)
Definition refreshed (run : list string -> ServiceManager.run_result)
    (item : (string * string) * NyxApp.ServiceTrayIcon)
    : (string * string) * NyxApp.ServiceTrayIcon :=
  (item.1,
   NyxApp.mk_icon (NyxApp.service_config item.2) (queried run item.1)).

(** A config file that is empty or malformed: it does not parse, it holds no
    document or an empty mapping, its document is not a mapping, its
    "services" is not a list, or its "settings" is not a mapping. *)
Inductive empty_or_malformed : ConfigManager.config_file -> Prop :=
| file_unparseable :
    empty_or_malformed ConfigManager.YAMLError
| file_empty :
    empty_or_malformed (ConfigManager.Document PNone)
| file_empty_mapping :
    empty_or_malformed (ConfigManager.Document (PDict []))
| file_not_a_mapping data :
    is_dict data = false ->
    empty_or_malformed (ConfigManager.Document data)
| file_services_not_a_list d v :
    dict_get d "services" = Some v -> is_list v = false ->
    empty_or_malformed (ConfigManager.Document (PDict d))
| file_settings_not_a_mapping d v :
    dict_get d "settings" = Some v -> is_dict v = false ->
    empty_or_malformed (ConfigManager.Document (PDict d)).

(** Values for the concrete cases below: a system service, a [systemctl]
    that prints a given line, and a clock that stands still. *)
Definition nginx : ServiceConfig.t :=
  ServiceConfig.mk "nginx" "Nginx" "nginx" None None "system" false true.

Definition systemctl_prints (line : string)
    : list string -> ServiceManager.run_result :=
  fun _ => ServiceManager.Completed (line +:+ String "010"%char "").

Definition clock_at (seconds : Q) : nat -> Q := fun _ => seconds.

(** A configuration that [load_config] accepts: config.yaml exists, parses,
    and holds a mapping that is not empty, whose "services", when present,
    is a list and whose "settings", when present, is a mapping. *)
Definition loadable (fs : ConfigManager.files) : Prop :=
  exists d,
    ConfigManager.config_yaml fs = Some (ConfigManager.Document (PDict d))
    /\ d <> []
    /\ (forall v, dict_get d "services" = Some v -> is_list v = true)
    /\ (forall v, dict_get d "settings" = Some v -> is_dict v = true).

(** The records of the service entries that [from_dict] accepts, in the
    order of the entries. *)
Definition accepted_entries (entries : list pyval) : list ServiceConfig.t :=
  flat_map
    (fun entry =>
       match ServiceConfig.from_dict entry with
       | Returns service => [service]
       | _ => []
       end)
    entries.

(** A config.yaml for the concrete cases: one entry that gives only a name,
    one entry that is not a mapping, and one setting. *)
Definition example_files : ConfigManager.files :=
  ConfigManager.mk_files
    (Some (ConfigManager.Document
             (PDict [ ("version", PStr "1.0");
                      ("services",
                       PList [PDict [("name", PStr "nginx")]; PStr "docker"]);
                      ("settings", PDict [("update_interval", PInt 10)]) ])))
    None true.

(** A service entry gives a field with its declared type: the key is
    absent, or its value reads at the type. *)
Definition has_type {A : Type} (read : pyval -> option A)
    (d : list (string * pyval)) (k : string) : Prop :=
  forall v, dict_get d k = Some v -> read v <> None.

(** A service entry that gives its fields, where it gives them, with the
    types the record declares: strings for "display_name" and "icon", a
    string or [None] for the themed icons, booleans for "auto_start" and
    "enabled". *)
Definition declared_types (d : list (string * pyval)) : Prop :=
  has_type ServiceConfig.as_str d "display_name"
  /\ has_type ServiceConfig.as_str d "icon"
  /\ has_type ServiceConfig.as_optional_str d "icon_light"
  /\ has_type ServiceConfig.as_optional_str d "icon_dark"
  /\ has_type ServiceConfig.as_bool d "auto_start"
  /\ has_type ServiceConfig.as_bool d "enabled".

(** A config.yaml whose service entries, where they are mappings, give
    their fields with the declared types. *)
Definition typed_entries (fs : ConfigManager.files) : Prop :=
  forall d entries entry,
    ConfigManager.config_yaml fs
    = Some (ConfigManager.Document (PDict d)) ->
    dict_get d "services" = Some (PList entries) ->
    PDict entry ∈ entries ->
    declared_types entry.

(** Strings made of the characters [str.strip] removes, and strings that
    hold none of them. *)
Fixpoint all_space (s : string) : bool :=
  match s with
  | EmptyString => true
  | String c r => is_space c && all_space r
  end.

Fixpoint no_space (s : string) : bool :=
  match s with
  | EmptyString => true
  | String c r => negb (is_space c) && no_space r
  end.

(** The command of a status query. *)
Definition status_cmd (service_name : string) (is_user_service : bool)
    : list string :=
  if is_user_service
  then ["systemctl"; "--user"; "show"; service_name;
        "--property=ActiveState"; "--value"]
  else ["systemctl"; "show"; service_name; "--property=ActiveState"; "--value"].

(** The tray icons of an application are registered: their keys are
    distinct, and each icon sits under the key of its record, which is a
    record of the registry. *)
Definition registered (self : NyxApp.t) : Prop :=
  NoDup (NyxApp.tray_icons self).*1
  /\ forall item,
       item ∈ NyxApp.tray_icons self ->
       ServiceConfig.key (NyxApp.service_config item.2) = item.1
       /\ NyxApp.service_config item.2
          ∈ ConfigManager.services (NyxApp.config_manager self).

(** An edit dialog gives back a record with the key of the record it was
    opened on. *)
Definition keeps_key (dialog : ServiceConfig.t -> option ServiceConfig.t) : Prop :=
  forall original updated,
    dialog original = Some updated ->
    ServiceConfig.key updated = ServiceConfig.key original.

(** The edit dialog as [_on_edit_requested] sees it, for given inputs: the
    record when the dialog is accepted, [None] otherwise. *)
Definition edit_dialog (display_name_input light_icon_input dark_icon_input : string)
    (auto_start_checkbox enabled_checkbox : bool)
    (light_icon_path dark_icon_path : option string)
    (original : ServiceConfig.t) : option ServiceConfig.t :=
  match EditServiceDialog._on_accept
          (EditServiceDialog.mk original display_name_input light_icon_input
             dark_icon_input auto_start_checkbox enabled_checkbox
             light_icon_path dark_icon_path) with
  | Some (Returns updated) => Some updated
  | _ => None
  end.

(** The requests a tray icon sends for a lifecycle action, the handler of
    each, the method it calls, and the words of its error notification. *)
Inductive tray_request : Type := RequestStart | RequestStop | RequestRestart.

Definition handle (q : tray_request)
    (run : list string -> ServiceManager.run_result) (time_time : nat -> Q)
    (rule : PolkitHelper.rule_file) (self : NyxApp.t)
    : string -> string -> NyxApp.t :=
  match q with
  | RequestStart => NyxApp._on_start_requested run time_time rule self
  | RequestStop => NyxApp._on_stop_requested run time_time rule self
  | RequestRestart => NyxApp._on_restart_requested run time_time rule self
  end.

Definition request_action (q : tray_request) : lifecycle :=
  match q with
  | RequestStart => Start
  | RequestStop => Stop
  | RequestRestart => Restart
  end.

Definition request_title (q : tray_request) : string :=
  match q with
  | RequestStart => "Service Start Failed"
  | RequestStop => "Service Stop Failed"
  | RequestRestart => "Service Restart Failed"
  end.

(** For the concrete cases with two services of one name: the user service
    "nginx", a [systemctl] that prints one line for the system units and
    another for the user units, a clock that gives the listed times in
    turn, an application that tracks the system and the user service, both
    shown inactive, and the application after a list of polls, each with
    its [systemctl]. *)
Definition nginx_user : ServiceConfig.t :=
  ServiceConfig.mk "nginx" "Nginx (user)" "nginx" None None "user" false true.

Definition systemctl_prints_for (system_line user_line : string)
    : list string -> ServiceManager.run_result :=
  fun cmd =>
    if existsb (String.eqb "--user") cmd
    then ServiceManager.Completed (user_line +:+ String "010"%char "")
    else ServiceManager.Completed (system_line +:+ String "010"%char "").

Definition clock_of (times : list Q) : nat -> Q := fun n => nth n times 0%Q.

Definition two_nginx : NyxApp.t :=
  NyxApp.mk (ConfigManager.mk [nginx; nginx_user] default_settings)
    NotificationManager.init
    [ (("nginx", "system"), NyxApp.mk_icon nginx ServiceStatus.INACTIVE);
      (("nginx", "user"), NyxApp.mk_icon nginx_user ServiceStatus.INACTIVE) ].

Definition polled (time_time : nat -> Q)
    (runs : list (list string -> ServiceManager.run_result)) (self : NyxApp.t)
    : NyxApp.t :=
  foldl (fun app run => NyxApp.update_all_services run time_time app) self runs.

(** An application for the concrete cases: the registry holds [nginx],
    whose tray icon shows the status inactive. *)
Definition example_app : NyxApp.t :=
  NyxApp.mk (ConfigManager.mk [nginx] default_settings) NotificationManager.init
    [(("nginx", "system"), NyxApp.mk_icon nginx ServiceStatus.INACTIVE)].

(* ===================================================================== *)
(** * Theorems *)
(* ===================================================================== *)

(** ** Strings *)

Lemma eqb_empty_false (s : string) : s <> "" -> String.eqb s "" = false.
Proof. intros H. by apply String.eqb_neq. Qed.

Lemma lower_length (s : string) : String.length (lower s) = String.length s.
Proof. induction s as [|c r IH]; simpl; [done | by rewrite IH]. Qed.

Lemma capitalize_nonempty (s : string) : s <> "" -> capitalize s <> "".
Proof. destruct s; [done | discriminate]. Qed.

Lemma capitalize_empty_iff (s : string) : capitalize s = "" <-> s = "".
Proof. destruct s; simpl; split; intros H; done. Qed.

(** ** ServiceStatus *)

Section ServiceStatusFacts.
Import ServiceStatus.

Lemma lower_value (m : t) : lower (value m) = value m.
Proof. by destruct m. Qed.

Lemma of_value_value (m : t) : of_value (value m) = Some m.
Proof. by destruct m. Qed.

Lemma of_value_Some (v : string) (m : t) : of_value v = Some m -> v = value m.
Proof.
  unfold of_value, members. cbn [find value].
  repeat (destruct (String.eqb _ v) eqn:E;
          [ apply String.eqb_eq in E; intros [= <-]; by rewrite <- E | clear E ]).
  discriminate.
Qed.

Lemma of_value_None (v : string) : of_value v = None -> forall m, v <> value m.
Proof.
  intros H m Hv. subst v. by rewrite of_value_value in H.
Qed.

Lemma value_inj (m1 m2 : t) : value m1 = value m2 -> m1 = m2.
Proof.
  intros H. pose proof (of_value_value m1) as H1. rewrite H in H1.
  rewrite of_value_value in H1. congruence.
Qed.

(** Each of the six value strings is mapped to the member that has it as
    its value. *)
Lemma from_string_value (m : t) : from_string (value m) = m.
Proof. unfold from_string. by rewrite lower_value, of_value_value. Qed.

(** C3 (amended): [from_string] looks the lower-cased string up. It returns
    the member whose value is the string for each of the six value strings,
    the member whose value is the lower-cased string whenever there is one,
    and UNKNOWN exactly for the strings whose lower-casing is no member's
    value (or is "unknown"). *)
Theorem from_string_lowercases :
  (forall m, from_string (value m) = m) /\
  (forall s m,
     from_string s = m <->
     lower s = value m \/ (m = UNKNOWN /\ forall m', lower s <> value m')).
Proof.
  split; [exact from_string_value |].
  intros s m. unfold from_string.
  destruct (of_value (lower s)) as [m0|] eqn:E.
  - apply of_value_Some in E. split.
    + intros <-. by left.
    + intros [H | [_ H]].
      * apply value_inj. congruence.
      * by destruct (H m0).
  - split.
    + intros <-. right. split; [done |]. by apply of_value_None.
    + intros [H | [-> _]]; [| done].
      rewrite H, of_value_value in E. discriminate.
Qed.

(** C3 as stated fails: "ACTIVE" is none of the six value strings, and
    [from_string] maps it to ACTIVE, not to UNKNOWN. *)
Lemma from_string_upper_case_counterexample :
  (forall m, "ACTIVE" <> value m) /\
  from_string "ACTIVE" = ACTIVE /\
  from_string "ACTIVE" <> UNKNOWN.
Proof.
  split; [by intros [] | split; [reflexivity | discriminate]].
Qed.

End ServiceStatusFacts.

(** ** ServiceConfig: construction *)

Section ServiceConfigFacts.
Import ServiceConfig.

Lemma truthy_str (s : string) : truthy (PStr s) = true <-> s <> "".
Proof.
  simpl. rewrite negb_true_iff. split.
  - intros H ->. discriminate.
  - apply eqb_empty_false.
Qed.

Lemma in_user_system_str (ty : string) :
  in_user_system (PStr ty) = true <-> ty = "user" \/ ty = "system".
Proof.
  simpl. rewrite orb_true_iff, !String.eqb_eq. tauto.
Qed.

Lemma in_user_system_inv (v : pyval) :
  in_user_system v = true -> v = PStr "user" \/ v = PStr "system".
Proof.
  destruct v; try discriminate. intros H.
  apply in_user_system_str in H as [-> | ->]; auto.
Qed.

Lemma typed_well_typed n d i l k ty a e :
  typed (PStr n) (PStr d) (PStr i) (of_optional l) (of_optional k) (PStr ty)
    (PBool a) (PBool e) = Returns (mk n d i l k ty a e).
Proof. by destruct l, k. Qed.

Lemma as_optional_str_Some (v : pyval) (o : option string) :
  as_optional_str v = Some o -> v = of_optional o.
Proof. destruct v; simpl; intros [= <-]; done. Qed.

Lemma as_str_Some (v : pyval) (s : string) : as_str v = Some s -> v = PStr s.
Proof. destruct v; simpl; intros [= <-]; done. Qed.

Lemma as_bool_Some (v : pyval) (b : bool) : as_bool v = Some b -> v = PBool b.
Proof. destruct v; simpl; intros [= <-]; done. Qed.

Lemma typed_Returns vn vd vi vl vk vty va ve (s : t) :
  typed vn vd vi vl vk vty va ve = Returns s ->
  vn = PStr (name s) /\ vd = PStr (display_name s) /\ vi = PStr (icon s)
  /\ vl = of_optional (icon_light s) /\ vk = of_optional (icon_dark s)
  /\ vty = PStr (service_type s) /\ va = PBool (auto_start s)
  /\ ve = PBool (enabled s).
Proof.
  unfold typed.
  destruct (as_str vn) as [n|] eqn:En; simpl; [| discriminate].
  destruct (as_str vd) as [d|] eqn:Ed; simpl; [| discriminate].
  destruct (as_str vi) as [i|] eqn:Ei; simpl; [| discriminate].
  destruct (as_optional_str vl) as [l|] eqn:El; simpl; [| discriminate].
  destruct (as_optional_str vk) as [k|] eqn:Ek; simpl; [| discriminate].
  destruct (as_str vty) as [ty|] eqn:Ety; simpl; [| discriminate].
  destruct (as_bool va) as [a|] eqn:Ea; simpl; [| discriminate].
  destruct (as_bool ve) as [e|] eqn:Ee; simpl; [| discriminate].
  intros [= <-]. simpl.
  apply as_str_Some in En, Ed, Ei, Ety.
  apply as_optional_str_Some in El, Ek.
  apply as_bool_Some in Ea, Ee. by subst.
Qed.

Lemma typed_not_Raises vn vd vi vl vk vty va ve (x : exn) :
  typed vn vd vi vl vk vty va ve <> Raises x.
Proof. unfold typed. by destruct (_ ≫= _). Qed.

(** Whatever the arguments, an object that [new] returns is valid. *)
Lemma new_Returns_valid vn vd vi vl vk vty va ve (s : t) :
  new vn vd vi vl vk vty va ve = Returns s -> valid s.
Proof.
  unfold new, valid.
  destruct (truthy vn) eqn:Hn; simpl; [| discriminate].
  destruct (in_user_system vty) eqn:Hty; simpl; [| discriminate].
  destruct (truthy vd) eqn:Hd; simpl.
  - intros H. apply typed_Returns in H as (-> & -> & _ & _ & _ & -> & _).
    apply truthy_str in Hn, Hd. apply in_user_system_str in Hty. done.
  - destruct vn as [| | |n| |]; try discriminate.
    intros H. apply typed_Returns in H as (Hname & Hdisp & _ & _ & _ & -> & _).
    injection Hname as Hname. injection Hdisp as Hdisp.
    apply truthy_str in Hn. apply in_user_system_str in Hty.
    rewrite <- Hname, <- Hdisp. split; [done | split; [done |]].
    by apply capitalize_nonempty.
Qed.

(** [ValueError] is raised exactly on a falsy name or a service type outside
    "user" and "system". *)
Lemma new_Raises_ValueError vn vd vi vl vk vty va ve :
  new vn vd vi vl vk vty va ve = Raises ValueError <->
  truthy vn = false \/ in_user_system vty = false.
Proof.
  unfold new.
  destruct (truthy vn) eqn:Hn; simpl; [| by split; auto].
  destruct (in_user_system vty) eqn:Hty; simpl; [| by split; auto].
  split; [| by intros [|]].
  destruct (truthy vd); [by intros H%typed_not_Raises |].
  destruct vn; try discriminate. by intros H%typed_not_Raises.
Qed.

(** A construction from typed arguments: what it returns. *)
Lemma make_Returns n d i l k ty a e :
  n <> "" -> ty = "user" \/ ty = "system" ->
  make n d i l k ty a e
  = Returns (mk n (if String.eqb d "" then capitalize n else d) i l k ty a e).
Proof.
  intros Hn Hty. unfold make, new.
  apply truthy_str in Hn as ->. apply in_user_system_str in Hty as ->.
  cbn [negb truthy]. destruct (String.eqb d ""); simpl; apply typed_well_typed.
Qed.

End ServiceConfigFacts.

Section ServiceConfigConstruction.
Import ServiceConfig.

Lemma has_type_default {A : Type} (read : pyval -> option A)
    (d : list (string * pyval)) (k : string) (default : pyval) :
  has_type read d k -> read default <> None ->
  exists x, read (dict_get_default d k default) = Some x.
Proof.
  intros Hd Hdefault. unfold dict_get_default.
  destruct (dict_get d k) as [v|] eqn:E.
  - specialize (Hd v E). destruct (read v) as [x|]; [by exists x | done].
  - destruct (read default) as [x|]; [by exists x | done].
Qed.

(** On an entry with the declared types, [from_dict] raises or returns a
    record. *)
Lemma declared_types_from_dict (d : list (string * pyval)) :
  declared_types d -> from_dict (PDict d) <> Untyped.
Proof.
  intros (Hd & Hi & Hl & Hk & Ha & He). unfold from_dict.
  destruct (dict_get d "name") as [[| | |n| |]|]; try done.
  destruct (has_type_default as_str d "icon" (PStr "application-x-executable")
              Hi) as [i Ei]; [done |].
  destruct (has_type_default as_optional_str d "icon_light" PNone Hl)
    as [l El]; [done |].
  destruct (has_type_default as_optional_str d "icon_dark" PNone Hk)
    as [k Ek]; [done |].
  destruct (has_type_default as_bool d "auto_start" (PBool false) Ha)
    as [a Ea]; [done |].
  destruct (has_type_default as_bool d "enabled" (PBool true) He)
    as [e Ee]; [done |].
  destruct (has_type_default as_str d "display_name" (PStr (capitalize n)) Hd)
    as [x Ex]; [done |].
  unfold new.
  destruct (negb (truthy (PStr n))); [done |].
  destruct (in_user_system _) eqn:Hty; cbn [negb]; [| done].
  apply in_user_system_inv in Hty.
  assert (exists ty, as_str (dict_get_default d "service_type" (PStr "user"))
                     = Some ty) as [ty Ety].
  { destruct Hty as [-> | ->]; by eexists. }
  destruct (negb (truthy _)); unfold typed;
    cbn [as_str]; rewrite ?Ex, Ei, El, Ek, Ety, Ea, Ee; done.
Qed.

(** A mapping with a string name that is not empty, an allowed service
    type and the declared types gives a record. *)
Lemma from_dict_Returns (d : list (string * pyval)) (n : string) :
  dict_get d "name" = Some (PStr n) -> n <> "" ->
  in_user_system (dict_get_default d "service_type" (PStr "user")) = true ->
  declared_types d ->
  exists s,
    from_dict (PDict d) = Returns s
    /\ name s = n
    /\ display_name s
       = match dict_get d "display_name" with
         | Some (PStr x) => if String.eqb x "" then capitalize n else x
         | _ => capitalize n
         end
    /\ PStr (service_type s) = dict_get_default d "service_type" (PStr "user").
Proof.
  intros Hname Hn Hty Htyped.
  pose proof (declared_types_from_dict d Htyped) as Hu.
  destruct Htyped as (Hd & _).
  unfold from_dict in *. rewrite Hname in *. unfold new in *.
  apply truthy_str in Hn as Hn'. rewrite Hn', Hty in *. cbn [negb] in *.
  destruct (dict_get d "display_name") as [v|] eqn:Ev.
  - specialize (Hd v Ev). destruct v as [| | |x| |]; try done.
    assert (dict_get_default d "display_name" (PStr (capitalize n)) = PStr x)
      as Hvd by (unfold dict_get_default; by rewrite Ev).
    rewrite Hvd in *. cbn [truthy] in *.
    destruct (String.eqb x "") eqn:Ex; cbn [negb] in *;
      (destruct (typed _ _ _ _ _ _ _ _) as [s | e |] eqn:E; [| | done];
       [| by apply typed_not_Raises in E]);
      exists s; apply typed_Returns in E as (Hs & Hdisp & _ & _ & _ & Hst & _);
      injection Hs as Hs; injection Hdisp as Hdisp; by rewrite <- Hst.
  - assert (dict_get_default d "display_name" (PStr (capitalize n))
            = PStr (capitalize n))
      as Hvd by (unfold dict_get_default; by rewrite Ev).
    rewrite Hvd in *.
    assert (truthy (PStr (capitalize n)) = true) as Hc.
    { apply truthy_str. by apply capitalize_nonempty. }
    rewrite Hc in *. cbn [negb] in *.
    destruct (typed _ _ _ _ _ _ _ _) as [s | e |] eqn:E; [| | done].
    + exists s. apply typed_Returns in E as (Hs & Hdisp & _ & _ & _ & Hst & _).
      injection Hs as Hs. injection Hdisp as Hdisp. by rewrite <- Hst.
    + by apply typed_not_Raises in E.
Qed.

(** C10 (amended): a direct construction raises [ValueError] exactly when
    the name is empty or the service type is neither "user" nor "system".
    [from_dict] raises [ValueError] exactly on a mapping whose "name" is a
    string, when that name is empty or the service type the mapping gives
    ("user" when it gives none) is not allowed; a mapping without a string
    under "name" raises another exception before the constructor runs. A
    mapping with a name that is not empty, an allowed service type and
    fields of the declared types gives a record, with an empty or absent
    display name replaced by the capitalized name. Every record that a
    construction returns is valid: name not empty, service type "user" or
    "system", display name not empty. *)
Theorem construction_validates :
  (forall n d i l k ty a e,
     (make n d i l k ty a e = Raises ValueError
      <-> n = "" \/ (ty <> "user" /\ ty <> "system"))
     /\ (n <> "" -> ty = "user" \/ ty = "system" ->
         make n d i l k ty a e
         = Returns (mk n (if String.eqb d "" then capitalize n else d)
                      i l k ty a e)))
  /\ (forall data,
        from_dict data = Raises ValueError
        <-> exists d n,
              data = PDict d
              /\ dict_get d "name" = Some (PStr n)
              /\ (n = ""
                  \/ in_user_system
                       (dict_get_default d "service_type" (PStr "user"))
                     = false))
  /\ (forall d n,
        dict_get d "name" = Some (PStr n) ->
        n <> "" ->
        in_user_system (dict_get_default d "service_type" (PStr "user")) = true ->
        declared_types d ->
        exists s,
          from_dict (PDict d) = Returns s
          /\ name s = n
          /\ display_name s
             = match dict_get d "display_name" with
               | Some (PStr x) => if String.eqb x "" then capitalize n else x
               | _ => capitalize n
               end
          /\ PStr (service_type s)
             = dict_get_default d "service_type" (PStr "user"))
  /\ (forall n d i l k ty a e s, make n d i l k ty a e = Returns s -> valid s)
  /\ (forall data s, from_dict data = Returns s -> valid s).
Proof.
  split; [| split; [| split; [| split]]].
  - intros n d i l k ty a e. split; [| apply make_Returns].
    unfold make. rewrite new_Raises_ValueError.
    rewrite <- !not_true_iff_false, truthy_str, in_user_system_str.
    destruct (decide (n = "")), (decide (ty = "user")), (decide (ty = "system"));
      tauto.
  - intros data. unfold from_dict. split.
    + destruct data as [| | | | |d]; try discriminate.
      destruct (dict_get d "name") as [[| | |n| |]|] eqn:Hname; try discriminate.
      rewrite new_Raises_ValueError.
      rewrite <- (not_true_iff_false (truthy _)), truthy_str.
      intros H. exists d, n. split; [done |]. split; [done |].
      destruct (decide (n = "")); tauto.
    + intros (d & n & -> & Hname & H). rewrite Hname.
      apply new_Raises_ValueError.
      rewrite <- (not_true_iff_false (truthy _)), truthy_str.
      destruct (decide (n = "")); tauto.
  - apply from_dict_Returns.
  - intros n d i l k ty a e s. apply new_Returns_valid.
  - intros data s. unfold from_dict.
    destruct data as [| | | | |d]; try discriminate.
    destruct (dict_get d "name") as [[| | |n| |]|]; try discriminate.
    apply new_Returns_valid.
Qed.

(** C10 at concrete mappings: an entry with an empty name and one with a
    service type that is not allowed raise [ValueError]; an entry with an
    empty display name gives the record with the capitalized name. *)
Lemma construction_validates_witness :
  from_dict (PDict [("name", PStr ""); ("service_type", PStr "user")])
  = Raises ValueError
  /\ from_dict (PDict [("name", PStr "nginx"); ("service_type", PStr "root")])
     = Raises ValueError
  /\ (exists s,
        from_dict (PDict [ ("name", PStr "nginx"); ("display_name", PStr "");
                           ("service_type", PStr "system") ])
        = Returns s
        /\ display_name s = "Nginx").
Proof.
  destruct construction_validates as (_ & Hraises & Hreturns & _).
  split; [| split].
  - apply Hraises. eexists _, "". split; [reflexivity |].
    split; [reflexivity | left; reflexivity].
  - apply Hraises. eexists _, "nginx". split; [reflexivity |].
    split; [reflexivity | right; reflexivity].
  - destruct (Hreturns [ ("name", PStr "nginx"); ("display_name", PStr "");
                         ("service_type", PStr "system") ] "nginx")
      as (s & Hs & _ & Hd & _).
    + reflexivity.
    + discriminate.
    + reflexivity.
    + repeat split; intros v [=]; subst; discriminate.
    + exists s. split; [exact Hs | exact Hd].
Defined.

(** C10 as stated fails through [from_dict]: on a mapping that gives the
    service type "root" and no name the construction raises [KeyError], not
    [ValueError], although the service type is neither "user" nor
    "system". *)
Lemma construction_counterexample :
  in_user_system
    (dict_get_default [("service_type", PStr "root")] "service_type"
       (PStr "user"))
  = false
  /\ from_dict (PDict [("service_type", PStr "root")]) = Raises KeyError
  /\ from_dict (PDict [("service_type", PStr "root")]) <> Raises ValueError.
Proof. repeat split. discriminate. Qed.

End ServiceConfigConstruction.

Section ConfigFacts.
Import ConfigManager.

Lemma set_default_union (st : gmap string pyval) (k : string) (v : pyval) :
  set_default st (k, v) = st ∪ {[k := v]}.
Proof.
  unfold set_default. simpl. destruct (st !! k) as [x|] eqn:E.
  - apply map_eq. intros i. rewrite lookup_union.
    destruct (decide (k = i)) as [<- | Hne].
    + rewrite E, lookup_singleton_eq. done.
    + rewrite lookup_singleton_ne by done. by destruct (st !! i).
  - by apply insert_union_singleton_r.
Qed.

Lemma ensure_default_settings_union (self : t) :
  _ensure_default_settings self = mk (services self) (settings self ∪ default_settings).
Proof.
  unfold _ensure_default_settings, defaults. f_equal.
  cbn [foldl]. rewrite !set_default_union.
  unfold default_settings. rewrite !insert_union_singleton_l.
  rewrite (right_id_L ∅ (∪)). rewrite <- !(assoc_L (∪)). done.
Qed.

Lemma load_defaults_eq (self : t) : _load_defaults self = mk [] default_settings.
Proof.
  unfold _load_defaults. rewrite ensure_default_settings_union. simpl.
  by rewrite (left_id_L ∅ (∪)).
Qed.
End ConfigFacts.


Section RoundTrip.
Import ServiceConfig.

Lemma from_dict_to_dict (s : t) :
  valid s -> from_dict (to_dict s) = Returns (normalize_icons s).
Proof.
  intros (Hn & Hty & Hd). destruct s as [n d i l k ty a e]. simpl in *.
  apply truthy_str in Hn, Hd. apply in_user_system_str in Hty.
  unfold to_dict, from_dict, normalize_icons, canonical_icon, themed_entry.
  cbn [name display_name icon icon_light icon_dark service_type auto_start enabled].
  destruct (themed l i) eqn:Hl, (themed k i) eqn:Hk;
    cbn [app dict_get String.eqb Ascii.eqb Bool.eqb fst snd];
    unfold dict_get_default;
    cbn [app dict_get String.eqb Ascii.eqb Bool.eqb fst snd];
    unfold new; rewrite Hn, Hty, Hd; cbn [negb].
  - apply typed_well_typed.
  - exact (typed_well_typed n d i l None ty a e).
  - exact (typed_well_typed n d i None k ty a e).
  - exact (typed_well_typed n d i None None ty a e).
Qed.

Lemma normalize_icons_fixpoint (s : t) :
  normalize_icons s = s <-> canonical_icons s.
Proof.
  destruct s as [n d i l k ty a e]. unfold normalize_icons, canonical_icons.
  simpl. split.
  - intros [= Hl Hk]. by rewrite Hl, Hk.
  - intros [Hl Hk]. by rewrite Hl, Hk.
Qed.

Lemma normalize_icons_valid (s : t) : valid s -> valid (normalize_icons s).
Proof. by destruct s. Qed.

Lemma or_icon_canonical (o : option string) (base : string) :
  or_icon (canonical_icon o base) base = or_icon o base.
Proof.
  unfold canonical_icon, themed, or_icon. destruct o as [x|]; [| done].
  destruct (String.eqb x "") eqn:E1; simpl; [done |].
  destruct (String.eqb x base) eqn:E2; simpl; [| by rewrite E1].
  by apply String.eqb_eq in E2.
Qed.

Lemma get_icon_for_theme_normalize (s : t) (is_dark_theme : bool) :
  get_icon_for_theme (normalize_icons s) is_dark_theme
  = get_icon_for_theme s is_dark_theme.
Proof.
  unfold get_icon_for_theme. destruct s, is_dark_theme; simpl;
    apply or_icon_canonical.
Qed.

End RoundTrip.

Section Persistence.
Import ConfigManager.

Lemma load_services_to_dict (svcs acc : list ServiceConfig.t) :
  Forall ServiceConfig.valid svcs ->
  load_services (map ServiceConfig.to_dict svcs) acc
  = Some (acc ++ map ServiceConfig.normalize_icons svcs).
Proof.
  intros H. revert acc.
  induction H as [|s svcs Hs _ IH]; intros acc; cbn [map load_services].
  - by rewrite app_nil_r.
  - rewrite from_dict_to_dict by done. rewrite IH, <- app_assoc. done.
Qed.

Lemma load_config_document (self0 self : t) (fs : files) :
  Forall ServiceConfig.valid (services self) ->
  config_yaml fs = Some (Document (document self)) ->
  load_config self0 fs = Some (true, reloaded self).
Proof.
  intros Hv Hf. unfold load_config. rewrite Hf.
  unfold document.
  cbn [truthy negb _validate_config dict_contains dict_get_default dict_get
       String.eqb Ascii.eqb Bool.eqb is_list is_dict andb].
  rewrite load_services_to_dict by done.
  rewrite ensure_default_settings_union. simpl.
  by rewrite list_to_map_to_list.
Qed.

Lemma save_config_can_save (self : t) (fs : files) :
  can_save fs ->
  (save_config self fs).1 = true
  /\ config_yaml (save_config self fs).2 = Some (Document (document self))
  /\ can_save (save_config self fs).2.
Proof.
  intros [Hw Hr]. unfold save_config. rewrite Hw. simpl.
  destruct (config_yaml fs) as [[]|]; try done.
Qed.
End Persistence.

Section Mutations.
Import ConfigManager.

Lemma filter_length_same {A} (f : A -> bool) (l : list A) :
  (length (List.filter f l) <? length l)%nat = false -> List.filter f l = l.
Proof.
  rewrite Nat.ltb_ge.
  induction l as [|x l IH]; simpl; [done |].
  pose proof (List.filter_length_le f l) as Hle.
  destruct (f x); simpl; intros H.
  - f_equal. apply IH. lia.
  - lia.
Qed.

Lemma has_key_iff (s : ServiceConfig.t) (n ty : string) :
  has_key n ty s = true <-> ServiceConfig.key s = (n, ty).
Proof.
  unfold has_key, ServiceConfig.key.
  rewrite andb_true_iff, !String.eqb_eq. split.
  - by intros [-> ->].
  - by intros [= -> ->].
Qed.

Lemma has_key_false_iff (s : ServiceConfig.t) (n ty : string) :
  has_key n ty s = false <-> ServiceConfig.key s <> (n, ty).
Proof. rewrite <- not_true_iff_false, has_key_iff. done. Qed.

Lemma apply_mutation_valid m self fs b self' fs' :
  Forall ServiceConfig.valid (services self) -> brings_valid m ->
  apply_mutation m self fs = (b, self', fs') ->
  Forall ServiceConfig.valid (services self').
Proof.
  intros Hv Hm. destruct m as [s | n ty | n ty s | k v]; simpl.
  - unfold add_service. destruct (existsb _ _); intros [= <- <- <-]; [done |].
    simpl. apply Forall_app. split; [done | by constructor].
  - unfold remove_service. cbn [services].
    destruct (_ <? _)%nat; intros [= <- <- <-]; simpl;
      apply List.Forall_forall; intros x [Hx _]%List.filter_In;
      by apply (proj1 (List.Forall_forall _ _) Hv).
  - unfold update_service. destruct (list_find _ _) as [[i x]|];
      intros [= <- <- <-]; [| done].
    simpl. by apply Forall_insert.
  - intros [= <- <- <-]. done.
Qed.

Lemma apply_mutation_saved m self fs self' fs' :
  can_save fs ->
  apply_mutation m self fs = (true, self', fs') ->
  config_yaml fs' = Some (Document (document self')).
Proof.
  intros Hs. destruct m as [s | n ty | n ty s | k v]; simpl.
  - unfold add_service. destruct (existsb _ _); intros [= <- <-].
    by apply save_config_can_save.
  - unfold remove_service. cbn [services].
    destruct (_ <? _)%nat; intros [= <- <-]. by apply save_config_can_save.
  - unfold update_service. destruct (list_find _ _) as [[i x]|];
      intros [= <- <-]. by apply save_config_can_save.
  - intros [= <- <-]. by apply save_config_can_save.
Qed.

Lemma apply_mutation_rejected m self fs self' fs' :
  apply_mutation m self fs = (false, self', fs') -> self' = self /\ fs' = fs.
Proof.
  destruct m as [s | n ty | n ty s | k v]; simpl.
  - unfold add_service. by destruct (existsb _ _); intros [= <- <-].
  - unfold remove_service. cbn [services].
    destruct (_ <? _)%nat eqn:E; intros [= <- <-].
    apply filter_length_same in E. rewrite E. by destruct self.
  - unfold update_service. by destruct (list_find _ _) as [[i x]|];
      intros [= <- <-].
  - discriminate.
Qed.

Lemma union_default_settings (st : gmap string pyval) :
  dom default_settings ⊆ dom st -> st ∪ default_settings = st.
Proof.
  intros Hdom. apply map_eq. intros i. rewrite lookup_union.
  destruct (st !! i) as [x|] eqn:E; [by destruct (default_settings !! i) |].
  apply not_elem_of_dom in E.
  assert (i ∉ dom default_settings) as Hi by (intros Hin; apply E, Hdom, Hin).
  apply not_elem_of_dom in Hi. by rewrite Hi.
Qed.

Lemma reloaded_stable (self : t) : stable self -> reloaded self = self.
Proof.
  intros [Hc Hd]. destruct self as [svcs st]. unfold reloaded. simpl in *.
  f_equal; [| by apply union_default_settings].
  induction Hc as [|s svcs Hs _ IH]; simpl; [done |].
  f_equal; [by apply normalize_icons_fixpoint | done].
Qed.
End Mutations.

Section Stability.
Import ConfigManager.

Lemma canonical_icon_idempotent (o : option string) (base : string) :
  ServiceConfig.canonical_icon (ServiceConfig.canonical_icon o base) base
  = ServiceConfig.canonical_icon o base.
Proof.
  unfold ServiceConfig.canonical_icon.
  destruct (ServiceConfig.themed o base) eqn:E; [by rewrite E | done].
Qed.

(** What a reload gives is given back as it is by the next reload. *)
Lemma reloaded_is_stable (self : t) : stable (reloaded self).
Proof.
  split; simpl.
  - apply Forall_forall. intros s [x [-> _]]%list_elem_of_fmap.
    split; apply canonical_icon_idempotent.
  - rewrite dom_union. apply union_subseteq_r.
Qed.

(** A mutation that brings in a record with icons in the form [to_dict]
    keeps, as the dialogs build them, keeps the registry stable. *)
Lemma apply_mutation_stable m self fs b self' fs' :
  stable self ->
  match m with
  | AddService s | UpdateService _ _ s => ServiceConfig.canonical_icons s
  | _ => True
  end ->
  apply_mutation m self fs = (b, self', fs') ->
  stable self'.
Proof.
  intros [Hc Hd] Hm. destruct m as [s | n ty | n ty s | k v]; simpl.
  - unfold add_service. destruct (existsb _ _); intros [= <- <- <-]; [done |].
    split; [| done]. simpl. apply Forall_app. split; [done | by constructor].
  - unfold remove_service. cbn [services].
    destruct (_ <? _)%nat; intros [= <- <- <-]; (split; [| done]); simpl;
      apply List.Forall_forall; intros x [Hx _]%List.filter_In;
      by apply (proj1 (List.Forall_forall _ _) Hc).
  - unfold update_service. destruct (list_find _ _) as [[i x]|];
      intros [= <- <- <-]; [| done].
    split; [| done]. simpl. by apply Forall_insert.
  - intros [= <- <- <-]. split; [done |]. simpl.
    rewrite dom_insert. by apply union_subseteq_r'.
Qed.

End Stability.

Section RegistryClaims.
Import ConfigManager.

(** C1 (amended): [from_dict (to_dict s)] is [s] with each themed icon that
    is empty or equal to the base icon replaced by [None]; it is [s] itself
    exactly when the themed icons of [s] are already in that form, and the
    icon shown for either theme is the same. For a registry of valid records
    and a mutation ([add_service], [remove_service], [update_service],
    [set_setting]) made while the configuration can be written: when the
    mutation is applied, reloading the saved file succeeds and gives the
    services with their icons so normalised and the settings completed by the
    built-in defaults; when it is rejected, the registry and the file are as
    before; and the reloaded registry is the in-memory one whenever the
    icons are in that form and the settings hold the five default keys. *)
Theorem persistence_round_trip :
  (forall s,
     ServiceConfig.valid s ->
     ServiceConfig.from_dict (ServiceConfig.to_dict s)
     = Returns (ServiceConfig.normalize_icons s)
     /\ (ServiceConfig.from_dict (ServiceConfig.to_dict s) = Returns s
         <-> ServiceConfig.canonical_icons s)
     /\ (forall is_dark_theme,
           ServiceConfig.get_icon_for_theme (ServiceConfig.normalize_icons s)
             is_dark_theme
           = ServiceConfig.get_icon_for_theme s is_dark_theme))
  /\ (forall m self fs b self' fs',
        Forall ServiceConfig.valid (services self) ->
        brings_valid m ->
        can_save fs ->
        apply_mutation m self fs = (b, self', fs') ->
        (b = true ->
         forall self0, load_config self0 fs' = Some (true, reloaded self'))
        /\ (b = false -> self' = self /\ fs' = fs)
        /\ (stable self' -> reloaded self' = self')).
Proof.
  split.
  - intros s Hs. split; [by apply from_dict_to_dict |].
    split; [| apply get_icon_for_theme_normalize].
    rewrite from_dict_to_dict by done.
    rewrite <- normalize_icons_fixpoint. split; congruence.
  - intros m self fs b self' fs' Hv Hm Hs Happ.
    split; [| split; [| apply reloaded_stable]].
    + intros -> self0. apply load_config_document.
      * eapply apply_mutation_valid; eauto.
      * eapply apply_mutation_saved; eauto.
    + intros ->. by eapply apply_mutation_rejected.
Qed.

(** C1 at a concrete registry: adding a record with a dark icon of its own
    to the default registry, then reloading. *)
Lemma persistence_round_trip_witness :
    load_config init
      (add_service (mk [] default_settings) (mk_files None None true)
         (ServiceConfig.mk "nginx" "Nginx" "nginx" None (Some "nginx-dark")
            "system" false true)).2
    = Some (true,
            mk [ServiceConfig.mk "nginx" "Nginx" "nginx" None (Some "nginx-dark")
                  "system" false true]
               default_settings).
Proof.
  destruct persistence_round_trip as [_ H].
  destruct (H (AddService (ServiceConfig.mk "nginx" "Nginx" "nginx" None
                             (Some "nginx-dark") "system" false true))
              (mk [] default_settings) (mk_files None None true)
              true
              (mk [ServiceConfig.mk "nginx" "Nginx" "nginx" None
                     (Some "nginx-dark") "system" false true] default_settings)
              (add_service (mk [] default_settings) (mk_files None None true)
                 (ServiceConfig.mk "nginx" "Nginx" "nginx" None
                    (Some "nginx-dark") "system" false true)).2)
    as (Hload & _ & Hstable).
  - constructor.
  - simpl. unfold ServiceConfig.valid. simpl. repeat split; try discriminate.
    by right.
  - split; [reflexivity | discriminate].
  - reflexivity.
  - rewrite (Hload eq_refl init), Hstable; [reflexivity |].
    split; [| reflexivity].
    constructor; [| constructor]. split; reflexivity.
Defined.


(** C1 as stated fails: the record built by
    [ServiceConfig("nginx", "Nginx", icon="nginx", icon_light="nginx",
    service_type="system")] is valid, [to_dict] leaves its light icon out
    because it equals the base icon, and [from_dict] gives a record whose
    light icon is [None]; adding it to a registry and reloading gives a
    registry that differs from the in-memory one. *)
Lemma round_trip_counterexample :
  exists s,
    ServiceConfig.make "nginx" "Nginx" "nginx" (Some "nginx") None "system"
      false true = Returns s
    /\ ServiceConfig.valid s
    /\ ServiceConfig.from_dict (ServiceConfig.to_dict s)
       = Returns (ServiceConfig.mk "nginx" "Nginx" "nginx" None None "system"
                    false true)
    /\ ServiceConfig.from_dict (ServiceConfig.to_dict s) <> Returns s
    /\ (add_service (mk [] default_settings) (mk_files None None true) s).1.2
       = mk [s] default_settings
    /\ load_config init
         (add_service (mk [] default_settings) (mk_files None None true) s).2
       <> Some (true, mk [s] default_settings).
Proof.
  eexists. split; [reflexivity |].
  split; [by repeat split; try discriminate; right |].
  split; [reflexivity |].
  split; [discriminate |].
  split; [reflexivity |].
  vm_compute. discriminate.
Qed.

(** C6: [add_service] with a record whose (name, service_type) key is the
    key of a record of the registry returns [False] and leaves the services,
    the settings and the files as they were. *)
Theorem add_service_rejects_duplicate (self : t) (fs : files)
    (service : ServiceConfig.t) :
  (exists s, s ∈ services self
             /\ ServiceConfig.key s = ServiceConfig.key service) ->
  add_service self fs service = (false, self, fs).
Proof.
  intros (s & Hin & Hkey). unfold add_service.
  assert (existsb (has_key (ServiceConfig.name service)
                     (ServiceConfig.service_type service)) (services self)
          = true) as ->; [| done].
  apply existsb_exists. exists s. split; [by apply list_elem_of_In |].
  by apply has_key_iff.
Qed.

(** C6 at a concrete registry: a second "nginx" system service. *)
Lemma add_service_rejects_duplicate_witness :
  add_service
    (mk [ServiceConfig.mk "nginx" "Nginx" "nginx" None None "system" false true]
        default_settings)
    (mk_files None None true)
    (ServiceConfig.mk "nginx" "Web server" "web" None None "system" true true)
  = (false,
     mk [ServiceConfig.mk "nginx" "Nginx" "nginx" None None "system" false true]
        default_settings,
     mk_files None None true).
Proof.
  apply add_service_rejects_duplicate.
  exists (ServiceConfig.mk "nginx" "Nginx" "nginx" None None "system" false true).
  split; [simpl; left | reflexivity].
Defined.

(** C9: when config.yaml is empty or malformed, [load_config] returns
    [False], the services are the empty list and the settings are exactly
    the built-in default map, whatever the manager held before. *)
Theorem load_config_falls_back_to_defaults (self : t) (fs : files)
    (c : config_file) :
  config_yaml fs = Some c ->
  empty_or_malformed c ->
  load_config self fs = Some (false, mk [] default_settings).
Proof.
  intros Hf Hc. unfold load_config. rewrite Hf, load_defaults_eq.
  destruct Hc as [ | | | data Hd | d v Hget Hv | d v Hget Hv ]; try done.
  - destruct data; try discriminate Hd; cbn [_validate_config negb];
      by destruct (negb _).
  - destruct d as [|kv d]; [done |]. cbn [truthy negb].
    unfold _validate_config, dict_contains, dict_get_default.
    by rewrite Hget, Hv.
  - destruct d as [|kv d]; [done |]. cbn [truthy negb].
    unfold _validate_config, dict_contains, dict_get_default.
    rewrite Hget, Hv. cbn [andb negb].
    by destruct (dict_get _ "services") as [v'|]; [destruct (is_list v') |].
Qed.

(** C9 at a concrete file: "services" is a string, not a list. *)
Lemma load_config_falls_back_to_defaults_witness :
  load_config
    (mk [ServiceConfig.mk "nginx" "Nginx" "nginx" None None "system" false true] ∅)
    (mk_files (Some (Document (PDict [("services", PStr "nginx")]))) None true)
  = Some (false, mk [] default_settings).
Proof.
  apply (load_config_falls_back_to_defaults _ _
           (Document (PDict [("services", PStr "nginx")]))).
  - reflexivity.
  - apply (file_services_not_a_list _ (PStr "nginx")); reflexivity.
Defined.

End RegistryClaims.

Section UniqueKeys.
Import ConfigManager.

Lemma elem_of_insert_inv {A} (l : list A) (i : nat) (x y : A) :
  y ∈ <[i:=x]> l -> y = x \/ y ∈ l.
Proof.
  revert i. induction l as [|z l IH]; intros [|i]; simpl; try by right.
  - intros [-> | H]%elem_of_cons; [by left | right; by right].
  - intros [-> | H]%elem_of_cons; [right; by left |].
    destruct (IH i H) as [-> | H']; [by left | right; by right].
Qed.

Lemma NoDup_insert_fresh {A} (l : list A) (i : nat) (x : A) :
  NoDup l -> x ∉ l -> NoDup (<[i:=x]> l).
Proof.
  intros Hl. revert i. induction Hl as [|z l Hz Hl IH]; intros i Hx.
  - by destruct i; constructor.
  - apply not_elem_of_cons in Hx as [Hxz Hx].
    destruct i as [|i]; simpl; apply NoDup_cons.
    + done.
    + split; [| by apply IH].
      intros [-> | H]%elem_of_insert_inv; done.
Qed.

Lemma existsb_has_key_false (l : list ServiceConfig.t) (s : ServiceConfig.t) :
  existsb (has_key (ServiceConfig.name s) (ServiceConfig.service_type s)) l
  = false ->
  ServiceConfig.key s ∉ ServiceConfig.key <$> l.
Proof.
  intros H [x [Hk Hx]]%list_elem_of_fmap.
  assert (existsb (has_key (ServiceConfig.name s) (ServiceConfig.service_type s)) l
          = true) as Ht; [| congruence].
  apply existsb_exists. exists x. split; [by apply list_elem_of_In |].
  by apply has_key_iff.
Qed.

(** [add_service] keeps the keys distinct. *)
Lemma add_service_unique_keys (self : t) (fs : files) (s : ServiceConfig.t) :
  unique_keys (services self) ->
  unique_keys (services (add_service self fs s).1.2).
Proof.
  intros Hu. unfold add_service.
  destruct (existsb _ _) eqn:E; simpl; [done |].
  unfold unique_keys. rewrite fmap_app. apply NoDup_app.
  split; [done |]. split; [| by apply NoDup_singleton].
  intros k Hk [-> | []%elem_of_nil]%elem_of_cons.
  by apply existsb_has_key_false in E.
Qed.

Lemma unique_keys_filter (f : ServiceConfig.t -> bool) (l : list ServiceConfig.t) :
  unique_keys l -> unique_keys (List.filter f l).
Proof.
  unfold unique_keys. induction l as [|x l IH]; simpl; [done |].
  intros [Hx Hl]%NoDup_cons. destruct (f x); simpl; [| by apply IH].
  apply NoDup_cons. split; [| by apply IH].
  intros [y [Hk Hy]]%list_elem_of_fmap. apply Hx.
  apply list_elem_of_fmap. exists y. split; [done |].
  apply list_elem_of_In. apply list_elem_of_In in Hy.
  by apply List.filter_In in Hy as [Hy _].
Qed.

(** [remove_service] keeps the keys distinct. *)
Lemma remove_service_unique_keys (self : t) (fs : files) (n ty : string) :
  unique_keys (services self) ->
  unique_keys (services (remove_service self fs n ty).1.2).
Proof.
  intros Hu. unfold remove_service. cbn [services].
  destruct (_ <? _)%nat; simpl; by apply unique_keys_filter.
Qed.

(** [update_service] keeps the keys distinct when the updated record keeps
    the old key, or takes a key that no record of the registry has. *)
Lemma update_service_unique_keys (self : t) (fs : files) (n ty : string)
    (u : ServiceConfig.t) :
  unique_keys (services self) ->
  ServiceConfig.key u = (n, ty)
  \/ ServiceConfig.key u ∉ ServiceConfig.key <$> services self ->
  unique_keys (services (update_service self fs n ty u).1.2).
Proof.
  intros Hu Hk. unfold update_service.
  destruct (list_find _ _) as [[i x]|] eqn:E; simpl; [| done].
  apply list_find_Some in E as (Hi & Hx & _).
  unfold unique_keys. rewrite list_fmap_insert.
  destruct Hk as [Hk | Hk].
  - rewrite list_insert_id; [done |].
    rewrite list_lookup_fmap, Hi. simpl. f_equal.
    apply has_key_iff in Hx. congruence.
  - by apply NoDup_insert_fresh.
Qed.

End UniqueKeys.

Section Privilege.
Import ServiceManager.

Lemma perform_eq (a : lifecycle) run cm rule :
  perform a run cm rule = _execute_systemctl_action run cm rule (action_word a).
Proof. by destruct a. Qed.

Lemma execute_eq run cm rule action service_name is_user_service :
  _execute_systemctl_action run cm rule action service_name is_user_service
  = match run (action_cmd cm rule action service_name is_user_service) with
    | Completed _ => (true, None)
    | TimeoutExpired =>
        (false,
         Some ("Timeout while trying to " +:+ action +:+ " " +:+ service_name))
    | CalledProcessError stderr =>
        (false,
         Some (if String.eqb stderr "" then
                 "Failed to " +:+ action +:+ " " +:+ service_name
               else strip stderr))
    | OtherError msg => (false, Some msg)
    end.
Proof.
  unfold _execute_systemctl_action.
  destruct (run _) as [| | stderr |]; try done.
  by destruct (String.eqb stderr "").
Qed.

Lemma strip_empty : strip "" = "".
Proof. reflexivity. Qed.

(** C4 (amended): for each lifecycle action, the command of a user-scoped
    service is [systemctl --user <action> <unit>], without pkexec. The
    command of a system-scoped service has no pkexec when the exemption is
    active, that is when the "passwordless_mode" setting of the
    controller's config manager is true or, for a controller without a
    config manager, when the rule file is present; it starts with pkexec
    when neither the setting nor the rule file says so. The call gives
    [True] exactly when the command completes: a timeout, a failed command
    (a refused elevation among them) and any other exception give [False],
    the first with the sentence "Timeout while trying to ...", the second
    with the stripped stderr of the command or, when there is none, the
    sentence "Failed to ...", the third with the text of the exception. A
    failed command gives the result of a timeout exactly when its stripped
    stderr is the timeout sentence itself. *)
Theorem lifecycle_action_elevation (a : lifecycle)
    (run : list string -> run_result) (service_name : string) :
  (forall cm rule,
     action_cmd cm rule (action_word a) service_name true
     = ["systemctl"; "--user"; action_word a; service_name])
  /\ (forall c rule,
        truthy (ConfigManager.get_setting c "passwordless_mode" (PBool false))
        = true ->
        action_cmd (Some c) rule (action_word a) service_name false
        = ["systemctl"; action_word a; service_name])
  /\ (forall c rule,
        truthy (ConfigManager.get_setting c "passwordless_mode" (PBool false))
        = false ->
        rule <> PolkitHelper.Present ->
        action_cmd (Some c) rule (action_word a) service_name false
        = ["pkexec"; "systemctl"; action_word a; service_name])
  /\ (forall rule,
        action_cmd None rule (action_word a) service_name false
        = match rule with
          | PolkitHelper.Present => ["systemctl"; action_word a; service_name]
          | _ => ["pkexec"; "systemctl"; action_word a; service_name]
          end)
  /\ (forall cm rule is_user_service,
        (perform a run cm rule service_name is_user_service).1 = true
        <-> exists stdout,
              run (action_cmd cm rule (action_word a) service_name
                     is_user_service)
              = Completed stdout)
  /\ (forall cm rule is_user_service,
        run (action_cmd cm rule (action_word a) service_name is_user_service)
        = TimeoutExpired ->
        perform a run cm rule service_name is_user_service
        = (false,
           Some ("Timeout while trying to " +:+ action_word a +:+ " "
                 +:+ service_name)))
  /\ (forall cm rule is_user_service stderr,
        run (action_cmd cm rule (action_word a) service_name is_user_service)
        = CalledProcessError stderr ->
        perform a run cm rule service_name is_user_service
        = (false,
           Some (if String.eqb stderr "" then
                   "Failed to " +:+ action_word a +:+ " " +:+ service_name
                 else strip stderr))
        /\ (perform a run cm rule service_name is_user_service
            = (false,
               Some ("Timeout while trying to " +:+ action_word a +:+ " "
                     +:+ service_name))
            <-> strip stderr
                = "Timeout while trying to " +:+ action_word a +:+ " "
                  +:+ service_name))
  /\ (forall cm rule is_user_service msg,
        run (action_cmd cm rule (action_word a) service_name is_user_service)
        = OtherError msg ->
        perform a run cm rule service_name is_user_service
        = (false, Some msg)).
Proof.
  split; [| split; [| split; [| split; [| split; [| split; [| split]]]]]].
  - intros cm rule. unfold action_cmd, requires_privilege. done.
  - intros c rule Hset. unfold action_cmd, requires_privilege.
    cbn [PolkitHelper.is_passwordless_enabled]. by rewrite Hset.
  - intros c rule Hset _. unfold action_cmd, requires_privilege.
    cbn [PolkitHelper.is_passwordless_enabled]. by rewrite Hset.
  - intros rule. unfold action_cmd, requires_privilege. by destruct rule.
  - intros cm rule is_user_service. rewrite perform_eq, execute_eq.
    destruct (run _) as [stdout | | stderr | msg]; cbn [fst]; split;
      try done; try (by intros [? [=]]).
    intros _. by exists stdout.
  - intros cm rule is_user_service Hrun. rewrite perform_eq, execute_eq.
    by rewrite Hrun.
  - intros cm rule is_user_service stderr Hrun. rewrite perform_eq, execute_eq.
    rewrite Hrun. split; [done |].
    destruct (String.eqb stderr "") eqn:E.
    + apply String.eqb_eq in E as ->. rewrite strip_empty.
      split; [intros [=] |]. by destruct a.
    + split; [by intros [= ->] | by intros ->].
  - intros cm rule is_user_service msg Hrun. rewrite perform_eq, execute_eq.
    by rewrite Hrun.
Qed.

(** C4 as stated fails on the error text: a command that fails after
    writing the sentence of a timeout to its standard error gives the very
    result of a timeout. *)
Lemma lifecycle_action_counterexample :
  start_service
    (fun _ => CalledProcessError "Timeout while trying to start nginx")
    (Some (ConfigManager.mk [nginx] default_settings)) PolkitHelper.Absent
    "nginx" false
  = start_service (fun _ => TimeoutExpired)
      (Some (ConfigManager.mk [nginx] default_settings)) PolkitHelper.Absent
      "nginx" false
  /\ start_service (fun _ => TimeoutExpired)
       (Some (ConfigManager.mk [nginx] default_settings)) PolkitHelper.Absent
       "nginx" false
     = (false, Some "Timeout while trying to start nginx").
Proof. split; reflexivity. Qed.

End Privilege.

Section PasswordlessQuery.
Import PolkitHelper.

(** C5 (amended): a query made with a config manager whose
    "passwordless_mode" setting is true answers [True] whether the rule
    file is there or not, and so does every query after [set_setting] has
    stored [True]: the cached setting is enough, the rule file is not
    looked at. When neither the setting nor the rule file says so the
    answer is false. A query made without a config manager answers by the
    presence of the rule file, [False] when the file cannot be looked
    at. *)
Theorem passwordless_query_reads_settings :
  (forall cm rule,
     ConfigManager.settings cm !! "passwordless_mode" = Some (PBool true) ->
     is_passwordless_enabled (Some cm) rule = PBool true)
  /\ (forall cm fs rule,
        is_passwordless_enabled
          (Some (ConfigManager.set_setting cm fs "passwordless_mode"
                   (PBool true)).1) rule
        = PBool true)
  /\ (forall cm rule,
        ConfigManager.settings cm !! "passwordless_mode" = Some (PBool false)
        \/ ConfigManager.settings cm !! "passwordless_mode" = None ->
        rule <> Present ->
        is_passwordless_enabled (Some cm) rule = PBool false)
  /\ (forall rule,
        is_passwordless_enabled None rule
        = PBool match rule with Present => true | _ => false end).
Proof.
  split; [| split; [| split]].
  - intros cm rule H. unfold is_passwordless_enabled, ConfigManager.get_setting.
    by rewrite H.
  - intros cm fs rule. unfold is_passwordless_enabled, ConfigManager.get_setting.
    simpl. by rewrite lookup_insert_eq.
  - intros cm rule H _. unfold is_passwordless_enabled, ConfigManager.get_setting.
    by destruct H as [-> | ->].
  - by intros [].
Qed.

(** C5 as stated fails: with the setting [True] and the rule file absent
    the two disagree, and the query gives [True], the cached setting, not
    the presence of the file. *)
Lemma passwordless_query_counterexample :
  ConfigManager.get_setting
    (ConfigManager.mk [] (<["passwordless_mode" := PBool true]> default_settings))
    "passwordless_mode" (PBool false) = PBool true
  /\ rule_exists Absent = false
  /\ is_passwordless_enabled
       (Some (ConfigManager.mk []
                (<["passwordless_mode" := PBool true]> default_settings)))
       Absent
     = PBool true.
Proof. repeat split. Qed.

End PasswordlessQuery.

Section RateLimiter.
Import NotificationManager.

Lemma should_notify_suppressed time_time (nm : t) (key : string) :
  (time_time (clock_reads nm) - last_time nm key < NOTIFICATION_RATE_LIMIT)%Q ->
  _should_notify time_time nm key
  = (false, mk (_last_notification nm) (sent nm) (S (clock_reads nm))).
Proof.
  intros Hlt. unfold _should_notify, last_time in *. cbn [_last_notification].
  destruct (Qlt_le_dec _ _) as [_ | Hle]; [done |].
  exfalso. by apply (Qlt_not_le _ _ Hlt).
Qed.

Lemma should_notify_allowed time_time (nm : t) (key : string) :
  (NOTIFICATION_RATE_LIMIT <= time_time (clock_reads nm) - last_time nm key)%Q ->
  _should_notify time_time nm key
  = (true, mk (_last_notification nm) (sent nm) (S (clock_reads nm))).
Proof.
  intros Hle. unfold _should_notify, last_time in *. cbn [_last_notification].
  destruct (Qlt_le_dec _ _) as [Hlt | _]; [| done].
  exfalso. by apply (Qlt_not_le _ _ Hlt).
Qed.

Lemma deliver_suppressed time_time (nm : t) (r : request)
    (key display_name : string) :
  (time_time (clock_reads nm) - last_time nm key < NOTIFICATION_RATE_LIMIT)%Q ->
  deliver time_time nm r key display_name
  = mk (_last_notification nm) (sent nm) (S (clock_reads nm)).
Proof.
  intros H.
  destruct r; simpl;
    unfold notify_service_started, notify_service_stopped, notify_service_failed;
    by rewrite (should_notify_suppressed _ _ _ H).
Qed.

Lemma deliver_allowed time_time (nm : t) (r : request)
    (key display_name : string) :
  (NOTIFICATION_RATE_LIMIT <= time_time (clock_reads nm) - last_time nm key)%Q ->
  deliver time_time nm r key display_name
  = mk (<[key := time_time (S (clock_reads nm))]> (_last_notification nm))
       (sent nm ++ [notification_of r display_name])
       (S (S (clock_reads nm))).
Proof.
  intros H.
  destruct r as [| | error]; simpl;
    unfold notify_service_started, notify_service_stopped,
      notify_service_failed;
    rewrite (should_notify_allowed _ _ _ H);
    unfold _update_notification_time, _send_notification; simpl; try done.
  by destruct (String.eqb error "").
Qed.

(** The limiter by the name it is given: a request made when the clock
    reads less than NOTIFICATION_RATE_LIMIT (30 seconds) after the time
    recorded for the name sends nothing and leaves the recorded time; a
    request made at least the window after it sends exactly one notification
    and records the time read at that moment, from which the next window
    runs. *)
Theorem rate_limiter_window (time_time : nat -> Q) (nm : t) (r : request)
    (key display_name : string) :
  ((time_time (clock_reads nm) - last_time nm key < NOTIFICATION_RATE_LIMIT)%Q ->
   deliver time_time nm r key display_name
   = mk (_last_notification nm) (sent nm) (S (clock_reads nm))
   /\ last_time (deliver time_time nm r key display_name) key
      = last_time nm key)
  /\ ((NOTIFICATION_RATE_LIMIT <= time_time (clock_reads nm) - last_time nm key)%Q ->
      deliver time_time nm r key display_name
      = mk (<[key := time_time (S (clock_reads nm))]> (_last_notification nm))
           (sent nm ++ [notification_of r display_name])
           (S (S (clock_reads nm)))
      /\ last_time (deliver time_time nm r key display_name) key
         = time_time (S (clock_reads nm))).
Proof.
  split; intros H.
  - by rewrite deliver_suppressed.
  - rewrite deliver_allowed by done.
    split; [done |]. unfold last_time. simpl. by rewrite lookup_insert_eq.
Qed.

(** On two timelines: "Nginx Started" goes out at 1000; a request at 1010
    is suppressed, a request at 1030 goes out. *)
Lemma rate_limiter_window_witness :
  sent (deliver (fun n => match n with
                          | 0 | 1 => 1000 # 1
                          | _ => 1010 # 1
                          end)
          (deliver (fun n => match n with
                             | 0 | 1 => 1000 # 1
                             | _ => 1010 # 1
                             end)
             init Started "nginx" "Nginx")
          Stopped "nginx" "Nginx")
  = [notification_of Started "Nginx"]
  /\ sent (deliver (fun n => match n with
                             | 0 | 1 => 1000 # 1
                             | _ => 1030 # 1
                             end)
             (deliver (fun n => match n with
                                | 0 | 1 => 1000 # 1
                                | _ => 1030 # 1
                                end)
                init Started "nginx" "Nginx")
             Stopped "nginx" "Nginx")
     = [notification_of Started "Nginx"; notification_of Stopped "Nginx"].
Proof.
  split.
  - destruct (rate_limiter_window
                (fun n => match n with 0 | 1 => 1000 # 1 | _ => 1010 # 1 end)
                (deliver (fun n => match n with
                                   | 0 | 1 => 1000 # 1
                                   | _ => 1010 # 1
                                   end)
                   init Started "nginx" "Nginx")
                Stopped "nginx" "Nginx") as [Hsuppressed _].
    destruct Hsuppressed as [-> _]; reflexivity.
  - destruct (rate_limiter_window
                (fun n => match n with 0 | 1 => 1000 # 1 | _ => 1030 # 1 end)
                (deliver (fun n => match n with
                                   | 0 | 1 => 1000 # 1
                                   | _ => 1030 # 1
                                   end)
                   init Started "nginx" "Nginx")
                Stopped "nginx" "Nginx") as [_ Hallowed].
    destruct Hallowed as [-> _]; [discriminate | reflexivity].
Defined.

(** C7 (the code breaks it): the application hands the limiter the name
    of the service without its type ([_notify_status_change] drops
    [service_type]), so the system service and the user service "nginx",
    which have distinct keys, share one window. The system service is
    notified at 1000 and the user service at 1035. At 1040, 40 seconds
    after its own last notification and so past the window, the system
    service fails: its tray icon shows the failure, and no notification is
    sent. *)
Theorem same_name_failure_not_notified :
  unique_keys (ConfigManager.services (NyxApp.config_manager two_nginx))
  /\ (ConfigManager.add_service (ConfigManager.mk [nginx] default_settings)
        (ConfigManager.mk_files None None true) nginx_user).1.1 = true
  /\ sent (NyxApp.notification_manager
             (polled (clock_of [1000 # 1; 1000 # 1; 1035 # 1; 1035 # 1; 1040 # 1])
                [systemctl_prints_for "active" "inactive"] two_nginx))
     = [notification_of Started "Nginx"]
  /\ last_time
       (NyxApp.notification_manager
          (polled (clock_of [1000 # 1; 1000 # 1; 1035 # 1; 1035 # 1; 1040 # 1])
             [systemctl_prints_for "active" "inactive"] two_nginx))
       "nginx"
     = 1000 # 1
  /\ sent (NyxApp.notification_manager
             (polled (clock_of [1000 # 1; 1000 # 1; 1035 # 1; 1035 # 1; 1040 # 1])
                [ systemctl_prints_for "active" "inactive";
                  systemctl_prints_for "active" "active" ] two_nginx))
     = [notification_of Started "Nginx"; notification_of Started "Nginx (user)"]
  /\ clock_of [1000 # 1; 1000 # 1; 1035 # 1; 1035 # 1; 1040 # 1]
       (clock_reads
          (NyxApp.notification_manager
             (polled (clock_of [1000 # 1; 1000 # 1; 1035 # 1; 1035 # 1; 1040 # 1])
                [ systemctl_prints_for "active" "inactive";
                  systemctl_prints_for "active" "active" ] two_nginx)))
     = 1040 # 1
  /\ (NOTIFICATION_RATE_LIMIT <= (1040 # 1) - (1000 # 1))%Q
  /\ NyxApp.tray_icons
       (polled (clock_of [1000 # 1; 1000 # 1; 1035 # 1; 1035 # 1; 1040 # 1])
          [ systemctl_prints_for "active" "inactive";
            systemctl_prints_for "active" "active";
            systemctl_prints_for "failed" "active" ] two_nginx)
     = [ (("nginx", "system"), NyxApp.mk_icon nginx ServiceStatus.FAILED);
         (("nginx", "user"), NyxApp.mk_icon nginx_user ServiceStatus.ACTIVE) ]
  /\ sent (NyxApp.notification_manager
             (polled (clock_of [1000 # 1; 1000 # 1; 1035 # 1; 1035 # 1; 1040 # 1])
                [ systemctl_prints_for "active" "inactive";
                  systemctl_prints_for "active" "active";
                  systemctl_prints_for "failed" "active" ] two_nginx))
     = [notification_of Started "Nginx"; notification_of Started "Nginx (user)"].
Proof.
  split.
  { unfold unique_keys. simpl. apply NoDup_cons. split.
    - intros [[=] | []%elem_of_nil]%elem_of_cons.
    - apply NoDup_singleton. }
  split; [reflexivity |]. split; [reflexivity |]. split; [reflexivity |].
  split; [reflexivity |]. split; [reflexivity |].
  split; [by vm_compute |]. split; reflexivity.
Qed.

End RateLimiter.

Section Poller.
Import NyxApp ServiceStatus.

Lemma notify_status_change_significant time_time nm service_name service_type
    display_name (old_status new_status : ServiceStatus.t) :
  _notify_status_change time_time nm service_name service_type display_name
    old_status new_status
  = match significant old_status new_status with
    | Some r => deliver time_time nm r service_name display_name
    | None => nm
    end.
Proof.
  unfold _notify_status_change.
  destruct old_status, new_status; simpl;
    repeat (case_decide; try done; try tauto); naive_solver.
Qed.

Lemma update_one_changed run time_time cm nm service_name service_type icon :
  current_status icon <> queried run (service_name, service_type) ->
  update_one run time_time cm nm ((service_name, service_type), icon)
  = (refreshed run ((service_name, service_type), icon),
     if truthy (ConfigManager.get_setting cm "show_notifications" (PBool true))
     then
       match significant (current_status icon)
               (queried run (service_name, service_type)) with
       | Some r =>
           deliver time_time nm r service_name
             (ServiceConfig.display_name (service_config icon))
       | None => nm
       end
     else nm).
Proof.
  intros Hne. unfold update_one.
  change (ServiceManager.get_service_status run service_name
            (String.eqb service_type "user"))
    with (queried run (service_name, service_type)).
  rewrite decide_True by done. unfold update_status.
  rewrite decide_True by done.
  by rewrite notify_status_change_significant.
Qed.

Lemma update_one_unchanged run time_time cm nm service_name service_type icon :
  current_status icon = queried run (service_name, service_type) ->
  update_one run time_time cm nm ((service_name, service_type), icon)
  = (((service_name, service_type), icon), nm)
  /\ refreshed run ((service_name, service_type), icon)
     = ((service_name, service_type), icon).
Proof.
  intros He. unfold update_one.
  change (ServiceManager.get_service_status run service_name
            (String.eqb service_type "user"))
    with (queried run (service_name, service_type)).
  rewrite decide_False by (by intros H; apply H).
  split; [done |]. unfold refreshed. simpl. rewrite <- He. by destruct icon.
Qed.

Lemma update_one_refreshes run time_time cm nm item :
  (update_one run time_time cm nm item).1 = refreshed run item.
Proof.
  destruct item as [[n ty] icon].
  destruct (decide (current_status icon = queried run (n, ty))) as [He | Hne].
  - destruct (update_one_unchanged run time_time cm nm n ty icon He) as [-> ->].
    done.
  - by rewrite update_one_changed.
Qed.

Lemma update_items_refreshes run time_time cm nm items :
  (update_items run time_time cm nm items).1 = map (refreshed run) items.
Proof.
  revert nm. induction items as [|item items IH]; intros nm; [done |].
  cbn [update_items map].
  pose proof (update_one_refreshes run time_time cm nm item) as H1.
  destruct (update_one run time_time cm nm item) as [item' nm'].
  specialize (IH nm').
  destruct (update_items run time_time cm nm' items) as [rest' nm''].
  simpl in *. by rewrite H1, IH.
Qed.


End Poller.

Section ConcreteCases.
Import NyxApp ServiceStatus.



(** C4 at concrete calls: starting the system service "nginx" without the
    exemption goes through pkexec, and a timeout is reported as such. *)
Lemma lifecycle_action_elevation_witness :
  ServiceManager.action_cmd (Some (ConfigManager.mk [nginx] default_settings))
    PolkitHelper.Absent "start" "nginx" false
  = ["pkexec"; "systemctl"; "start"; "nginx"]
  /\ ServiceManager.start_service (fun _ => ServiceManager.TimeoutExpired)
       (Some (ConfigManager.mk [nginx] default_settings)) PolkitHelper.Absent
       "nginx" false
     = (false, Some "Timeout while trying to start nginx").
Proof.
  destruct (lifecycle_action_elevation Start
              (fun _ => ServiceManager.TimeoutExpired) "nginx")
    as (_ & _ & Hcmd & _ & _ & Htimeout & _).
  split.
  - apply Hcmd; [reflexivity | discriminate].
  - apply Htimeout. reflexivity.
Defined.

End ConcreteCases.

(* ===================================================================== *)
(** ** The registry: lookups after mutations *)
(* ===================================================================== *)

Section RegistryLookups.
Import ConfigManager.

Lemma find_has_key_None (l : list ServiceConfig.t) (n ty : string) :
  find (has_key n ty) l = None <-> existsb (has_key n ty) l = false.
Proof.
  induction l as [|x l IH]; simpl; [done |].
  destruct (has_key n ty x); simpl; [done | exact IH].
Qed.

Lemma find_filter_removed (l : list ServiceConfig.t) (n ty : string) :
  find (has_key n ty) (List.filter (fun s => negb (has_key n ty s)) l) = None.
Proof.
  induction l as [|x l IH]; simpl; [done |].
  destruct (has_key n ty x) eqn:E; simpl; [done | by rewrite E].
Qed.

Lemma has_key_other (s : ServiceConfig.t) (n ty n' ty' : string) :
  (n', ty') <> (n, ty) -> has_key n ty s = true -> has_key n' ty' s = false.
Proof.
  intros Hne H. apply has_key_iff in H. apply has_key_false_iff. congruence.
Qed.

Lemma find_filter_other (l : list ServiceConfig.t) (n ty n' ty' : string) :
  (n', ty') <> (n, ty) ->
  find (has_key n' ty') (List.filter (fun s => negb (has_key n ty s)) l)
  = find (has_key n' ty') l.
Proof.
  intros Hne. induction l as [|x l IH]; simpl; [done |].
  destruct (has_key n ty x) eqn:E; simpl.
  - by rewrite (has_key_other x n ty n' ty' Hne E).
  - by rewrite IH.
Qed.

Lemma filter_length_lt (l : list ServiceConfig.t) (n ty : string) :
  (length (List.filter (fun s => negb (has_key n ty s)) l) <? length l)%nat
  = existsb (has_key n ty) l.
Proof.
  induction l as [|x l IH]; simpl; [done |].
  pose proof (List.filter_length_le (fun s => negb (has_key n ty s)) l) as Hle.
  destruct (has_key n ty x); simpl.
  - apply Nat.ltb_lt. lia.
  - rewrite <- IH. destruct (_ <? length l)%nat eqn:E.
    + apply Nat.ltb_lt in E. apply Nat.ltb_lt. lia.
    + apply Nat.ltb_ge in E. apply Nat.ltb_ge. lia.
Qed.

(** X1: [remove_service] returns [False] exactly when no record has the
    key, and then changes neither the registry nor the files. After it no
    record with the key is found, the lookup of every other key and the
    settings are as before. *)
Theorem remove_service_lookup (self : t) (fs : files) (n ty : string) :
  ((remove_service self fs n ty).1.1 = false <-> get_service self n ty = None)
  /\ ((remove_service self fs n ty).1.1 = false ->
      (remove_service self fs n ty).1.2 = self
      /\ (remove_service self fs n ty).2 = fs)
  /\ get_service (remove_service self fs n ty).1.2 n ty = None
  /\ (forall n' ty',
        (n', ty') <> (n, ty) ->
        get_service (remove_service self fs n ty).1.2 n' ty'
        = get_service self n' ty')
  /\ settings (remove_service self fs n ty).1.2 = settings self.
Proof.
  unfold remove_service, get_service. cbn [services].
  rewrite filter_length_lt, find_has_key_None.
  destruct (existsb (has_key n ty) (services self)) eqn:E; cbn [fst snd services settings].
  - split; [done |]. split; [done |]. split; [apply find_filter_removed |].
    split; [| done]. intros n' ty' Hne. by apply find_filter_other.
  - split; [done |].
    assert (List.filter (fun s => negb (has_key n ty s)) (services self)
            = services self) as Hsame.
    { apply filter_length_same. by rewrite filter_length_lt. }
    rewrite Hsame. split; [by destruct self |].
    split; [by apply find_has_key_None |]. done.
Qed.

Lemma find_app_has_key (l : list ServiceConfig.t) (s : ServiceConfig.t)
    (n ty : string) :
  find (has_key n ty) (l ++ [s])
  = match find (has_key n ty) l with
    | Some x => Some x
    | None => if has_key n ty s then Some s else None
    end.
Proof.
  induction l as [|x l IH]; simpl; [done |].
  by destruct (has_key n ty x).
Qed.

Lemma has_key_self (s : ServiceConfig.t) :
  has_key (ServiceConfig.name s) (ServiceConfig.service_type s) s = true.
Proof. by apply has_key_iff. Qed.

(** X2: [add_service] returns [True] exactly when no record has the key
    of the new record. It then appends the record, which [get_service] finds
    under its key. In both cases the lookup of every other key and the
    settings are as before. *)
Theorem add_service_lookup (self : t) (fs : files) (s : ServiceConfig.t) :
  ((add_service self fs s).1.1 = true
   <-> get_service self (ServiceConfig.name s) (ServiceConfig.service_type s)
       = None)
  /\ ((add_service self fs s).1.1 = true ->
      services (add_service self fs s).1.2 = services self ++ [s]
      /\ get_service (add_service self fs s).1.2 (ServiceConfig.name s)
           (ServiceConfig.service_type s) = Some s)
  /\ (forall n' ty',
        (n', ty') <> ServiceConfig.key s ->
        get_service (add_service self fs s).1.2 n' ty'
        = get_service self n' ty')
  /\ settings (add_service self fs s).1.2 = settings self.
Proof.
  unfold add_service, get_service. rewrite find_has_key_None.
  destruct (existsb _ (services self)) eqn:E; cbn [fst snd services settings].
  - split; [done |]. split; [done |]. done.
  - split; [done |]. split.
    + intros _. split; [done |]. rewrite find_app_has_key.
      apply find_has_key_None in E. by rewrite E, has_key_self.
    + split; [| done]. intros n' ty' Hne. rewrite find_app_has_key.
      destruct (find _ _); [done |].
      assert (has_key n' ty' s = false) as ->; [| done].
      apply has_key_false_iff. unfold ServiceConfig.key in *. congruence.
Qed.


Lemma find_list_find (l : list ServiceConfig.t) (n ty : string) :
  find (has_key n ty) l
  = snd <$> list_find (fun s => has_key n ty s = true) l.
Proof.
  induction l as [|x l IH]; [done |]. cbn [find list_find].
  destruct (decide (has_key n ty x = true)) as [E | E].
  - by rewrite E.
  - apply not_true_is_false in E. rewrite E, IH.
    by destruct (list_find _ l) as [[j y]|].
Qed.

Lemma find_insert_same_key (l : list ServiceConfig.t) (n ty : string)
    (u : ServiceConfig.t) (i : nat) (x : ServiceConfig.t) :
  has_key n ty u = true ->
  list_find (fun s => has_key n ty s = true) l = Some (i, x) ->
  find (has_key n ty) (<[i:=u]> l) = Some u.
Proof.
  intros Hu. revert i. induction l as [|y l IH]; intros i; [done |].
  cbn [list_find]. destruct (decide (has_key n ty y = true)) as [Hy | Hy].
  - intros [= <- <-]. simpl. by rewrite Hu.
  - destruct (list_find _ l) as [[j z]|]; [| done].
    intros [= <- <-]. simpl. apply not_true_is_false in Hy. rewrite Hy.
    by apply IH.
Qed.

Lemma find_insert_other_key (l : list ServiceConfig.t) (n ty n' ty' : string)
    (u : ServiceConfig.t) (i : nat) (x : ServiceConfig.t) :
  has_key n ty u = true ->
  (n', ty') <> (n, ty) ->
  list_find (fun s => has_key n ty s = true) l = Some (i, x) ->
  find (has_key n' ty') (<[i:=u]> l) = find (has_key n' ty') l.
Proof.
  intros Hu Hne. revert i. induction l as [|y l IH]; intros i; [done |].
  cbn [list_find]. destruct (decide (has_key n ty y = true)) as [Hy | Hy].
  - intros [= <- <-]. simpl.
    by rewrite (has_key_other u n ty n' ty' Hne Hu),
      (has_key_other y n ty n' ty' Hne Hy).
  - destruct (list_find _ l) as [[j z]|]; [| done].
    intros [= <- <-]. simpl. destruct (has_key n' ty' y); [done |].
    by apply IH.
Qed.

(** X3: [update_service] returns [False] exactly when no record has the
    old key, and then changes nothing. It never changes the number of records
    or the settings. When the updated record keeps the old key,
    [get_service] finds it under that key afterwards and the lookup of every
    other key is as before. *)
Theorem update_service_lookup (self : t) (fs : files) (n ty : string)
    (u : ServiceConfig.t) :
  ((update_service self fs n ty u).1.1 = false <-> get_service self n ty = None)
  /\ ((update_service self fs n ty u).1.1 = false ->
      (update_service self fs n ty u).1.2 = self
      /\ (update_service self fs n ty u).2 = fs)
  /\ length (services (update_service self fs n ty u).1.2)
     = length (services self)
  /\ settings (update_service self fs n ty u).1.2 = settings self
  /\ (ServiceConfig.key u = (n, ty) ->
      ((update_service self fs n ty u).1.1 = true ->
       get_service (update_service self fs n ty u).1.2 n ty = Some u)
      /\ (forall n' ty',
            (n', ty') <> (n, ty) ->
            get_service (update_service self fs n ty u).1.2 n' ty'
            = get_service self n' ty')).
Proof.
  unfold update_service, get_service. rewrite find_list_find.
  destruct (list_find _ (services self)) as [[i x]|] eqn:E;
    cbn [fst snd services settings fmap option_fmap option_map].
  - split; [done |]. split; [done |]. split; [apply length_insert |].
    split; [done |]. intros Hk%has_key_iff. split.
    + intros _. by eapply find_insert_same_key.
    + intros n' ty' Hne. by eapply find_insert_other_key.
  - split; [done |]. split; [done |]. split; [done |]. split; [done |].
    intros _. split; [done |]. done.
Qed.

Lemma update_service_lookup_witness :
  get_service
    (update_service (mk [nginx] default_settings) (mk_files None None true)
       "nginx" "system"
       (ServiceConfig.mk "nginx" "Proxy" "web" None None "system" false true)).1.2
    "nginx" "system"
  = Some (ServiceConfig.mk "nginx" "Proxy" "web" None None "system" false true).
Proof.
  destruct (update_service_lookup (mk [nginx] default_settings)
              (mk_files None None true) "nginx" "system"
              (ServiceConfig.mk "nginx" "Proxy" "web" None None "system"
                 false true)) as (_ & _ & _ & _ & H).
  destruct (H eq_refl) as [Hsame _]. apply Hsame. reflexivity.
Defined.

(** X4: after [set_setting] the key reads back the value set, every other
    key reads as before and the services are untouched. When the records are
    valid and the file can be written, a [load_config] of what was saved
    reads the value back too. *)
Theorem set_setting_round_trip (self : t) (fs : files) (k : string)
    (v default : pyval) :
  get_setting (set_setting self fs k v).1 k default = v
  /\ (forall k', k' <> k ->
        get_setting (set_setting self fs k v).1 k' default
        = get_setting self k' default)
  /\ services (set_setting self fs k v).1 = services self
  /\ (Forall ServiceConfig.valid (services self) -> can_save fs ->
      forall self0,
        exists reloaded_manager,
          load_config self0 (set_setting self fs k v).2
          = Some (true, reloaded_manager)
          /\ get_setting reloaded_manager k default = v).
Proof.
  unfold set_setting, get_setting. cbn [fst snd settings services].
  split; [by rewrite lookup_insert_eq |].
  split; [by intros k' Hne; rewrite lookup_insert_ne |].
  split; [done |].
  intros Hv Hs self0. eexists. split.
  - apply (load_config_document self0
             (mk (services self) (<[k:=v]> (settings self)))); [exact Hv |].
    by apply save_config_can_save.
  - unfold reloaded. cbn [settings].
    by rewrite lookup_union, lookup_insert_eq, union_Some_l.
Qed.

Lemma set_setting_round_trip_witness :
  exists reloaded_manager,
    load_config init
      (set_setting (mk [nginx] default_settings) (mk_files None None true)
         "update_interval" (PInt 10)).2
    = Some (true, reloaded_manager)
    /\ get_setting reloaded_manager "update_interval" (PInt 5) = PInt 10.
Proof.
  destruct (set_setting_round_trip (mk [nginx] default_settings)
              (mk_files None None true) "update_interval" (PInt 10) (PInt 5))
    as (_ & _ & _ & H).
  apply H.
  - constructor; [| constructor].
    unfold ServiceConfig.valid. simpl. repeat split; try discriminate. by right.
  - split; [reflexivity | discriminate].
Defined.

End RegistryLookups.

(* ===================================================================== *)
(** ** The registry: defaults, loading and the backup *)
(* ===================================================================== *)

Section RegistryLoading.
Import ConfigManager.

Lemma default_settings_subseteq_union (st : gmap string pyval) :
  dom default_settings ⊆ dom (st ∪ default_settings).
Proof. rewrite dom_union. apply union_subseteq_r. Qed.

(** X5: [_ensure_default_settings] keeps every setting that is present
    and gives each missing default key its default value, so afterwards
    every default key is set. It leaves the services alone, and a second
    call changes nothing. *)
Theorem ensure_default_settings_fills (self : t) :
  (forall k default,
     get_setting (_ensure_default_settings self) k default
     = match settings self !! k with
       | Some v => v
       | None =>
           match default_settings !! k with
           | Some v => v
           | None => default
           end
       end)
  /\ dom default_settings ⊆ dom (settings (_ensure_default_settings self))
  /\ services (_ensure_default_settings self) = services self
  /\ _ensure_default_settings (_ensure_default_settings self)
     = _ensure_default_settings self.
Proof.
  rewrite !ensure_default_settings_union. cbn [settings services].
  split; [| split; [apply default_settings_subseteq_union | split; [done |]]].
  - intros k default. unfold get_setting. cbn [settings].
    rewrite lookup_union.
    by destruct (settings self !! k), (default_settings !! k).
  - f_equal. apply union_default_settings, default_settings_subseteq_union.
Qed.

Lemma load_services_accepted (entries : list pyval) (acc loaded : list ServiceConfig.t) :
  load_services entries acc = Some loaded ->
  loaded = acc ++ accepted_entries entries.
Proof.
  revert acc. induction entries as [|e entries IH]; intros acc;
    cbn [load_services accepted_entries flat_map].
  - intros [= <-]. by rewrite app_nil_r.
  - destruct (ServiceConfig.from_dict e) as [s | x |]; [| | done].
    + intros H%IH. by rewrite H, <- app_assoc.
    + intros H%IH. by rewrite H.
Qed.

Lemma load_services_typed (entries : list pyval) (acc : list ServiceConfig.t) :
  Forall (fun e => ServiceConfig.from_dict e <> Untyped) entries ->
  load_services entries acc = Some (acc ++ accepted_entries entries).
Proof.
  intros H. revert acc. induction H as [|e entries He _ IH]; intros acc;
    cbn [load_services accepted_entries flat_map].
  - by rewrite app_nil_r.
  - destruct (ServiceConfig.from_dict e) as [s | x |]; [| | done].
    + by rewrite IH, <- app_assoc.
    + by rewrite IH.
Qed.

Lemma from_dict_Returns_valid (data : pyval) (s : ServiceConfig.t) :
  ServiceConfig.from_dict data = Returns s -> ServiceConfig.valid s.
Proof.
  unfold ServiceConfig.from_dict.
  destruct data as [| | | | |d]; try discriminate.
  destruct (dict_get d "name") as [[| | |n| |]|]; try discriminate.
  apply new_Returns_valid.
Qed.

Lemma accepted_entries_valid (entries : list pyval) :
  Forall ServiceConfig.valid (accepted_entries entries).
Proof.
  induction entries as [|e entries IH]; cbn [accepted_entries flat_map];
    [constructor |].
  destruct (ServiceConfig.from_dict e) as [s | x |] eqn:E; try done.
  constructor; [| done].
  by apply (from_dict_Returns_valid e).
Qed.


Lemma validate_config_true (d : list (string * pyval)) :
  _validate_config (PDict d) = true
  <-> (forall v, dict_get d "services" = Some v -> is_list v = true)
      /\ (forall v, dict_get d "settings" = Some v -> is_dict v = true).
Proof.
  unfold _validate_config, dict_contains, dict_get_default.
  destruct (dict_get d "services") as [v1|], (dict_get d "settings") as [v2|];
    cbn [andb negb].
  - destruct (is_list v1) eqn:E1, (is_dict v2) eqn:E2; cbn [negb];
      split; try done; try (intros [H1 H2]);
      try (specialize (H1 _ eq_refl)); try (specialize (H2 _ eq_refl));
      try congruence; intros _; split; intros v [= <-]; done.
  - destruct (is_list v1) eqn:E1; cbn [negb]; split; try done.
    + intros _. split; [by intros v [= <-] | done].
    + intros [H1 _]. specialize (H1 _ eq_refl). congruence.
  - destruct (is_dict v2) eqn:E2; cbn [negb]; split; try done.
    + intros _. split; [done | by intros v [= <-]].
    + intros [_ H2]. specialize (H2 _ eq_refl). congruence.
  - split; [| done]. intros _. split; done.
Qed.

Lemma load_config_Some (self : t) (fs : files) (b : bool) (loaded : t) :
  load_config self fs = Some (b, loaded) ->
  Forall ServiceConfig.valid (services loaded)
  /\ dom default_settings ⊆ dom (settings loaded)
  /\ (b = true <-> loadable fs)
  /\ (b = false -> loaded = mk [] default_settings).
Proof.
  assert (forall (P : Prop), ~ loadable fs ->
            Some (false, _load_defaults self) = Some (b, loaded) ->
            Forall ServiceConfig.valid (services loaded)
            /\ dom default_settings ⊆ dom (settings loaded)
            /\ (b = true <-> loadable fs)
            /\ (b = false -> loaded = mk [] default_settings)) as Hdefaults.
  { intros _ Hnot. rewrite load_defaults_eq. intros [= <- <-].
    split; [constructor |]. split; [done |]. split; [| done].
    split; [done | by intros H%Hnot]. }
  unfold load_config.
  destruct (config_yaml fs) as [[| | data]|] eqn:Hf;
    try (apply (Hdefaults True); intros (d & Hd & _); congruence).
  destruct (truthy data) eqn:Ht; cbn [negb].
  2:{ apply (Hdefaults True). intros (d & Hd & Hne & _).
      assert (data = PDict d) as -> by congruence. by destruct d. }
  destruct (_validate_config data) eqn:Hval; cbn [negb].
  2:{ apply (Hdefaults True). intros (d & Hd & _ & Hok).
      assert (data = PDict d) as -> by congruence.
      apply validate_config_true in Hok. congruence. }
  destruct data as [| | | | |d]; try discriminate.
  pose proof (proj1 (validate_config_true d) Hval) as [Hsv Hst].
  assert (loadable fs) as Hload.
  { exists d. split; [done |]. split; [by destruct d | done]. }
  unfold dict_get_default.
  destruct (dict_get d "services") as [v1|] eqn:E1.
  - specialize (Hsv _ eq_refl). destruct v1 as [| | | |entries|]; try discriminate.
    destruct (dict_get d "settings") as [v2|] eqn:E2.
    + specialize (Hst _ eq_refl). destruct v2 as [| | | | |st]; try discriminate.
      destruct (load_services entries []) as [l|] eqn:El; [| done].
      rewrite ensure_default_settings_union. intros [= <- <-].
      apply load_services_accepted in El. subst l. cbn [services settings].
      split; [apply accepted_entries_valid |].
      split; [apply default_settings_subseteq_union |]. done.
    + destruct (load_services entries []) as [l|] eqn:El; [| done].
      rewrite ensure_default_settings_union. intros [= <- <-].
      apply load_services_accepted in El. subst l. cbn [services settings].
      split; [apply accepted_entries_valid |].
      split; [apply default_settings_subseteq_union |]. done.
  - cbn [load_services].
    destruct (dict_get d "settings") as [v2|] eqn:E2.
    + specialize (Hst _ eq_refl). destruct v2 as [| | | | |st]; try discriminate.
      rewrite ensure_default_settings_union. intros [= <- <-].
      split; [constructor |].
      split; [apply default_settings_subseteq_union |]. done.
    + rewrite ensure_default_settings_union. intros [= <- <-].
      split; [constructor |].
      split; [apply default_settings_subseteq_union |]. done.
Qed.


Lemma typed_entries_from_dict (entries : list pyval) :
  (forall entry, PDict entry ∈ entries -> declared_types entry) ->
  Forall (fun e => ServiceConfig.from_dict e <> Untyped) entries.
Proof.
  intros H. apply Forall_forall. intros e He.
  destruct e as [| | | | |entry]; try done.
  apply declared_types_from_dict. by apply H.
Qed.

(** On a config.yaml whose service entries have the declared types,
    [load_config] gives a result. *)
Lemma load_config_typed (self : t) (fs : files) :
  typed_entries fs -> exists b loaded, load_config self fs = Some (b, loaded).
Proof.
  intros Htyped. unfold load_config.
  destruct (config_yaml fs) as [[| | data]|] eqn:Hf; try by eexists _, _.
  destruct (negb (truthy data)); [by eexists _, _ |].
  destruct (negb (_validate_config data)); [by eexists _, _ |].
  destruct data as [| | | | |d]; try by eexists _, _.
  unfold dict_get_default at 1.
  destruct (dict_get d "services") as [v|] eqn:Hv.
  - destruct v as [| | | |entries|]; try by eexists _, _.
    destruct (dict_get_default d "settings" (PDict [])); try by eexists _, _.
    rewrite load_services_typed; [by eexists _, _ |].
    apply typed_entries_from_dict. intros entry Hin.
    by apply (Htyped d entries entry).
  - destruct (dict_get_default d "settings" (PDict [])); by eexists _, _.
Qed.

(** X6: on a config.yaml whose service entries give their fields with the
    declared types, and on a config.yaml that is missing or does not load,
    [load_config] returns, the records it then holds are valid and every
    default setting is present. It returns [True] exactly for a config.yaml
    that holds a mapping that is not empty, with a list under "services"
    and a mapping under "settings" where these are present. When it returns
    [False] the registry is empty with the default settings. *)
Theorem load_config_outcome (self : t) (fs : files) :
  typed_entries fs ->
  exists b loaded,
    load_config self fs = Some (b, loaded)
    /\ Forall ServiceConfig.valid (services loaded)
    /\ dom default_settings ⊆ dom (settings loaded)
    /\ (b = true <-> loadable fs)
    /\ (b = false -> loaded = mk [] default_settings).
Proof.
  intros Htyped.
  destruct (load_config_typed self fs Htyped) as (b & loaded & Hload).
  exists b, loaded. split; [done |]. by apply (load_config_Some self fs).
Qed.

Lemma example_files_typed : typed_entries example_files.
Proof.
  intros d entries entry [= <-] [= <-] Hin.
  apply elem_of_cons in Hin as [[= ->] | Hin].
  - repeat split; intros v [=].
  - apply elem_of_cons in Hin as [[=] | Hin]. by apply elem_of_nil in Hin.
Qed.

Lemma load_config_outcome_witness :
  exists loaded,
    load_config init example_files = Some (true, loaded)
    /\ Forall ServiceConfig.valid (services loaded).
Proof.
  destruct (load_config_outcome init example_files example_files_typed)
    as (b & loaded & Hload & Hvalid & _).
  exists loaded. split; [| exact Hvalid].
  rewrite Hload. injection Hload as <- _. reflexivity.
Defined.

(** X7: from a config.yaml that holds a mapping that is not empty, whose
    service entries give their fields, where they give them, with the types
    of the record, [load_config] keeps the entries that [from_dict] accepts,
    in their order, and skips the others. A setting of the file wins over
    its default, and a default fills in for a key the file leaves out. *)
Theorem load_config_content (self : t) (fs : files) (d : list (string * pyval))
    (entries : list pyval) (st : list (string * pyval)) :
  config_yaml fs = Some (Document (PDict d)) ->
  d <> [] ->
  dict_get_default d "services" (PList []) = PList entries ->
  dict_get_default d "settings" (PDict []) = PDict st ->
  Forall (fun e => ServiceConfig.from_dict e <> Untyped) entries ->
  load_config self fs
  = Some (true,
          mk (accepted_entries entries) (list_to_map st ∪ default_settings))
  /\ forall k default,
       get_setting (mk (accepted_entries entries)
                      (list_to_map st ∪ default_settings)) k default
       = match dict_get st k with
         | Some v => v
         | None =>
             match default_settings !! k with
             | Some v => v
             | None => default
             end
         end.
Proof.
  intros Hf Hd Hsv Hst Htyped. split.
  - unfold load_config. rewrite Hf.
    assert (truthy (PDict d) = true) as -> by (by destruct d).
    assert (_validate_config (PDict d) = true) as ->.
    { apply validate_config_true. unfold dict_get_default in *. split; intros v Hv.
      - rewrite Hv in Hsv. by subst v.
      - rewrite Hv in Hst. by subst v. }
    cbn [negb]. rewrite Hsv, Hst, load_services_typed by done.
    by rewrite ensure_default_settings_union.
  - intros k default. unfold get_setting. cbn [settings].
    rewrite lookup_union.
    assert ((list_to_map st : gmap string pyval) !! k = dict_get st k) as ->.
    { clear. induction st as [|[k' v] st IH]; [done |].
      cbn [list_to_map foldr dict_get]. cbn.
      destruct (String.eqb k' k) eqn:E.
      - apply String.eqb_eq in E as ->. by rewrite lookup_insert_eq.
      - apply String.eqb_neq in E. by rewrite lookup_insert_ne. }
    by destruct (dict_get st k), (default_settings !! k).
Qed.

Lemma load_config_content_witness :
  load_config init example_files
  = Some (true,
          mk [ServiceConfig.mk "nginx" "Nginx" "application-x-executable"
                None None "user" false true]
             (<["update_interval" := PInt 10]> default_settings)).
Proof.
  destruct (load_config_content init example_files
              [ ("version", PStr "1.0");
                ("services",
                 PList [PDict [("name", PStr "nginx")]; PStr "docker"]);
                ("settings", PDict [("update_interval", PInt 10)]) ]
              [PDict [("name", PStr "nginx")]; PStr "docker"]
              [("update_interval", PInt 10)]) as [H _].
  - reflexivity.
  - discriminate.
  - reflexivity.
  - reflexivity.
  - repeat constructor; discriminate.
  - rewrite H. reflexivity.
Defined.



End RegistryLoading.

(* ===================================================================== *)
(** ** ServiceConfig: what from_dict raises and what it fills in *)
(* ===================================================================== *)

Section FromDictEdges.
Import ServiceConfig.

Lemma new_str_Raises n vd vi vl vk vty va ve (x : exn) :
  new (PStr n) vd vi vl vk vty va ve = Raises x -> x = ValueError.
Proof.
  unfold new. destruct (negb (truthy (PStr n))); [by intros [= <-] |].
  destruct (negb (in_user_system vty)); [by intros [= <-] |].
  destruct (negb (truthy vd)); by intros H%typed_not_Raises.
Qed.

(** X9: the exceptions of [from_dict]. It raises TypeError exactly for
    data that is not a mapping, KeyError exactly for a mapping without
    "name", and AttributeError exactly for a mapping whose "name" is not a
    string. *)
Theorem from_dict_raises (data : pyval) :
  (from_dict data = Raises TypeError <-> is_dict data = false)
  /\ (from_dict data = Raises KeyError
      <-> exists d, data = PDict d /\ dict_get d "name" = None)
  /\ (from_dict data = Raises AttributeError
      <-> exists d v,
            data = PDict d /\ dict_get d "name" = Some v /\ as_str v = None).
Proof.
  unfold from_dict.
  destruct data as [| | | | |d];
    try (split; [done |]; split; split; try done;
         [intros (d & [=] & _) | intros (d & v & [=] & _)]).
  destruct (dict_get d "name") as [v|] eqn:E.
  - destruct v as [| | |n| |];
      try (split; [done |]; split;
           [split; [done | by intros (d' & [= <-] & H); rewrite E in H]
           | split; [intros _; by eexists _, _ | done]]).
    split; [split; [by intros [=]%new_str_Raises | done] |].
    split; split.
    + by intros [=]%new_str_Raises.
    + intros (d' & [= <-] & H). by rewrite E in H.
    + by intros [=]%new_str_Raises.
    + intros (d' & v & [= <-] & H & Hv). rewrite E in H.
      by injection H as <-.
  - split; [done |]. split; [split; [by eexists | done] |].
    split; [done |]. intros (d' & v & [= <-] & H & _). by rewrite E in H.
Qed.

(** X10: from a mapping that gives only a name that is not empty,
    [from_dict] makes the record with the defaults: the display name is the
    name capitalized, the icon is "application-x-executable", no themed
    icons, the type is "user", not started automatically, enabled. *)
Theorem from_dict_fills_defaults (d : list (string * pyval)) (n : string) :
  dict_get d "name" = Some (PStr n) ->
  n <> "" ->
  (forall k, k <> "name" -> dict_get d k = None) ->
  from_dict (PDict d)
  = Returns (mk n (capitalize n) "application-x-executable" None None "user"
               false true).
Proof.
  intros Hn Hne Hnone. unfold from_dict, dict_get_default.
  rewrite Hn, !Hnone by discriminate.
  unfold new. apply truthy_str in Hne as Hne'. rewrite Hne'.
  assert (truthy (PStr (capitalize n)) = true) as ->.
  { apply truthy_str. by apply capitalize_nonempty. }
  done.
Qed.

Lemma from_dict_fills_defaults_witness :
  from_dict (PDict [("name", PStr "docker")])
  = Returns (mk "docker" "Docker" "application-x-executable" None None "user"
               false true).
Proof.
  apply (from_dict_fills_defaults [("name", PStr "docker")] "docker").
  - reflexivity.
  - discriminate.
  - intros k Hk. cbn [dict_get].
    destruct (String.eqb "name" k) eqn:E; [| reflexivity].
    apply String.eqb_eq in E. congruence.
Defined.

End FromDictEdges.

(* ===================================================================== *)
(** ** ServiceManager: reading the status line *)
(* ===================================================================== *)

Section StatusLine.
Import ServiceManager.

Lemma rstrip_all_space (s : string) : all_space s = true -> rstrip s = "".
Proof.
  induction s as [|c r IH]; [done |]. simpl.
  intros [Hc Hr]%andb_true_iff. by rewrite IH, Hc.
Qed.

Lemma rstrip_app_space (a b : string) :
  all_space b = true -> rstrip (a +:+ b) = rstrip a.
Proof.
  intros Hb. induction a as [|c a IH]; simpl.
  - by rewrite rstrip_all_space.
  - by rewrite IH.
Qed.

Lemma rstrip_no_space (s : string) : no_space s = true -> rstrip s = s.
Proof.
  induction s as [|c r IH]; [done |]. simpl.
  intros [Hc Hr]%andb_true_iff. rewrite IH by done.
  apply negb_true_iff in Hc. rewrite Hc. by destruct r.
Qed.

Lemma rstrip_app_nonempty (a s : string) :
  rstrip s <> "" -> rstrip (a +:+ s) = a +:+ rstrip s.
Proof.
  intros Hs. induction a as [|c a IH]; simpl; [done |].
  rewrite IH. change (String c a +:+ rstrip s) with (String c (a +:+ rstrip s)).
  destruct (a +:+ rstrip s) eqn:E; [| done].
  destruct a; simpl in E; [by destruct Hs | discriminate].
Qed.

Lemma lstrip_app_space (a s : string) :
  all_space a = true -> lstrip (a +:+ s) = lstrip s.
Proof.
  induction a as [|c a IH]; [done |]. simpl.
  intros [Hc Ha]%andb_true_iff. rewrite Hc. by apply IH.
Qed.

Lemma lstrip_no_space (s : string) : no_space s = true -> lstrip s = s.
Proof.
  destruct s as [|c r]; [done |]. simpl.
  intros [Hc _]%andb_true_iff. apply negb_true_iff in Hc. by rewrite Hc.
Qed.

Lemma strip_surrounded (pre s post : string) :
  all_space pre = true -> all_space post = true ->
  no_space s = true -> s <> "" ->
  strip (pre +:+ s +:+ post) = s.
Proof.
  intros Hpre Hpost Hs Hne. unfold strip.
  assert (rstrip (s +:+ post) = s) as Hr.
  { by rewrite rstrip_app_space, rstrip_no_space. }
  rewrite rstrip_app_nonempty by (by rewrite Hr).
  by rewrite Hr, lstrip_app_space, lstrip_no_space.
Qed.

Lemma is_space_char_lower (c : ascii) : is_space (char_lower c) = is_space c.
Proof.
  unfold char_lower. destruct (is_upper c) eqn:E; [| done].
  revert E. unfold is_upper, is_space.
  destruct c as [[] [] [] [] [] [] [] []]; vm_compute; congruence.
Qed.

Lemma no_space_lower (s : string) : no_space (lower s) = no_space s.
Proof.
  induction s as [|c r IH]; [done |]. simpl.
  by rewrite is_space_char_lower, IH.
Qed.

Lemma lower_value_no_space (s : string) (m : ServiceStatus.t) :
  lower s = ServiceStatus.value m -> no_space s = true /\ s <> "".
Proof.
  intros H. split.
  - rewrite <- no_space_lower, H. by destruct m.
  - intros ->. by destruct m.
Qed.

(** X11: [get_service_status] reads the line that systemctl prints
    without its surrounding white space and without regard to case: when the
    line lower-cased is the value of a status, that status is returned. When
    the command does not complete (it times out, exits with an error, or
    fails otherwise) the status is UNKNOWN. *)
Theorem get_service_status_reads_line
    (run : list string -> run_result) (service_name : string)
    (is_user_service : bool) :
  (forall pre s post m,
     all_space pre = true -> all_space post = true ->
     lower s = ServiceStatus.value m ->
     run (status_cmd service_name is_user_service)
     = Completed (pre +:+ s +:+ post) ->
     get_service_status run service_name is_user_service = m)
  /\ ((forall stdout,
         run (status_cmd service_name is_user_service) <> Completed stdout) ->
      get_service_status run service_name is_user_service
      = ServiceStatus.UNKNOWN).
Proof.
  assert ((["systemctl"] ++ (if is_user_service then ["--user"] else [])
           ++ ["show"; service_name; "--property=ActiveState"; "--value"])
          = status_cmd service_name is_user_service) as Hcmd.
  { unfold status_cmd. by destruct is_user_service. }
  unfold get_service_status. cbv zeta. rewrite Hcmd. split.
  - intros pre s post m Hpre Hpost Hs ->.
    destruct (lower_value_no_space s m Hs) as [Hno Hne].
    rewrite strip_surrounded by done.
    unfold ServiceStatus.from_string. by rewrite Hs, of_value_value.
  - intros Hrun.
    destruct (run (status_cmd _ _)) as [stdout| | |] eqn:E; try done.
    by destruct (Hrun stdout).
Qed.

Lemma get_service_status_reads_line_witness :
  get_service_status
    (fun _ => Completed (" " +:+ "Active" +:+ String "010"%char ""))
    "nginx" false
  = ServiceStatus.ACTIVE.
Proof.
  destruct (get_service_status_reads_line
              (fun _ => Completed (" " +:+ "Active" +:+ String "010"%char ""))
              "nginx" false) as [H _].
  apply (H " " "Active" (String "010"%char "") ServiceStatus.ACTIVE);
    reflexivity.
Defined.

End StatusLine.

(* ===================================================================== *)
(** ** PolkitHelper: toggling the passwordless mode *)
(* ===================================================================== *)

Section PasswordlessToggle.
Import PolkitHelper.

(** X12: [enable_passwordless_mode] succeeds exactly when the pkexec
    copy of the rule file exits with 0. It then sets "passwordless_mode", so
    that the query answers [True] and actions on system services run without
    pkexec; the services are untouched. When it fails, the configuration and
    the files are as before. *)
Theorem enable_passwordless_mode_outcome
    (run : list string -> run_outcome) (username : string)
    (cm : ConfigManager.t) (fs : ConfigManager.files) :
  ((enable_passwordless_mode run username (Some cm) fs).1.1.1 = true
   <-> exists stderr, run copy_rule_cmd = Exited 0 stderr)
  /\ ((enable_passwordless_mode run username (Some cm) fs).1.1.1 = true ->
      exists cm',
        (enable_passwordless_mode run username (Some cm) fs).1.2 = Some cm'
        /\ ConfigManager.services cm' = ConfigManager.services cm
        /\ (forall rule,
              is_passwordless_enabled (Some cm') rule = PBool true)
        /\ (forall rule action service_name,
              ServiceManager.action_cmd (Some cm') rule action service_name false
              = ["systemctl"; action; service_name]))
  /\ ((enable_passwordless_mode run username (Some cm) fs).1.1.1 = false ->
      (enable_passwordless_mode run username (Some cm) fs).1.2 = Some cm
      /\ (enable_passwordless_mode run username (Some cm) fs).2 = fs).
Proof.
  unfold enable_passwordless_mode.
  destruct (run copy_rule_cmd) as [returncode stderr | | message];
    [| by repeat split; try done; intros [? [=]]..].
  destruct (returncode =? 0)%Z eqn:E; cbn [fst snd].
  - apply Z.eqb_eq in E as ->.
    split; [split; [by eexists | done] |]. split; [| done].
    intros _. eexists. split; [done |]. split; [done |].
    assert (forall rule,
              is_passwordless_enabled
                (Some (ConfigManager.set_setting cm fs "passwordless_mode"
                         (PBool true)).1) rule = PBool true) as Hon.
    { intros rule. unfold is_passwordless_enabled, ConfigManager.get_setting.
      simpl. by rewrite lookup_insert_eq. }
    split; [exact Hon |]. intros rule action service_name.
    unfold ServiceManager.action_cmd, ServiceManager.requires_privilege.
    by rewrite Hon.
  - apply Z.eqb_neq in E.
    split; [split; [done | by intros [? [= ->]]] |]. split; done.
Qed.

Lemma enable_passwordless_mode_outcome_witness :
  exists cm',
    (enable_passwordless_mode (fun _ => Exited 0 "") "alice"
       (Some (ConfigManager.mk [nginx] default_settings))
       (ConfigManager.mk_files None None true)).1.2 = Some cm'
    /\ ServiceManager.action_cmd (Some cm') Absent "start" "nginx" false
       = ["systemctl"; "start"; "nginx"].
Proof.
  destruct (enable_passwordless_mode_outcome (fun _ => Exited 0 "") "alice"
              (ConfigManager.mk [nginx] default_settings)
              (ConfigManager.mk_files None None true)) as (_ & H & _).
  destruct (H eq_refl) as (cm' & Hcm & _ & _ & Hcmd).
  exists cm'. split; [exact Hcm | apply Hcmd].
Defined.

(** X13: [disable_passwordless_mode] succeeds exactly when the pkexec
    removal of the rule file exits with 0. It then clears
    "passwordless_mode", so that the query answers [False] and actions on
    system services run through pkexec again. When it fails, the
    configuration and the files are as before, and for an exit code other
    than 0 the message carries the standard error of the command, or
    "Failed to remove polkit rule" when that is empty. *)
Theorem disable_passwordless_mode_outcome
    (run : list string -> run_outcome)
    (cm : ConfigManager.t) (fs : ConfigManager.files) :
  ((disable_passwordless_mode run (Some cm) fs).1.1.1 = true
   <-> exists stderr, run remove_rule_cmd = Exited 0 stderr)
  /\ ((disable_passwordless_mode run (Some cm) fs).1.1.1 = true ->
      exists cm',
        (disable_passwordless_mode run (Some cm) fs).1.2 = Some cm'
        /\ ConfigManager.services cm' = ConfigManager.services cm
        /\ (forall rule,
              is_passwordless_enabled (Some cm') rule = PBool false)
        /\ (forall rule action service_name,
              ServiceManager.action_cmd (Some cm') rule action service_name false
              = ["pkexec"; "systemctl"; action; service_name]))
  /\ ((disable_passwordless_mode run (Some cm) fs).1.1.1 = false ->
      (disable_passwordless_mode run (Some cm) fs).1.2 = Some cm
      /\ (disable_passwordless_mode run (Some cm) fs).2 = fs)
  /\ (forall returncode stderr,
        run remove_rule_cmd = Exited returncode stderr ->
        returncode <> 0%Z ->
        (disable_passwordless_mode run (Some cm) fs).1.1.2
        = "Failed to disable passwordless mode: "
          +:+ (if String.eqb stderr "" then "Failed to remove polkit rule"
               else stderr)).
Proof.
  unfold disable_passwordless_mode.
  destruct (run remove_rule_cmd) as [returncode stderr | | message];
    [| by repeat split; try done; intros [? [=]]..].
  destruct (returncode =? 0)%Z eqn:E; cbn [fst snd].
  - apply Z.eqb_eq in E as ->.
    split; [split; [by eexists | done] |].
    split; [| split; [done | by intros ? ? [= <- _] ?]].
    intros _. eexists. split; [done |]. split; [done |].
    assert (forall rule,
              is_passwordless_enabled
                (Some (ConfigManager.set_setting cm fs "passwordless_mode"
                         (PBool false)).1) rule = PBool false) as Hoff.
    { intros rule. unfold is_passwordless_enabled, ConfigManager.get_setting.
      simpl. by rewrite lookup_insert_eq. }
    split; [exact Hoff |]. intros rule action service_name.
    unfold ServiceManager.action_cmd, ServiceManager.requires_privilege.
    by rewrite Hoff.
  - apply Z.eqb_neq in E.
    split; [split; [done | by intros [? [= ->]]] |].
    split; [done |]. split; [done |].
    by intros ? stderr' [= _ ->] _.
Qed.

Lemma disable_passwordless_mode_outcome_witness :
  (disable_passwordless_mode (fun _ => Exited 1 "")
     (Some (ConfigManager.mk [nginx] default_settings))
     (ConfigManager.mk_files None None true)).1.1.2
  = "Failed to disable passwordless mode: Failed to remove polkit rule".
Proof.
  destruct (disable_passwordless_mode_outcome (fun _ => Exited 1 "")
              (ConfigManager.mk [nginx] default_settings)
              (ConfigManager.mk_files None None true)) as (_ & _ & _ & H).
  apply (H 1%Z ""); [reflexivity | discriminate].
Defined.

(** X14: [get_current_username] never returns the empty string. It is
    USER when that is set and not empty, else USERNAME when that is set and
    not empty, else "unknown". *)
Theorem get_current_username_not_empty (USER USERNAME : option string) :
  get_current_username USER USERNAME <> ""
  /\ (forall u, USER = Some u -> u <> "" ->
        get_current_username USER USERNAME = u)
  /\ (USER = None \/ USER = Some "" ->
      forall u, USERNAME = Some u -> u <> "" ->
        get_current_username USER USERNAME = u)
  /\ (USER = None \/ USER = Some "" ->
      USERNAME = None \/ USERNAME = Some "" ->
      get_current_username USER USERNAME = "unknown").
Proof.
  unfold get_current_username, getenv_or, or_str.
  split; [| split; [| split]].
  - destruct USER as [u|], USERNAME as [n|]; try done.
    + destruct (String.eqb u "") eqn:Eu; [| by apply String.eqb_neq].
      destruct (String.eqb n "") eqn:En; [done | by apply String.eqb_neq].
    + destruct (String.eqb u "") eqn:Eu; [done | by apply String.eqb_neq].
    + destruct (String.eqb n "") eqn:En; [done | by apply String.eqb_neq].
  - intros u -> Hu. by rewrite (eqb_empty_false u Hu).
  - intros [-> | ->] u -> Hu; cbn; by rewrite (eqb_empty_false u Hu).
  - by intros [-> | ->] [-> | ->].
Qed.

End PasswordlessToggle.

(* ===================================================================== *)
(** ** The tray menu, the uptime text and the retries of the second
       instance *)
(* ===================================================================== *)

Section SmallFunctions.

(** X15: the menu of a tray icon after [_update_menu_actions]. Start and
    Stop are never enabled together, Restart is enabled exactly when Stop
    is, Stop is enabled exactly for the status ACTIVE, and all are disabled
    exactly while the service is ACTIVATING or DEACTIVATING. *)
Theorem menu_actions_by_status (icon : NyxApp.ServiceTrayIcon) :
  (NyxApp.start_enabled (NyxApp._update_menu_actions icon) = true ->
   NyxApp.stop_enabled (NyxApp._update_menu_actions icon) = false)
  /\ NyxApp.restart_enabled (NyxApp._update_menu_actions icon)
     = NyxApp.stop_enabled (NyxApp._update_menu_actions icon)
  /\ (NyxApp.stop_enabled (NyxApp._update_menu_actions icon) = true
      <-> NyxApp.current_status icon = ServiceStatus.ACTIVE)
  /\ (NyxApp.start_enabled (NyxApp._update_menu_actions icon) = false
      /\ NyxApp.stop_enabled (NyxApp._update_menu_actions icon) = false
      <-> NyxApp.current_status icon = ServiceStatus.ACTIVATING
          \/ NyxApp.current_status icon = ServiceStatus.DEACTIVATING).
Proof.
  unfold NyxApp._update_menu_actions.
  destruct (NyxApp.current_status icon); vm_compute; intuition congruence.
Qed.

Lemma div_eucl_div_mod (a b : Z) : Z.div_eucl a b = ((a / b)%Z, (a mod b)%Z).
Proof. unfold Z.div, Z.modulo. by destruct (Z.div_eucl a b). Qed.

(** X16: [get_uptime_str] is "N/A" without an uptime. For an uptime of
    u seconds it shows seconds below a minute, minutes and seconds below an
    hour, and hours and minutes from an hour on, where what the text leaves
    out is less than a minute. *)
Theorem get_uptime_str_ranges (self : ServiceInfo.t) :
  (ServiceInfo.uptime self = None -> ServiceInfo.get_uptime_str self = "N/A")
  /\ (forall u,
        ServiceInfo.uptime self = Some u ->
        (0 <= u)%Z ->
        ((u < 60)%Z ->
         ServiceInfo.get_uptime_str self = ServiceInfo.str u +:+ "s")
        /\ ((60 <= u < 3600)%Z ->
            ServiceInfo.get_uptime_str self
            = ServiceInfo.str (u / 60) +:+ "m "
              +:+ ServiceInfo.str (u mod 60) +:+ "s")
        /\ ((3600 <= u)%Z ->
            ServiceInfo.get_uptime_str self
            = ServiceInfo.str (u / 3600) +:+ "h "
              +:+ ServiceInfo.str (u mod 3600 / 60) +:+ "m"
            /\ (0 <= u - (3600 * (u / 3600) + 60 * (u mod 3600 / 60)) < 60)%Z)).
Proof.
  unfold ServiceInfo.get_uptime_str. split; [by intros -> |].
  intros u -> Hu. rewrite !div_eucl_div_mod.
  pose proof (Z.mod_pos_bound u 3600 ltac:(lia)) as Hm.
  pose proof (Z.div_mod u 3600 ltac:(lia)) as Hdm.
  pose proof (Z.mod_pos_bound (u mod 3600) 60 ltac:(lia)) as Hm2.
  pose proof (Z.div_mod (u mod 3600) 60 ltac:(lia)) as Hdm2.
  split; [| split].
  - intros Hlt.
    rewrite (Z.div_small u 3600), (Z.mod_small u 3600) by lia.
    rewrite (Z.div_small u 60), (Z.mod_small u 60) by lia. done.
  - intros [Hge Hlt].
    rewrite (Z.div_small u 3600), (Z.mod_small u 3600) by lia.
    assert (0 < u / 60)%Z as Hq by (apply Z.div_str_pos; lia).
    cbn [Z.gtb Z.compare]. destruct (u / 60 >? 0)%Z eqn:E; [done | lia].
  - intros Hge.
    assert (0 < u / 3600)%Z as Hq by (apply Z.div_str_pos; lia).
    destruct (u / 3600 >? 0)%Z eqn:E; [| lia]. split; [done | lia].
Qed.

Lemma get_uptime_str_ranges_witness :
  ServiceInfo.get_uptime_str
    (ServiceInfo.mk nginx ServiceStatus.ACTIVE (Some 9240%Z) None)
  = "2h 34m".
Proof.
  destruct (get_uptime_str_ranges
              (ServiceInfo.mk nginx ServiceStatus.ACTIVE (Some 9240%Z) None))
    as [_ H].
  destruct (H 9240%Z eq_refl ltac:(lia)) as (_ & _ & Hh).
  destruct (Hh ltac:(lia)) as [-> _]. reflexivity.
Defined.

(** X17: [send_show_window_signal] returns [True] exactly when one of
    its five attempts connects. It sleeps 100, 200, 500 and 1000 ms after the
    failed attempts that are followed by another one, so it never sleeps
    after the fifth attempt and never more than 1.8 s in all. *)
Theorem send_show_window_signal_retries (connected : nat -> bool) :
  ((Main.send_show_window_signal connected).1 = true
   <-> exists attempt, (attempt < 5)%nat /\ connected attempt = true)
  /\ (forall attempt,
        (attempt < 5)%nat -> connected attempt = true ->
        (forall earlier, (earlier < attempt)%nat -> connected earlier = false) ->
        Main.send_show_window_signal connected
        = (true, take attempt [100; 200; 500; 1000]%Z))
  /\ ((Main.send_show_window_signal connected).1 = false ->
      (Main.send_show_window_signal connected).2 = [100; 200; 500; 1000]%Z)
  /\ (foldr Z.add 0 (Main.send_show_window_signal connected).2 <= 1800)%Z.
Proof.
  unfold Main.send_show_window_signal, Main.max_retries.
  cbn [Main.attempts_from].
  split; [| split; [| split]].
  - split.
    + destruct (connected 0) eqn:E0; [by exists 0; split; [lia |] |].
      destruct (connected 1) eqn:E1; [by exists 1; split; [lia |] |].
      destruct (connected 2) eqn:E2; [by exists 2; split; [lia |] |].
      destruct (connected 3) eqn:E3; [by exists 3; split; [lia |] |].
      destruct (connected 4) eqn:E4; [by exists 4; split; [lia |] |].
      done.
    + intros (i & Hi & Hc).
      destruct (connected 0) eqn:E0; [done |].
      destruct (connected 1) eqn:E1; [done |].
      destruct (connected 2) eqn:E2; [done |].
      destruct (connected 3) eqn:E3; [done |].
      destruct (connected 4) eqn:E4; [done |].
      destruct i as [|[|[|[|[|i]]]]]; try congruence. lia.
  - intros i Hi Hc Hbefore.
    destruct i as [|[|[|[|[|i]]]]]; [| | | | | lia].
    + by rewrite Hc.
    + by rewrite (Hbefore 0), Hc by lia.
    + by rewrite (Hbefore 0), (Hbefore 1), Hc by lia.
    + by rewrite (Hbefore 0), (Hbefore 1), (Hbefore 2), Hc by lia.
    + by rewrite (Hbefore 0), (Hbefore 1), (Hbefore 2), (Hbefore 3), Hc by lia.
  - by destruct (connected 0), (connected 1), (connected 2), (connected 3),
      (connected 4).
  - by destruct (connected 0), (connected 1), (connected 2), (connected 3),
      (connected 4).
Qed.

Lemma send_show_window_signal_retries_witness :
  Main.send_show_window_signal (fun attempt => (2 <=? attempt)%nat)
  = (true, [100; 200]%Z).
Proof.
  destruct (send_show_window_signal_retries (fun attempt => (2 <=? attempt)%nat))
    as (_ & H & _).
  apply (H 2%nat).
  - lia.
  - reflexivity.
  - intros earlier Hlt. apply Nat.leb_gt. exact Hlt.
Defined.

End SmallFunctions.

(* ===================================================================== *)
(** ** The dialogs: what they accept and what they build *)
(* ===================================================================== *)

Section Dialogs.

Lemma chosen_icon_not_empty (path : option string) (input : string) :
  AddServiceDialog.chosen_icon path input <> "".
Proof.
  unfold AddServiceDialog.chosen_icon.
  destruct path as [p|].
  - destruct (String.eqb p "") eqn:Ep; cbn [negb];
      [| by apply String.eqb_neq].
    destruct (String.eqb (strip input) "") eqn:Et;
      [done | by apply String.eqb_neq].
  - destruct (String.eqb (strip input) "") eqn:Et;
      [done | by apply String.eqb_neq].
Qed.

Lemma unless_base_same (icon : string) :
  AddServiceDialog.unless_base icon icon = None.
Proof. unfold AddServiceDialog.unless_base. by rewrite String.eqb_refl. Qed.

Lemma unless_base_canonical (x icon : string) :
  x <> "" ->
  ServiceConfig.canonical_icon (AddServiceDialog.unless_base x icon) icon
  = AddServiceDialog.unless_base x icon.
Proof.
  intros Hx. unfold AddServiceDialog.unless_base, ServiceConfig.canonical_icon.
  destruct (String.eqb x icon) eqn:E; cbn [negb ServiceConfig.themed]; [done |].
  by rewrite (eqb_empty_false x Hx), E.
Qed.

(** The record both dialogs hand to the constructor. *)
Lemma dialog_record (n d light dark ty : string) (a e : bool)
    (s : ServiceConfig.t) :
  dark <> "" ->
  ServiceConfig.make n d light (AddServiceDialog.unless_base light light)
    (AddServiceDialog.unless_base dark light) ty a e = Returns s ->
  ServiceConfig.valid s
  /\ s = ServiceConfig.mk n (if String.eqb d "" then capitalize n else d) light
           None (AddServiceDialog.unless_base dark light) ty a e
  /\ ServiceConfig.canonical_icons s
  /\ ServiceConfig.from_dict (ServiceConfig.to_dict s) = Returns s.
Proof.
  intros Hd Hmake.
  assert (ServiceConfig.valid s) as Hv by (by eapply new_Returns_valid).
  assert (s = ServiceConfig.mk n (if String.eqb d "" then capitalize n else d)
                light None (AddServiceDialog.unless_base dark light) ty a e)
    as Hs.
  { rewrite unless_base_same in Hmake.
    destruct (decide (n = "")) as [-> | Hn]; [discriminate Hmake |].
    destruct (ServiceConfig.in_user_system (PStr ty)) eqn:Hty.
    - apply in_user_system_str in Hty.
      rewrite make_Returns in Hmake by done. by injection Hmake as <-.
    - unfold ServiceConfig.make in Hmake.
      rewrite (proj2 (new_Raises_ValueError _ _ _ _ _ _ _ _)) in Hmake
        by (by right).
      discriminate Hmake. }
  assert (ServiceConfig.canonical_icons s) as Hc.
  { subst s. split; cbn; [done | by apply unless_base_canonical]. }
  split; [done |]. split; [done |]. split; [done |].
  rewrite from_dict_to_dict by done. f_equal.
  by apply normalize_icons_fixpoint.
Qed.


(** X18: [_on_accept] of the add dialog. It refuses exactly a name that
    is empty once stripped. A record it makes is valid, has the stripped
    name, a display name that defaults to the name capitalized, an icon that
    is not empty, the check boxes' values, and themed icons that [to_dict]
    and [from_dict] give back unchanged. The construction raises ValueError
    exactly for a type that is neither empty, "user" nor "system". *)
Theorem add_dialog_on_accept (self : AddServiceDialog.t) :
  (AddServiceDialog._on_accept self = None
   <-> strip (AddServiceDialog.name_input self) = "")
  /\ (forall s,
        AddServiceDialog._on_accept self = Some (Returns s) ->
        ServiceConfig.valid s
        /\ ServiceConfig.name s = strip (AddServiceDialog.name_input self)
        /\ (strip (AddServiceDialog.display_name_input self) = "" ->
            ServiceConfig.display_name s = capitalize (ServiceConfig.name s))
        /\ ServiceConfig.icon s <> ""
        /\ ServiceConfig.icon_light s = None
        /\ ServiceConfig.canonical_icons s
        /\ ServiceConfig.auto_start s = AddServiceDialog.auto_start_checkbox self
        /\ ServiceConfig.enabled s = AddServiceDialog.enabled_checkbox self
        /\ ServiceConfig.from_dict (ServiceConfig.to_dict s) = Returns s)
  /\ (AddServiceDialog._on_accept self = Some (Raises ValueError)
      <-> strip (AddServiceDialog.name_input self) <> ""
          /\ strip (AddServiceDialog.service_type_input self) <> ""
          /\ strip (AddServiceDialog.service_type_input self) <> "user"
          /\ strip (AddServiceDialog.service_type_input self) <> "system").
Proof.
  unfold AddServiceDialog._on_accept.
  destruct (String.eqb (strip (AddServiceDialog.name_input self)) "") eqn:En.
  - apply String.eqb_eq in En.
    split; [done |]. split; [done |]. split; [done | by intros [? _]].
  - apply String.eqb_neq in En. split; [done |]. split.
    + intros s Hs.
      pose proof (chosen_icon_not_empty (AddServiceDialog._light_icon_path self)
                    (AddServiceDialog.light_icon_input self)) as Hl.
      pose proof (chosen_icon_not_empty (AddServiceDialog._dark_icon_path self)
                    (AddServiceDialog.dark_icon_input self)) as Hd.
      injection Hs as Hs.
      destruct (dialog_record _ _ _ _ _ _ _ _ Hd Hs) as (Hv & -> & Hc & Hrt).
      cbn [ServiceConfig.name ServiceConfig.display_name ServiceConfig.icon
           ServiceConfig.icon_light ServiceConfig.auto_start
           ServiceConfig.enabled].
      repeat (split; [done |]). split; [| done].
      intros ->. cbn.
      destruct (String.eqb (capitalize _) "") eqn:E; [| done].
      by apply String.eqb_eq in E.
    + rewrite (inj_iff Some). unfold ServiceConfig.make.
      rewrite new_Raises_ValueError.
      rewrite <- !not_true_iff_false, truthy_str, in_user_system_str.
      destruct (String.eqb (strip (AddServiceDialog.service_type_input self)) "")
        eqn:Et.
      * apply String.eqb_eq in Et. split; [| by intros (_ & ? & _)].
        intros [H | H]; [done |]. exfalso. apply H. by left.
      * apply String.eqb_neq in Et. split.
        -- intros [H | H]; [done |]. split; [done |]. split; [done |].
           split; intros Heq; apply H; [by left | by right].
        -- intros (_ & _ & Hu & Hs). right. by intros [? | ?].
Qed.

Lemma add_dialog_on_accept_witness :
  exists s,
    AddServiceDialog._on_accept
      (AddServiceDialog.mk " nginx " "" "" "nginx-dark" "system" false true
         None None)
    = Some (Returns s)
    /\ ServiceConfig.name s = "nginx"
    /\ ServiceConfig.display_name s = "Nginx".
Proof.
  destruct (AddServiceDialog._on_accept
              (AddServiceDialog.mk " nginx " "" "" "nginx-dark" "system" false
                 true None None)) as [[s | x |]|] eqn:E; try discriminate E.
  exists s. split; [reflexivity |].
  destruct (add_dialog_on_accept
              (AddServiceDialog.mk " nginx " "" "" "nginx-dark" "system" false
                 true None None)) as (_ & H & _).
  destruct (H s E) as (_ & Hn & Hd & _).
  split; [exact Hn |]. rewrite (Hd eq_refl), Hn. reflexivity.
Defined.

Lemma edit_dialog_accepted (self : EditServiceDialog.t) (s : ServiceConfig.t) :
  EditServiceDialog._on_accept self = Some (Returns s) ->
  strip (EditServiceDialog.display_name_input self) <> ""
  /\ ServiceConfig.valid s
  /\ ServiceConfig.key s
     = ServiceConfig.key (EditServiceDialog.original_config self)
  /\ ServiceConfig.display_name s
     = strip (EditServiceDialog.display_name_input self)
  /\ ServiceConfig.icon s <> ""
  /\ ServiceConfig.icon_light s = None
  /\ ServiceConfig.canonical_icons s
  /\ ServiceConfig.from_dict (ServiceConfig.to_dict s) = Returns s.
Proof.
  unfold EditServiceDialog._on_accept.
  destruct (String.eqb (strip (EditServiceDialog.display_name_input self)) "")
    eqn:Ed; [done |].
  intros [= Hs]. apply String.eqb_neq in Ed as Hne.
  pose proof (chosen_icon_not_empty (EditServiceDialog._light_icon_path self)
                (EditServiceDialog.light_icon_input self)) as Hl.
  pose proof (chosen_icon_not_empty (EditServiceDialog._dark_icon_path self)
                (EditServiceDialog.dark_icon_input self)) as Hd.
  destruct (dialog_record _ _ _ _ _ _ _ _ Hd Hs) as (Hv & -> & Hc & Hrt).
  rewrite Ed in *. do 7 (split; [done |]). done.
Qed.

Lemma edit_dialog_keeps_key d l k a e lp dp :
  keeps_key (edit_dialog d l k a e lp dp).
Proof.
  intros original updated. unfold edit_dialog.
  destruct (EditServiceDialog._on_accept _) as [[s | x |]|] eqn:E; try done.
  intros [= <-]. by apply edit_dialog_accepted in E as (_ & _ & Hk & _).
Qed.

(** X19: [_on_accept] of the edit dialog, opened on a valid record. It
    refuses exactly a display name that is empty once stripped. Otherwise it
    makes a valid record with the key of the original record, the stripped
    display name, an icon that is not empty, and themed icons that [to_dict]
    and [from_dict] give back unchanged. *)
Theorem edit_dialog_on_accept (self : EditServiceDialog.t) :
  ServiceConfig.valid (EditServiceDialog.original_config self) ->
  (EditServiceDialog._on_accept self = None
   <-> strip (EditServiceDialog.display_name_input self) = "")
  /\ (strip (EditServiceDialog.display_name_input self) <> "" ->
      exists s,
        EditServiceDialog._on_accept self = Some (Returns s)
        /\ ServiceConfig.valid s
        /\ ServiceConfig.key s
           = ServiceConfig.key (EditServiceDialog.original_config self)
        /\ ServiceConfig.display_name s
           = strip (EditServiceDialog.display_name_input self)
        /\ ServiceConfig.icon s <> ""
        /\ ServiceConfig.icon_light s = None
        /\ ServiceConfig.canonical_icons s
        /\ ServiceConfig.from_dict (ServiceConfig.to_dict s) = Returns s).
Proof.
  intros (Hn & Hty & _). split.
  - unfold EditServiceDialog._on_accept.
    destruct (String.eqb _ "") eqn:Ed.
    + by apply String.eqb_eq in Ed.
    + by apply String.eqb_neq in Ed.
  - intros Hd.
    assert (exists s, EditServiceDialog._on_accept self = Some (Returns s))
      as [s Hs].
    { unfold EditServiceDialog._on_accept.
      rewrite (eqb_empty_false _ Hd). rewrite make_Returns by done.
      by eexists. }
    exists s. split; [done |].
    by apply edit_dialog_accepted in Hs as (_ & ?).
Qed.

Lemma edit_dialog_on_accept_witness :
  exists s,
    EditServiceDialog._on_accept
      (EditServiceDialog.mk nginx " Proxy " "" "nginx-dark" true true None None)
    = Some (Returns s)
    /\ ServiceConfig.key s = ("nginx", "system")
    /\ ServiceConfig.display_name s = "Proxy".
Proof.
  destruct (edit_dialog_on_accept
              (EditServiceDialog.mk nginx " Proxy " "" "nginx-dark" true true
                 None None)) as [_ H].
  - unfold ServiceConfig.valid. simpl. repeat split; try discriminate. by right.
  - destruct H as (s & Hs & _ & Hkey & Hd & _); [discriminate |].
    exists s. split; [exact Hs |]. split; [exact Hkey | exact Hd].
Defined.

End Dialogs.

(* ===================================================================== *)
(** ** The registry: distinct identity keys *)
(* ===================================================================== *)

Section RegistryInvariant.
Import ConfigManager.

Lemma get_service_has_key (self : t) (n ty : string)
    (original : ServiceConfig.t) :
  get_service self n ty = Some original -> ServiceConfig.key original = (n, ty).
Proof.
  unfold get_service. intros H.
  apply List.find_some in H as [_ H]. by apply has_key_iff.
Qed.

(** C2: the records of the registry keep distinct (name, service_type)
    keys. [__init__] starts with no record; from a registry with distinct
    keys, [add_service] and [remove_service] leave distinct keys, and so
    does [update_service] for an updated record that has the key it
    replaces. That is the record its caller passes: the one the edit dialog
    gives when opened on the record found under the key. [set_setting]
    does not touch the records. *)
Theorem registry_keys_stay_distinct (self : t) (fs : files) :
  unique_keys (services self) ->
  unique_keys (services init)
  /\ (forall s, unique_keys (services (add_service self fs s).1.2))
  /\ (forall n ty, unique_keys (services (remove_service self fs n ty).1.2))
  /\ (forall n ty u,
        ServiceConfig.key u = (n, ty) ->
        unique_keys (services (update_service self fs n ty u).1.2))
  /\ (forall n ty original d l k a e lp dp u,
        get_service self n ty = Some original ->
        edit_dialog d l k a e lp dp original = Some u ->
        ServiceConfig.key u = (n, ty)
        /\ unique_keys (services (update_service self fs n ty u).1.2))
  /\ (forall k v, services (set_setting self fs k v).1 = services self).
Proof.
  intros Hu. split; [apply NoDup_nil_2 |].
  split; [intros s; by apply add_service_unique_keys |].
  split; [intros n ty; by apply remove_service_unique_keys |].
  split; [intros n ty u Hk; apply update_service_unique_keys; [done | by left] |].
  split; [| done].
  intros n ty original d l k a e lp dp u Hget Hd.
  assert (ServiceConfig.key u = (n, ty)) as Hk.
  { rewrite (edit_dialog_keeps_key d l k a e lp dp original u Hd).
    by apply (get_service_has_key self). }
  split; [done |]. apply update_service_unique_keys; [done | by left].
Qed.

(** C2 on a registry of two services: the record that the edit dialog
    gives for "postgresql" goes in under the same key. *)
Lemma registry_keys_stay_distinct_witness :
  exists u,
    edit_dialog "Database" "" "" false true None None
      (ServiceConfig.mk "postgresql" "Postgresql" "db" None None "system"
         false true)
    = Some u
    /\ ServiceConfig.key u = ("postgresql", "system")
    /\ unique_keys
         (services
            (update_service
               (mk [ ServiceConfig.mk "postgresql" "Postgresql" "db" None None
                       "system" false true;
                     nginx ] default_settings)
               (mk_files None None true) "postgresql" "system" u).1.2).
Proof.
  destruct (edit_dialog "Database" "" "" false true None None
              (ServiceConfig.mk "postgresql" "Postgresql" "db" None None
                 "system" false true)) as [u|] eqn:E; [| discriminate E].
  exists u. split; [reflexivity |].
  assert (unique_keys
            (services
               (mk [ ServiceConfig.mk "postgresql" "Postgresql" "db" None None
                       "system" false true;
                     nginx ] default_settings))) as Hu.
  { unfold unique_keys. simpl. apply NoDup_cons. split.
    - intros [[=] | []%elem_of_nil]%elem_of_cons.
    - apply NoDup_singleton. }
  destruct (registry_keys_stay_distinct
              (mk [ ServiceConfig.mk "postgresql" "Postgresql" "db" None None
                      "system" false true;
                    nginx ] default_settings)
              (mk_files None None true) Hu) as (_ & _ & _ & _ & H & _).
  apply (H "postgresql" "system"
           (ServiceConfig.mk "postgresql" "Postgresql" "db" None None "system"
              false true)
           "Database" "" "" false true None None u); [reflexivity | exact E].
Defined.

End RegistryInvariant.

(* ===================================================================== *)
(** ** Notifications: what a request touches *)
(* ===================================================================== *)

Section NotificationFacts.
Import NotificationManager.

Lemma deliver_cases time_time (nm : t) (r : request) (key display_name : string) :
  deliver time_time nm r key display_name
  = mk (_last_notification nm) (sent nm) (S (clock_reads nm))
  \/ deliver time_time nm r key display_name
     = mk (<[key := time_time (S (clock_reads nm))]> (_last_notification nm))
          (sent nm ++ [notification_of r display_name])
          (S (S (clock_reads nm))).
Proof.
  destruct (Qlt_le_dec (time_time (clock_reads nm) - last_time nm key)
              NOTIFICATION_RATE_LIMIT) as [H | H].
  - left. by apply deliver_suppressed.
  - right. by apply deliver_allowed.
Qed.

(** X20: a service notification touches the rate limiter of its own
    service name only: the time recorded for every other name is as before.
    It sends nothing or exactly its own notification, and reads the clock
    once or twice. *)
Theorem deliver_leaves_other_names (time_time : nat -> Q) (nm : t)
    (r : request) (key display_name other : string) :
  other <> key ->
  last_time (deliver time_time nm r key display_name) other = last_time nm other
  /\ (sent (deliver time_time nm r key display_name) = sent nm
      \/ sent (deliver time_time nm r key display_name)
         = sent nm ++ [notification_of r display_name])
  /\ (clock_reads nm < clock_reads (deliver time_time nm r key display_name)
      <= clock_reads nm + 2)%nat.
Proof.
  intros Hne.
  destruct (deliver_cases time_time nm r key display_name) as [-> | ->];
    unfold last_time; cbn [_last_notification sent clock_reads].
  - split; [done |]. split; [by left | lia].
  - rewrite lookup_insert_ne by done. split; [done |]. split; [by right | lia].
Qed.

Lemma deliver_leaves_other_names_witness :
  last_time
    (deliver (clock_at (1000 # 1)) init Started "nginx" "Nginx") "docker"
  = last_time init "docker".
Proof.
  apply (deliver_leaves_other_names (clock_at (1000 # 1)) init Started
           "nginx" "Nginx" "docker").
  discriminate.
Defined.

End NotificationFacts.

(* ===================================================================== *)
(** ** The poll tick and the action handlers *)
(* ===================================================================== *)

Section TickFacts.
Import NyxApp.

Lemma deliver_sent_extends time_time nm r key display_name :
  exists tail,
    NotificationManager.sent (deliver time_time nm r key display_name)
    = NotificationManager.sent nm ++ tail.
Proof.
  destruct (deliver_cases time_time nm r key display_name) as [-> | ->];
    cbn [NotificationManager.sent].
  - exists []. by rewrite app_nil_r.
  - by eexists.
Qed.

Lemma update_one_sent_extends run time_time cm nm item :
  exists tail,
    NotificationManager.sent (update_one run time_time cm nm item).2
    = NotificationManager.sent nm ++ tail.
Proof.
  destruct item as [[n ty] icon].
  destruct (decide (current_status icon = queried run (n, ty))) as [He | Hne].
  - destruct (update_one_unchanged run time_time cm nm n ty icon He) as [-> _].
    exists []. by rewrite app_nil_r.
  - rewrite update_one_changed by done. cbn [snd].
    destruct (truthy _); [| by exists []; rewrite app_nil_r].
    destruct (significant _ _); [apply deliver_sent_extends |].
    exists []. by rewrite app_nil_r.
Qed.

Lemma update_items_sent_extends run time_time cm nm items :
  exists tail,
    NotificationManager.sent (update_items run time_time cm nm items).2
    = NotificationManager.sent nm ++ tail.
Proof.
  revert nm. induction items as [|item items IH]; intros nm.
  - exists []. by rewrite app_nil_r.
  - cbn [update_items].
    destruct (update_one_sent_extends run time_time cm nm item) as [t1 H1].
    destruct (update_one run time_time cm nm item) as [item' nm'].
    destruct (IH nm') as [t2 H2].
    destruct (update_items run time_time cm nm' items) as [rest' nm''].
    cbn [snd] in *. exists (t1 ++ t2). by rewrite H2, H1, app_assoc.
Qed.

Lemma update_all_services_sent_extends run time_time self :
  exists tail,
    NotificationManager.sent
      (notification_manager (update_all_services run time_time self))
    = NotificationManager.sent (notification_manager self) ++ tail.
Proof.
  unfold update_all_services.
  destruct (update_items_sent_extends run time_time (config_manager self)
              (notification_manager self) (tray_icons self)) as [tail H].
  destruct (update_items _ _ _ _ _) as [icons nm]. by exists tail.
Qed.

Lemma update_items_settled run time_time cm nm items :
  Forall (fun item => current_status item.2 = queried run item.1) items ->
  update_items run time_time cm nm items = (items, nm).
Proof.
  induction 1 as [|[[n ty] icon] items Hitem _ IH]; [done |].
  cbn [update_items].
  destruct (update_one_unchanged run time_time cm nm n ty icon Hitem) as [-> _].
  by rewrite IH.
Qed.

Lemma update_all_services_refreshes run time_time self :
  tray_icons (update_all_services run time_time self)
  = map (refreshed run) (tray_icons self).
Proof.
  unfold update_all_services.
  pose proof (update_items_refreshes run time_time (config_manager self)
                (notification_manager self) (tray_icons self)) as H.
  by destruct (update_items _ _ _ _ _) as [icons nm].
Qed.

Lemma update_all_services_settled run time_time self :
  Forall (fun item => current_status item.2 = queried run item.1)
    (tray_icons self) ->
  update_all_services run time_time self = self.
Proof.
  intros H. unfold update_all_services.
  rewrite update_items_settled by done. by destruct self.
Qed.

(** X21: [update_all_services] settles. A second poll in which
    systemctl answers as in the first changes nothing: no tray icon changes
    and no notification is sent, whatever the clock says. *)
Theorem second_tick_changes_nothing
    (run : list string -> ServiceManager.run_result)
    (time_time time_time' : nat -> Q) (self : t) :
  update_all_services run time_time' (update_all_services run time_time self)
  = update_all_services run time_time self.
Proof.
  apply update_all_services_settled.
  rewrite update_all_services_refreshes.
  apply Forall_forall. intros item [x [-> _]]%list_elem_of_fmap. done.
Qed.


Lemma handle_eq q run time_time rule self service_name service_type :
  handle q run time_time rule self service_name service_type
  = requested run time_time
      (perform (request_action q) run (Some (config_manager self)) rule)
      (request_title q) (action_word (request_action q)) self
      service_name service_type.
Proof. by destruct q. Qed.

(** X22: the handlers [_on_start_requested], [_on_stop_requested] and
    [_on_restart_requested]. After a successful action the handler does
    what a poll does. After a failed one an error notification with the
    handler's title and the error text is sent first, whatever the rate
    limiter holds.
    In both cases every tray icon then shows the status queried and the
    configuration is untouched. *)
Theorem failed_action_is_notified (q : tray_request)
    (run : list string -> ServiceManager.run_result) (time_time : nat -> Q)
    (rule : PolkitHelper.rule_file) (self : t)
    (service_name service_type : string) :
  ((perform (request_action q) run (Some (config_manager self)) rule
      service_name (String.eqb service_type "user")).1 = true ->
   handle q run time_time rule self service_name service_type
   = update_all_services run time_time self)
  /\ (forall error,
        perform (request_action q) run (Some (config_manager self)) rule
          service_name (String.eqb service_type "user") = (false, error) ->
        exists tail,
          NotificationManager.sent
            (notification_manager
               (handle q run time_time rule self service_name service_type))
          = NotificationManager.sent (notification_manager self)
            ++ [NotificationManager.mk_notification (request_title q)
                  ("Failed to " +:+ action_word (request_action q) +:+ " "
                   +:+ service_name +:+ ":"
                   +:+ String "010"%char (str_error error))
                  "critical"]
            ++ tail)
  /\ tray_icons (handle q run time_time rule self service_name service_type)
     = map (refreshed run) (tray_icons self)
  /\ config_manager (handle q run time_time rule self service_name service_type)
     = config_manager self.
Proof.
  rewrite handle_eq. unfold requested.
  destruct (perform _ _ _ _ _ _) as [success error].
  split; [| split; [| split]].
  - cbn [fst]. intros ->. cbn [negb]. by destruct self.
  - intros error' [= -> ->]. cbn [negb].
    destruct (update_all_services_sent_extends run time_time
                (mk (config_manager self)
                   (NotificationManager.notify_error (notification_manager self)
                      (request_title q)
                      ("Failed to " +:+ action_word (request_action q) +:+ " "
                       +:+ service_name +:+ ":"
                       +:+ String "010"%char (str_error error')))
                   (tray_icons self))) as [tail H].
    exists tail. rewrite H. cbn. by rewrite <- app_assoc.
  - by rewrite update_all_services_refreshes.
  - unfold update_all_services. by destruct (update_items _ _ _ _ _).
Qed.

Lemma failed_action_is_notified_witness :
  exists tail,
    NotificationManager.sent
      (notification_manager
         (handle RequestStart (fun _ => ServiceManager.TimeoutExpired)
            (clock_at (1000 # 1)) PolkitHelper.Absent
            (mk (ConfigManager.mk [nginx] default_settings)
               NotificationManager.init [])
            "nginx" "system"))
    = NotificationManager.sent NotificationManager.init
      ++ [NotificationManager.mk_notification "Service Start Failed"
            ("Failed to start nginx:"
             +:+ String "010"%char "Timeout while trying to start nginx")
            "critical"]
      ++ tail.
Proof.
  destruct (failed_action_is_notified RequestStart
              (fun _ => ServiceManager.TimeoutExpired) (clock_at (1000 # 1))
              PolkitHelper.Absent
              (mk (ConfigManager.mk [nginx] default_settings)
                 NotificationManager.init [])
              "nginx" "system") as (_ & H & _).
  apply (H (Some "Timeout while trying to start nginx")). reflexivity.
Defined.

(** X23: the rate limiter is keyed by the service name alone. When a
    user service and a system service of the same name both change to a
    status worth a notification within one poll, and the window of the name
    is open, only the first of the two is notified. *)
Theorem same_name_shares_the_window
    (run : list string -> ServiceManager.run_result) (time_time : nat -> Q)
    (cm : ConfigManager.t) (nm : NotificationManager.t) (service_name : string)
    (user_icon system_icon : ServiceTrayIcon) (r1 r2 : request) :
  truthy (ConfigManager.get_setting cm "show_notifications" (PBool true)) = true ->
  current_status user_icon <> queried run (service_name, "user") ->
  current_status system_icon <> queried run (service_name, "system") ->
  significant (current_status user_icon) (queried run (service_name, "user"))
  = Some r1 ->
  significant (current_status system_icon)
    (queried run (service_name, "system")) = Some r2 ->
  (NotificationManager.NOTIFICATION_RATE_LIMIT
   <= time_time (NotificationManager.clock_reads nm)
      - last_time nm service_name)%Q ->
  (time_time (S (S (NotificationManager.clock_reads nm)))
   - time_time (S (NotificationManager.clock_reads nm))
   < NotificationManager.NOTIFICATION_RATE_LIMIT)%Q ->
  NotificationManager.sent
    (notification_manager
       (update_all_services run time_time
          (mk cm nm [ ((service_name, "user"), user_icon);
                      ((service_name, "system"), system_icon) ])))
  = NotificationManager.sent nm
    ++ [notification_of r1 (ServiceConfig.display_name (service_config user_icon))].
Proof.
  intros Hshow Hu Hs Hr1 Hr2 Hopen Hnear.
  unfold update_all_services.
  cbn [config_manager notification_manager tray_icons update_items].
  rewrite update_one_changed by done. rewrite Hshow, Hr1.
  rewrite deliver_allowed by done.
  rewrite update_one_changed by done. rewrite Hshow, Hr2.
  rewrite deliver_suppressed.
  - done.
  - unfold last_time.
    cbn [NotificationManager._last_notification NotificationManager.clock_reads].
    by rewrite lookup_insert_eq.
Qed.

End TickFacts.

Lemma same_name_shares_the_window_witness :
  NotificationManager.sent
    (NyxApp.notification_manager
       (NyxApp.update_all_services (systemctl_prints "active")
          (fun n => match n with 0 | 1 => 1000 # 1 | _ => 1001 # 1 end)
          (NyxApp.mk (ConfigManager.mk [] default_settings)
             NotificationManager.init
             [ (("nginx", "user"),
                NyxApp.mk_icon
                  (ServiceConfig.mk "nginx" "Nginx (user)" "nginx" None None
                     "user" false true)
                  ServiceStatus.INACTIVE);
               (("nginx", "system"),
                NyxApp.mk_icon nginx ServiceStatus.INACTIVE) ])))
  = [notification_of Started "Nginx (user)"].
Proof.
  apply (same_name_shares_the_window (systemctl_prints "active")
           (fun n => match n with 0 | 1 => 1000 # 1 | _ => 1001 # 1 end)
           (ConfigManager.mk [] default_settings) NotificationManager.init
           "nginx"
           (NyxApp.mk_icon
              (ServiceConfig.mk "nginx" "Nginx (user)" "nginx" None None
                 "user" false true)
              ServiceStatus.INACTIVE)
           (NyxApp.mk_icon nginx ServiceStatus.INACTIVE) Started Started).
  - reflexivity.
  - discriminate.
  - discriminate.
  - reflexivity.
  - reflexivity.
  - discriminate.
  - reflexivity.
Defined.

(* ===================================================================== *)
(** ** The application: tray icons and registry stay in step *)
(* ===================================================================== *)

Section Registered.
Import NyxApp.

Lemma tracked_iff (self : t) (key : string * string) :
  tracked self key = true <-> key ∈ (tray_icons self).*1.
Proof.
  unfold tracked. rewrite existsb_exists, list_elem_of_fmap. split.
  - intros (item & Hin & Hk). apply bool_decide_eq_true in Hk.
    exists item. split; [done | by apply list_elem_of_In].
  - intros (item & -> & Hin). exists item.
    split; [by apply list_elem_of_In | by apply bool_decide_eq_true].
Qed.

Lemma tracked_false_iff (self : t) (key : string * string) :
  tracked self key = false <-> key ∉ (tray_icons self).*1.
Proof. rewrite <- not_true_iff_false, tracked_iff. done. Qed.

Lemma update_status_config (icon : ServiceTrayIcon) (status : ServiceStatus.t) :
  service_config (update_status icon status) = service_config icon.
Proof. unfold update_status. by case_decide. Qed.

Lemma create_tray_icon_registered run (self : t) (cfg : ServiceConfig.t) :
  registered self ->
  cfg ∈ ConfigManager.services (config_manager self) ->
  registered (_create_tray_icon run self cfg).
Proof.
  intros [Hnodup Hitems] Hcfg. unfold _create_tray_icon.
  destruct (tracked self _) eqn:E; [done |].
  apply tracked_false_iff in E. split; cbn [tray_icons config_manager].
  - rewrite fmap_app. apply NoDup_app. split; [done |].
    split; [| apply NoDup_singleton].
    intros k Hk [-> | []%elem_of_nil]%elem_of_cons. done.
  - intros item [Hin | ->%list_elem_of_singleton]%elem_of_app; [by apply Hitems |].
    cbn [fst snd]. by rewrite update_status_config.
Qed.

Lemma remove_tray_icon_untracked (self : t) (n ty : string) :
  tracked (_remove_tray_icon self n ty) (n, ty) = false.
Proof.
  unfold _remove_tray_icon. destruct (tracked self (n, ty)) eqn:E; [| done].
  unfold tracked. cbn [tray_icons]. clear E.
  induction (tray_icons self) as [|x l IH]; [done |]. cbn.
  destruct (bool_decide (x.1 = (n, ty))) eqn:Ex; cbn; [done |].
  by rewrite Ex.
Qed.


Lemma remove_tray_icon_items (self : t) (n ty : string)
    (item : (string * string) * ServiceTrayIcon) :
  item ∈ tray_icons (_remove_tray_icon self n ty)
  <-> item ∈ tray_icons self /\ item.1 <> (n, ty).
Proof.
  unfold _remove_tray_icon. destruct (tracked self (n, ty)) eqn:E.
  - cbn [tray_icons]. rewrite !list_elem_of_In, List.filter_In.
    rewrite negb_true_iff, bool_decide_eq_false. done.
  - apply tracked_false_iff in E. split; [| by intros [? _]].
    intros Hin. split; [done |]. intros Hk. apply E.
    apply list_elem_of_fmap. by exists item.
Qed.

Lemma remove_tray_icon_NoDup (self : t) (n ty : string) :
  NoDup (tray_icons self).*1 ->
  NoDup (tray_icons (_remove_tray_icon self n ty)).*1.
Proof.
  intros Hnodup. unfold _remove_tray_icon.
  destruct (tracked self _); [| done]. cbn [tray_icons].
  induction (tray_icons self) as [|x l IH]; [done |].
  cbn in *. apply NoDup_cons in Hnodup as [Hx Hl].
  destruct (negb _); cbn; [| by apply IH].
  apply NoDup_cons. split; [| by apply IH].
  intros [y [Hxy Hy]]%list_elem_of_fmap. apply Hx.
  apply list_elem_of_fmap. exists y. split; [done |].
  apply list_elem_of_In. apply list_elem_of_In in Hy.
  by apply List.filter_In in Hy as [Hy _].
Qed.

Lemma remove_tray_icon_managers (self : t) (n ty : string) :
  config_manager (_remove_tray_icon self n ty) = config_manager self
  /\ notification_manager (_remove_tray_icon self n ty)
     = notification_manager self.
Proof. unfold _remove_tray_icon. by destruct (tracked self _). Qed.

Lemma elem_of_insert_other {A} (l : list A) (i : nat) (x y u : A) :
  l !! i = Some x -> y ∈ l -> y <> x -> y ∈ <[i:=u]> l.
Proof.
  intros Hi [j Hj]%list_elem_of_lookup Hne.
  apply list_elem_of_lookup. exists j.
  rewrite list_lookup_insert_ne; [done |]. intros ->. congruence.
Qed.

Lemma elem_of_insert_new {A} (l : list A) (i : nat) (x u : A) :
  l !! i = Some x -> u ∈ <[i:=u]> l.
Proof.
  intros Hi. apply list_elem_of_lookup. exists i.
  apply list_lookup_insert_eq. by apply lookup_lt_Some in Hi.
Qed.

Lemma add_service_registered run (self : t) (fs : ConfigManager.files)
    (s : ServiceConfig.t) :
  registered self -> registered (add_service run self fs s).1.
Proof.
  intros [Hnodup Hitems]. unfold add_service, ConfigManager.add_service.
  destruct (existsb _ _); cbn [fst snd]; [by destruct self |].
  assert (registered
            (mk (ConfigManager.mk
                   (ConfigManager.services (config_manager self) ++ [s])
                   (ConfigManager.settings (config_manager self)))
                (notification_manager self) (tray_icons self))) as Hreg.
  { split; [done |]. intros item Hin. destruct (Hitems item Hin) as [Hk Hs].
    split; [done |]. cbn. apply elem_of_app. by left. }
  destruct (ServiceConfig.enabled s); cbn [fst]; [| done].
  apply create_tray_icon_registered; [done |].
  cbn. apply elem_of_app. right. by apply list_elem_of_singleton.
Qed.

Lemma on_remove_requested_registered (self : t) (fs : ConfigManager.files)
    (n ty : string) (confirmed : bool) :
  registered self ->
  registered (_on_remove_requested self fs n ty confirmed).1.
Proof.
  intros [Hnodup Hitems]. unfold _on_remove_requested.
  destruct confirmed; [| done].
  destruct (ConfigManager.remove_service (config_manager self) fs n ty)
    as [[b cm] fs'] eqn:E. cbn [fst].
  assert (ConfigManager.services cm
          = List.filter (fun s => negb (ConfigManager.has_key n ty s))
              (ConfigManager.services (config_manager self))) as Hcm.
  { revert E. unfold ConfigManager.remove_service. cbn [ConfigManager.services].
    by destruct (_ <? _)%nat; intros [= _ <- _]. }
  split.
  - by apply (remove_tray_icon_NoDup (mk cm (notification_manager self)
                                        (tray_icons self))).
  - intros item [Hin Hk]%remove_tray_icon_items. cbn [tray_icons] in Hin.
    destruct (Hitems item Hin) as [Hkey Hs]. split; [done |].
    destruct (remove_tray_icon_managers
                (mk cm (notification_manager self) (tray_icons self)) n ty)
      as [-> _].
    cbn [config_manager]. rewrite Hcm.
    apply list_elem_of_In, List.filter_In. split; [by apply list_elem_of_In |].
    apply negb_true_iff, has_key_false_iff. congruence.
Qed.

Lemma update_service_services (cm : ConfigManager.t) (fs : ConfigManager.files)
    (n ty : string) (u original : ServiceConfig.t) :
  ConfigManager.get_service cm n ty = Some original ->
  exists i x,
    ConfigManager.services cm !! i = Some x
    /\ ServiceConfig.key x = (n, ty)
    /\ (ConfigManager.update_service cm fs n ty u).1.2
       = ConfigManager.mk (<[i:=u]> (ConfigManager.services cm))
           (ConfigManager.settings cm).
Proof.
  unfold ConfigManager.get_service, ConfigManager.update_service.
  rewrite find_list_find.
  destruct (list_find _ _) as [[i x]|] eqn:E; [| done]. intros _.
  apply list_find_Some in E as (Hi & Hx%has_key_iff & _).
  by exists i, x.
Qed.

Lemma get_service_key (cm : ConfigManager.t) (n ty : string)
    (original : ServiceConfig.t) :
  ConfigManager.get_service cm n ty = Some original ->
  ServiceConfig.key original = (n, ty).
Proof.
  unfold ConfigManager.get_service. intros H.
  apply List.find_some in H as [_ H]. by apply has_key_iff.
Qed.

Lemma on_edit_requested_registered run (self : t) (fs : ConfigManager.files)
    (n ty : string) (dialog : ServiceConfig.t -> option ServiceConfig.t) :
  keeps_key dialog ->
  registered self ->
  registered (_on_edit_requested run self fs n ty dialog).1.
Proof.
  intros Hdialog [Hnodup Hitems]. unfold _on_edit_requested.
  destruct (ConfigManager.get_service _ n ty) as [original|] eqn:Hget; [| done].
  destruct (dialog original) as [u|] eqn:Hd; [| done].
  apply Hdialog in Hd. rewrite (get_service_key _ _ _ _ Hget) in Hd.
  destruct (update_service_services (config_manager self) fs n ty u original Hget)
    as (i & x & Hi & Hx & Hcm).
  destruct (ConfigManager.update_service _ fs n ty u) as [[b cm] fs'].
  cbn [fst snd] in Hcm. subst cm.
  assert (forall item,
            item ∈ tray_icons self -> item.1 <> (n, ty) ->
            ServiceConfig.key (service_config item.2) = item.1
            /\ service_config item.2
               ∈ <[i:=u]> (ConfigManager.services (config_manager self)))
    as Hothers.
  { intros item Hin Hk. destruct (Hitems item Hin) as [Hkey Hs].
    split; [done |]. eapply elem_of_insert_other; [done.. |]. congruence. }
  destruct (tracked _ (n, ty)) eqn:Et; cbn [fst].
  - apply create_tray_icon_registered.
    + split; [by apply remove_tray_icon_NoDup |].
      intros item [Hin Hk]%remove_tray_icon_items.
      destruct (remove_tray_icon_managers
                  (mk (ConfigManager.mk
                         (<[i:=u]> (ConfigManager.services (config_manager self)))
                         (ConfigManager.settings (config_manager self)))
                      (notification_manager self) (tray_icons self)) n ty)
        as [-> _].
      by apply Hothers.
    + destruct (remove_tray_icon_managers
                  (mk (ConfigManager.mk
                         (<[i:=u]> (ConfigManager.services (config_manager self)))
                         (ConfigManager.settings (config_manager self)))
                      (notification_manager self) (tray_icons self)) n ty)
        as [-> _].
      cbn. by eapply elem_of_insert_new.
  - split; [done |]. intros item Hin. apply Hothers; [done |].
    apply tracked_false_iff in Et. intros Hk. apply Et.
    apply list_elem_of_fmap. by exists item.
Qed.

Lemma update_all_services_registered run time_time (self : t) :
  registered self -> registered (update_all_services run time_time self).
Proof.
  intros [Hnodup Hitems].
  assert (config_manager (update_all_services run time_time self)
          = config_manager self) as Hcm.
  { unfold update_all_services. by destruct (update_items _ _ _ _ _). }
  split.
  - rewrite update_all_services_refreshes.
    assert ((map (refreshed run) (tray_icons self)).*1 = (tray_icons self).*1)
      as ->; [| done].
    clear. induction (tray_icons self) as [|x l IH]; [done |].
    cbn. by f_equal.
  - rewrite update_all_services_refreshes, Hcm.
    intros item [x [-> Hx]]%list_elem_of_fmap. exact (Hitems x Hx).
Qed.

Lemma handle_registered q run time_time rule (self : t) (n ty : string) :
  registered self -> registered (handle q run time_time rule self n ty).
Proof.
  intros Hreg. rewrite handle_eq. unfold requested.
  destruct (perform _ _ _ _ _ _) as [success error].
  apply update_all_services_registered. by destruct Hreg.
Qed.

(** X24: the handlers keep the tray icons registered: the keys of the
    icons are distinct, and each icon sits under the key of its record,
    which is a record of the registry. This holds after [add_service],
    [_on_remove_requested], [_on_edit_requested] with the edit dialog,
    [update_all_services] and the three action handlers. *)
Theorem handlers_keep_registered
    (run : list string -> ServiceManager.run_result) (time_time : nat -> Q)
    (rule : PolkitHelper.rule_file) (self : t) (fs : ConfigManager.files) :
  registered self ->
  (forall s, registered (add_service run self fs s).1)
  /\ (forall n ty confirmed,
        registered (_on_remove_requested self fs n ty confirmed).1)
  /\ (forall n ty d l k a e lp dp,
        registered
          (_on_edit_requested run self fs n ty (edit_dialog d l k a e lp dp)).1)
  /\ registered (update_all_services run time_time self)
  /\ (forall q n ty, registered (handle q run time_time rule self n ty)).
Proof.
  intros Hreg. split; [| split; [| split; [| split]]].
  - intros s. by apply add_service_registered.
  - intros n ty confirmed. by apply on_remove_requested_registered.
  - intros n ty d l k a e lp dp.
    apply on_edit_requested_registered; [apply edit_dialog_keeps_key | done].
  - by apply update_all_services_registered.
  - intros q n ty. by apply handle_registered.
Qed.

Lemma handlers_keep_registered_witness :
  registered example_app
  /\ registered
       (add_service (systemctl_prints "active") example_app
          (ConfigManager.mk_files None None true)
          (ServiceConfig.mk "docker" "Docker" "docker" None None "system"
             false true)).1.
Proof.
  assert (registered example_app) as Hreg.
  { split.
    - apply NoDup_singleton.
    - intros item ->%list_elem_of_singleton. split; [reflexivity |].
      apply list_elem_of_singleton. reflexivity. }
  split; [exact Hreg |].
  destruct (handlers_keep_registered (systemctl_prints "active")
              (clock_at (1000 # 1)) PolkitHelper.Absent example_app
              (ConfigManager.mk_files None None true) Hreg) as [H _].
  apply H.
Defined.

Lemma on_edit_requested_unique_keys run (self : t) (fs : ConfigManager.files)
    (n ty : string) (dialog : ServiceConfig.t -> option ServiceConfig.t) :
  keeps_key dialog ->
  unique_keys (ConfigManager.services (config_manager self)) ->
  unique_keys
    (ConfigManager.services
       (config_manager (_on_edit_requested run self fs n ty dialog).1)).
Proof.
  intros Hdialog Hu. unfold _on_edit_requested.
  destruct (ConfigManager.get_service _ n ty) as [original|] eqn:Hget; [| done].
  destruct (dialog original) as [u|] eqn:Hd; [| done].
  apply Hdialog in Hd. rewrite (get_service_key _ _ _ _ Hget) in Hd.
  pose proof (update_service_unique_keys (config_manager self) fs n ty u Hu
                (or_introl Hd)) as Hu'.
  destruct (ConfigManager.update_service _ fs n ty u) as [[b cm] fs'].
  cbn [fst snd] in Hu'.
  destruct (tracked _ (n, ty)); cbn [fst]; [| done].
  unfold _create_tray_icon. destruct (tracked _ _); [| cbn [config_manager]].
  - by destruct (remove_tray_icon_managers
                   (mk cm (notification_manager self) (tray_icons self)) n ty)
      as [-> _].
  - by destruct (remove_tray_icon_managers
                   (mk cm (notification_manager self) (tray_icons self)) n ty)
      as [-> _].
Qed.

(** X25: the handlers keep the keys of the registry distinct.
    [add_service], [_on_remove_requested] and [_on_edit_requested] with the
    edit dialog, which gives back the key it was opened on, never leave two
    records with one key; the action handlers and [update_all_services]
    leave the configuration as it is. *)
Theorem handlers_keep_unique_keys
    (run : list string -> ServiceManager.run_result) (time_time : nat -> Q)
    (rule : PolkitHelper.rule_file) (self : t) (fs : ConfigManager.files) :
  unique_keys (ConfigManager.services (config_manager self)) ->
  (forall s,
     unique_keys
       (ConfigManager.services (config_manager (add_service run self fs s).1)))
  /\ (forall n ty confirmed,
        unique_keys
          (ConfigManager.services
             (config_manager (_on_remove_requested self fs n ty confirmed).1)))
  /\ (forall n ty d l k a e lp dp,
        unique_keys
          (ConfigManager.services
             (config_manager
                (_on_edit_requested run self fs n ty
                   (edit_dialog d l k a e lp dp)).1)))
  /\ (forall q n ty,
        config_manager (handle q run time_time rule self n ty)
        = config_manager self)
  /\ config_manager (update_all_services run time_time self)
     = config_manager self.
Proof.
  intros Hu.
  assert (forall app, config_manager (update_all_services run time_time app)
                      = config_manager app) as Htick.
  { intros app. unfold update_all_services. by destruct (update_items _ _ _ _ _). }
  split; [| split; [| split; [| split]]].
  - intros s. unfold add_service.
    pose proof (add_service_unique_keys (config_manager self) fs s Hu) as Hu'.
    destruct (ConfigManager.add_service _ fs s) as [[b cm] fs'].
    cbn [fst snd] in Hu'.
    destruct b; [| done]. destruct (ServiceConfig.enabled s); [| done].
    cbn [fst]. unfold _create_tray_icon. by destruct (tracked _ _).
  - intros n ty confirmed. unfold _on_remove_requested.
    destruct confirmed; [| done].
    pose proof (remove_service_unique_keys (config_manager self) fs n ty Hu)
      as Hu'.
    destruct (ConfigManager.remove_service _ fs n ty) as [[b cm] fs'].
    cbn [fst snd] in *.
    by destruct (remove_tray_icon_managers
                   (mk cm (notification_manager self) (tray_icons self)) n ty)
      as [-> _].
  - intros n ty d l k a e lp dp.
    apply on_edit_requested_unique_keys; [apply edit_dialog_keeps_key | done].
  - intros q n ty. rewrite handle_eq. unfold requested.
    destruct (perform _ _ _ _ _ _) as [success error]. by rewrite Htick.
  - apply Htick.
Qed.

Lemma handlers_keep_unique_keys_witness :
  unique_keys
    (ConfigManager.services
       (config_manager
          (_on_edit_requested (systemctl_prints "active") example_app
             (ConfigManager.mk_files None None true) "nginx" "system"
             (edit_dialog "Web server" "" "" false true None None)).1)).
Proof.
  assert (unique_keys (ConfigManager.services (config_manager example_app)))
    as Hu by apply NoDup_singleton.
  destruct (handlers_keep_unique_keys (systemctl_prints "active")
              (clock_at (1000 # 1)) PolkitHelper.Absent example_app
              (ConfigManager.mk_files None None true) Hu) as (_ & _ & H & _).
  apply H.
Defined.

Lemma create_tray_icon_managers run (self : t) (cfg : ServiceConfig.t) :
  config_manager (_create_tray_icon run self cfg) = config_manager self
  /\ notification_manager (_create_tray_icon run self cfg)
     = notification_manager self.
Proof. unfold _create_tray_icon. by destruct (tracked self _). Qed.

Lemma create_tray_icon_tracked run (self : t) (cfg : ServiceConfig.t)
    (key : string * string) :
  tracked (_create_tray_icon run self cfg) key = true
  <-> tracked self key = true \/ ServiceConfig.key cfg = key.
Proof.
  unfold _create_tray_icon.
  destruct (tracked self (ServiceConfig.name cfg, _)) eqn:E.
  - split; [by left |]. intros [H | <-]; done.
  - rewrite !tracked_iff. cbn [tray_icons]. rewrite fmap_app, elem_of_app.
    cbn. rewrite list_elem_of_singleton. unfold ServiceConfig.key.
    split; (intros [H | H]; [by left | by right]).
Qed.

Lemma update_status_current (icon : ServiceTrayIcon) (status : ServiceStatus.t) :
  current_status (update_status icon status) = status.
Proof.
  unfold update_status. by case_decide.
Qed.

Lemma create_tray_icon_settled run (self : t) (cfg : ServiceConfig.t) :
  Forall (fun item => current_status item.2 = queried run item.1)
    (tray_icons self) ->
  Forall (fun item => current_status item.2 = queried run item.1)
    (tray_icons (_create_tray_icon run self cfg)).
Proof.
  intros H. unfold _create_tray_icon. destruct (tracked self _); [done |].
  cbn [tray_icons]. apply Forall_app. split; [done |].
  apply Forall_singleton. cbn [fst snd]. by rewrite update_status_current.
Qed.

Lemma foldl_create_tray_icon run (l : list ServiceConfig.t) (self : t) :
  registered self ->
  (forall s, s ∈ l -> s ∈ ConfigManager.services (config_manager self)) ->
  Forall (fun item => current_status item.2 = queried run item.1)
    (tray_icons self) ->
  config_manager (foldl (_create_tray_icon run) self l) = config_manager self
  /\ notification_manager (foldl (_create_tray_icon run) self l)
     = notification_manager self
  /\ registered (foldl (_create_tray_icon run) self l)
  /\ (forall key,
        tracked (foldl (_create_tray_icon run) self l) key = true
        <-> tracked self key = true
            \/ exists s, s ∈ l /\ ServiceConfig.key s = key)
  /\ Forall (fun item => current_status item.2 = queried run item.1)
       (tray_icons (foldl (_create_tray_icon run) self l)).
Proof.
  revert self. induction l as [|x l IH]; intros self Hreg Hl Hs.
  - cbn. do 3 (split; [done |]). split; [| done].
    intros key. split; [by left |].
    by intros [H | (s & []%elem_of_nil & _)].
  - cbn [foldl].
    destruct (create_tray_icon_managers run self x) as [Hcm Hnm].
    destruct (IH (_create_tray_icon run self x)) as (-> & -> & Hr & Ht & Hf).
    + apply create_tray_icon_registered; [done |]. apply Hl. by left.
    + intros s Hin. rewrite Hcm. apply Hl. by right.
    + by apply create_tray_icon_settled.
    + do 3 (split; [done |]). split; [| done].
      intros key. rewrite Ht, create_tray_icon_tracked. split.
      * intros [[H | H] | (s & Hin & Hk)].
        -- by left.
        -- right. exists x. split; [by left | done].
        -- right. exists s. split; [by right | done].
      * intros [H | (s & [-> | Hin]%elem_of_cons & Hk)].
        -- by left; left.
        -- by left; right.
        -- right. by exists s.
Qed.

Lemma initialize_Some (run : list string -> ServiceManager.run_result)
    (self self' : t) (fs : ConfigManager.files) :
  tray_icons self = [] ->
  _initialize run self fs = Some self' ->
  registered self'
  /\ (forall key,
        tracked self' key = true
        <-> exists s,
              s ∈ ConfigManager.get_enabled_services (config_manager self')
              /\ ServiceConfig.key s = key)
  /\ Forall (fun item => current_status item.2 = queried run item.1)
       (tray_icons self')
  /\ notification_manager self' = notification_manager self.
Proof.
  intros Hempty. unfold _initialize.
  destruct (ConfigManager.load_config _ fs) as [[b cm]|]; [| done].
  intros [= <-]. rewrite Hempty.
  destruct (foldl_create_tray_icon run (ConfigManager.get_enabled_services cm)
              (mk cm (notification_manager self) []))
    as (Hcm & Hnm & Hr & Ht & Hf).
  - split; [apply NoDup_nil_2 |]. by intros item Hin%elem_of_nil.
  - intros s Hin. cbn [config_manager].
    apply list_elem_of_In in Hin. apply list_elem_of_In.
    by apply List.filter_In in Hin as [Hin _].
  - apply Forall_nil_2.
  - split; [done |]. split; [| by split].
    intros key. rewrite Ht, Hcm. cbn [config_manager]. split.
    + by intros [H | H].
    + intros H. by right.
Qed.

(** X26: [_initialize] on an application without tray icons, with a
    config.yaml whose service entries give their fields with the declared
    types (or one that is missing or does not load): it completes, and
    afterwards the tray icons are registered, a key has a tray icon exactly
    when an enabled service of the loaded configuration has it, and every
    icon shows the status queried. No notification is sent. *)
Theorem initialize_tracks_enabled_services
    (run : list string -> ServiceManager.run_result) (self : t)
    (fs : ConfigManager.files) :
  typed_entries fs ->
  tray_icons self = [] ->
  exists self',
    _initialize run self fs = Some self'
    /\ registered self'
    /\ (forall key,
          tracked self' key = true
          <-> exists s,
                s ∈ ConfigManager.get_enabled_services (config_manager self')
                /\ ServiceConfig.key s = key)
    /\ Forall (fun item => current_status item.2 = queried run item.1)
         (tray_icons self')
    /\ notification_manager self' = notification_manager self.
Proof.
  intros Htyped Hempty.
  destruct (load_config_typed (config_manager self) fs Htyped)
    as (b & cm & Hload).
  assert (exists self', _initialize run self fs = Some self') as [self' Hinit].
  { unfold _initialize. rewrite Hload. by eexists. }
  exists self'. split; [done |]. by apply (initialize_Some run self self' fs).
Qed.

Lemma initialize_tracks_enabled_services_witness :
  exists self',
    _initialize (systemctl_prints "active")
      (mk ConfigManager.init NotificationManager.init []) example_files
    = Some self'
    /\ registered self'
    /\ tracked self' ("nginx", "user") = true.
Proof.
  destruct (initialize_tracks_enabled_services (systemctl_prints "active")
              (mk ConfigManager.init NotificationManager.init [])
              example_files example_files_typed eq_refl)
    as (self' & Hinit & Hr & _).
  exists self'. split; [exact Hinit |]. split; [exact Hr |].
  injection Hinit as <-. reflexivity.
Defined.

Lemma elem_of_filter_other_keys
    (l : list ((string * string) * ServiceTrayIcon)) (key key' : string * string) :
  key' <> key ->
  existsb (fun item => bool_decide (item.1 = key'))
    (List.filter (fun item => negb (bool_decide (item.1 = key))) l)
  = existsb (fun item => bool_decide (item.1 = key')) l.
Proof.
  intros Hne. induction l as [|x l IH]; [done |]. cbn.
  destruct (bool_decide (x.1 = key)) eqn:E; cbn; [| by rewrite IH].
  apply bool_decide_eq_true in E.
  assert (bool_decide (x.1 = key') = false) as ->; [| done].
  apply bool_decide_eq_false. congruence.
Qed.

(** X27: after a confirmed [_on_remove_requested] the service is in
    neither the registry nor the tray, and every other key is found and
    tracked as before. When the question is declined nothing changes. *)
Theorem removed_service_is_gone (self : t) (fs : ConfigManager.files)
    (n ty : string) :
  ConfigManager.get_service
    (config_manager (_on_remove_requested self fs n ty true).1) n ty = None
  /\ tracked (_on_remove_requested self fs n ty true).1 (n, ty) = false
  /\ (forall n' ty',
        (n', ty') <> (n, ty) ->
        ConfigManager.get_service
          (config_manager (_on_remove_requested self fs n ty true).1) n' ty'
        = ConfigManager.get_service (config_manager self) n' ty'
        /\ tracked (_on_remove_requested self fs n ty true).1 (n', ty')
           = tracked self (n', ty'))
  /\ _on_remove_requested self fs n ty false = (self, fs).
Proof.
  unfold _on_remove_requested.
  assert (ConfigManager.services
            (ConfigManager.remove_service (config_manager self) fs n ty).1.2
          = List.filter (fun s => negb (ConfigManager.has_key n ty s))
              (ConfigManager.services (config_manager self))) as Hcm.
  { unfold ConfigManager.remove_service. cbn [ConfigManager.services].
    by destruct (_ <? _)%nat. }
  destruct (ConfigManager.remove_service (config_manager self) fs n ty)
    as [[b cm] fs']. cbn [fst snd] in *.
  destruct (remove_tray_icon_managers
              (mk cm (notification_manager self) (tray_icons self)) n ty)
    as [-> _].
  cbn [config_manager]. unfold ConfigManager.get_service. rewrite Hcm.
  split; [apply find_filter_removed |].
  split; [apply remove_tray_icon_untracked |].
  split; [| done]. intros n' ty' Hne.
  split; [by apply find_filter_other |].
  unfold _remove_tray_icon. destruct (tracked _ (n, ty)); [| done].
  unfold tracked. cbn [tray_icons]. by apply elem_of_filter_other_keys.
Qed.

Lemma create_after_remove run (self : t) (n ty : string) (u : ServiceConfig.t) :
  ServiceConfig.key u = (n, ty) ->
  tray_icons (_create_tray_icon run (_remove_tray_icon self n ty) u)
  = tray_icons (_remove_tray_icon self n ty)
    ++ [((n, ty), mk_icon u (queried run (n, ty)))].
Proof.
  intros Hk. unfold _create_tray_icon.
  injection Hk as Hn Hty. rewrite Hn, Hty.
  rewrite remove_tray_icon_untracked. cbn [tray_icons]. do 3 f_equal.
  unfold update_status, queried, ServiceConfig.is_user_service.
  cbn [current_status service_config fst snd]. rewrite Hty.
  case_decide as H; [done |]. by rewrite <- H.
Qed.

(** X28: [_on_edit_requested] on a service of the registry, with the
    edit dialog accepted: the registry then holds the updated record under
    the key. A service with a tray icon gets a new icon at the end of the
    tray, with the updated record and the status queried; a service without
    one gets none. *)
Theorem edited_icon_shows_update
    (run : list string -> ServiceManager.run_result) (self : t)
    (fs : ConfigManager.files) (n ty : string)
    (d l k : string) (a e : bool) (lp dp : option string)
    (original updated : ServiceConfig.t) :
  ConfigManager.get_service (config_manager self) n ty = Some original ->
  edit_dialog d l k a e lp dp original = Some updated ->
  ConfigManager.get_service
    (config_manager
       (_on_edit_requested run self fs n ty (edit_dialog d l k a e lp dp)).1)
    n ty = Some updated
  /\ (tracked self (n, ty) = true ->
      tray_icons
        (_on_edit_requested run self fs n ty (edit_dialog d l k a e lp dp)).1
      = List.filter (fun item => negb (bool_decide (item.1 = (n, ty))))
          (tray_icons self)
        ++ [((n, ty), mk_icon updated (queried run (n, ty)))])
  /\ (tracked self (n, ty) = false ->
      tray_icons
        (_on_edit_requested run self fs n ty (edit_dialog d l k a e lp dp)).1
      = tray_icons self).
Proof.
  intros Hget Hd.
  pose proof (edit_dialog_keeps_key d l k a e lp dp original updated Hd) as Hk.
  rewrite (get_service_key _ _ _ _ Hget) in Hk.
  apply has_key_iff in Hk as Hu.
  unfold _on_edit_requested. rewrite Hget, Hd.
  unfold ConfigManager.get_service in Hget. rewrite find_list_find in Hget.
  unfold ConfigManager.update_service.
  destruct (list_find _ (ConfigManager.services (config_manager self)))
    as [[i x]|] eqn:E; [| done].
  cbv iota beta zeta.
  set (cm := ConfigManager.mk
               (<[i:=updated]> (ConfigManager.services (config_manager self)))
               (ConfigManager.settings (config_manager self))).
  assert (ConfigManager.get_service cm n ty = Some updated) as Hfound.
  { unfold ConfigManager.get_service. subst cm. cbn [ConfigManager.services].
    by eapply find_insert_same_key. }
  change (tracked (mk cm (notification_manager self) (tray_icons self)) (n, ty))
    with (tracked self (n, ty)).
  destruct (tracked self (n, ty)) eqn:Et; cbn [fst].
  - destruct (create_tray_icon_managers run
                (_remove_tray_icon
                   (mk cm (notification_manager self) (tray_icons self)) n ty)
                updated) as [-> _].
    destruct (remove_tray_icon_managers
                (mk cm (notification_manager self) (tray_icons self)) n ty)
      as [-> _].
    split; [done |]. split; [| done]. intros _.
    rewrite create_after_remove by done. f_equal.
    unfold _remove_tray_icon.
    change (tracked (mk cm (notification_manager self) (tray_icons self)) (n, ty))
      with (tracked self (n, ty)).
    by rewrite Et.
  - split; [done |]. split; done.
Qed.

Lemma edited_icon_shows_update_witness :
  exists updated,
    edit_dialog "Web server" "" "" false true None None nginx = Some updated
    /\ tray_icons
         (_on_edit_requested (systemctl_prints "active") example_app
            (ConfigManager.mk_files None None true) "nginx" "system"
            (edit_dialog "Web server" "" "" false true None None)).1
       = [(("nginx", "system"), mk_icon updated ServiceStatus.ACTIVE)].
Proof.
  destruct (edit_dialog "Web server" "" "" false true None None nginx)
    as [updated|] eqn:E; [| discriminate E].
  exists updated. split; [reflexivity |].
  destruct (edited_icon_shows_update (systemctl_prints "active") example_app
              (ConfigManager.mk_files None None true) "nginx" "system"
              "Web server" "" "" false true None None nginx updated
              eq_refl E) as (_ & H & _).
  rewrite (H eq_refl). reflexivity.
Defined.

End Registered.
